(** * Host-side orchestration of the fused attention kernels

    A shallow embedding of [csrc/flash_attn/fmha_api.cpp]: the four entry
    points [mha_fwd], [mha_bwd], [mha_fwd_block] and [mha_bwd_block], the
    parameter setup [set_params_fprop] / [set_params_dgrad] and the
    head-dimension dispatch [run_fmha_fwd] / [run_fmha_bwd].

    The host code is a straight-line sequence of precondition checks,
    allocations, buffer fills, one reservation on the random generator and
    kernel launches.  It is modelled in a state-and-exception monad over a
    [World] that holds the device buffers, the generators and the log of
    generator reservations and kernel launches. *)

From Stdlib Require Import ZArith List Bool String Lia SpecFloat.
From stdpp Require Import gmap.

Local Open Scope Z_scope.

(** ** C++ [int] arithmetic

    [int] is 32 bits wide.  Narrowing from [int64_t] and the results of
    [+], [-], [*] are reduced into the signed range; signed overflow is
    undefined in C++, so statements about such results carry the
    hypothesis that the mathematical value fits. Division truncates
    towards zero. *)

Definition INT_MIN : Z := -2147483648.
Definition INT_MAX : Z := 2147483647.

Definition to_int (z : Z) : Z := (z + 2147483648) mod 4294967296 - 2147483648.

Definition int_add (a b : Z) : Z := to_int (a + b).
Definition int_sub (a b : Z) : Z := to_int (a - b).
Definition int_mul (a b : Z) : Z := to_int (a * b).
Definition int_div (a b : Z) : Z := to_int (Z.quot a b).
Definition int_rem (a b : Z) : Z := Z.rem a b.

Definition fits_int (z : Z) : Prop := INT_MIN <= z <= INT_MAX.

(** ** Floating point

    [float] and [double] values are IEEE-754 numbers in the representation
    of [SpecFloat]; the operations are the correctly rounded ones of the
    format ([prec], [emax]) = (24, 128) for [float] and (53, 1024) for
    [double]. *)

Abbreviation float := spec_float.

Definition f32_sub : float -> float -> float := SFsub 24 128.
Definition f32_mul : float -> float -> float := SFmul 24 128.
Definition f32_div : float -> float -> float := SFdiv 24 128.
Definition f32_ltb : float -> float -> bool := SFltb.
Definition f64_mul : float -> float -> float := SFmul 53 1024.
Definition f64_ltb : float -> float -> bool := SFltb.

(** [1.f] *)
Definition f32_one : float := S754_finite false 8388608 (-23).
(** [0.0] *)
Definition f64_zero : float := S754_zero false.
(** [4294967295.0] = (2^32 - 1) * 2^21 * 2^-21 *)
Definition f64_4294967295 : float := S754_finite false 9007199252643840 (-21).
(** [65535.0] = (2^16 - 1) * 2^37 * 2^-37 *)
Definition f64_65535 : float := S754_finite false 9007061815787520 (-37).
(** [-std::numeric_limits<float>::infinity()] *)
Definition f32_neg_infinity : float := S754_infinity true.

(** The implicit conversion of a [float] operand to [double]: the same
    number, renormalised to a 53-bit mantissa. *)
Definition float_to_double (x : float) : float :=
  match x with
  | S754_finite s m e => binary_round 53 1024 s m e
  | _ => x
  end.

(** [floor (m * 2^e)] for an integer [m]. *)
Definition floorZ (m e : Z) : Z := if 0 <=? e then m * 2 ^ e else m / 2 ^ (- e).

(** [std::floor] of a finite number, read as an integer; [None] for
    infinities and NaN. *)
Definition floor_to_Z (x : float) : option Z :=
  match x with
  | S754_zero _ => Some 0
  | S754_finite s m e => Some (floorZ (if s then Zneg m else Zpos m) e)
  | _ => None
  end.

(** The value an integer has once stored in a [uint32_t] field. *)
Definition uint32_of (z : Z) : Z := z mod 4294967296.

(** [uint32_t(x)] and [uint16_t(x)] of an integral [double]. The
    conversion is defined by C++ only when the value fits; outside that
    range (and for NaN and the infinities) the model wraps, respectively
    yields 0. *)
Definition to_uint32 (x : option Z) : Z :=
  match x with Some z => z mod 4294967296 | None => 0 end.
Definition to_uint16 (x : option Z) : Z :=
  match x with Some z => z mod 65536 | None => 0 end.

(** ** Tensors *)

Inductive ScalarType := kFloat16 | kBFloat16 | kFloat | kDouble | kInt32 | kInt64 | kBool.

Definition ScalarType_eqb (a b : ScalarType) : bool :=
  match a, b with
  | kFloat16, kFloat16 | kBFloat16, kBFloat16 | kFloat, kFloat
  | kDouble, kDouble | kInt32, kInt32 | kInt64, kInt64 | kBool, kBool => true
  | _, _ => false
  end.

(** A tensor handle: its metadata and the identity [t_buf] of the buffer
    that holds its elements, listed in the row-major order of the tensor
    the buffer was made for. The one view the host code makes of a
    caller's buffer is the cut of the LogSumExp ([slice_view] below),
    which reads part of the buffer of the tensor it cuts. *)
Record Tensor := {
  t_dtype : ScalarType;
  t_is_cuda : bool;
  t_sizes : list Z;
  t_strides : list Z;
  t_buf : nat
}.

Definition prodZ (l : list Z) : Z := fold_right Z.mul 1 l.
Definition numel (t : Tensor) : Z := prodZ (t_sizes t).

(** [t.size(i)] / [t.sizes()[i]] and [t.stride(i)] for [i] within the
    dimension. [IntArrayRef::operator[]] is unchecked; the model reads 0
    outside, and every entry point then rejects the tensor in its
    [CHECK_SHAPE]. *)
Definition size_at (t : Tensor) (i : nat) : Z := nth i (t_sizes t) 0.
Definition stride_at (t : Tensor) (i : nat) : Z := nth i (t_strides t) 0.

(** [t.stride(-1)]; [None] stands for the index error on a tensor without
    dimensions. *)
Definition last_stride (t : Tensor) : option Z := last (t_strides t).
Definition stride_m1_is_1 (t : Tensor) : bool :=
  match last_stride t with Some s => s =? 1 | None => false end.

(** Row-major strides of a shape as ATen computes them (the last stride
    is 1 and every other one is the next stride times the next size,
    a size of 0 counting as 1), and ATen's contiguity test (dimensions
    of size 1 are skipped, a tensor without elements is contiguous). *)
Fixpoint contiguous_strides (sizes : list Z) : list Z :=
  match sizes with
  | [] => []
  | _ :: rest => prodZ (Z.max 1 <$> rest) :: contiguous_strides rest
  end.

Fixpoint contiguous_from (z : Z) (rdims : list (Z * Z)) : bool :=
  match rdims with
  | [] => true
  | (size, stride) :: rest =>
      if size =? 1 then contiguous_from z rest
      else if stride =? z then contiguous_from (z * size) rest
      else false
  end.

Definition is_contiguous (t : Tensor) : bool :=
  if numel t =? 0 then true
  else contiguous_from 1 (rev (combine (t_sizes t) (t_strides t))).

(** [CHECK_SHAPE(x, ...)]: [x.sizes() == IntArrayRef({...})]. *)
Definition shape_is (t : Tensor) (shape : list Z) : bool :=
  bool_decide (t_sizes t = shape).

(** ** Buffers

    An element is a floating-point number or indeterminate (the content
    of memory returned by [torch::empty]). *)

Inductive cell := Indet | Flt (f : float).

Definition zero_cell : cell := Flt (S754_zero false).
Definition neg_inf_cell : cell := Flt f32_neg_infinity.

(** Element conversion done by [copy_] into a tensor of the given dtype. *)
Definition cast_float (dt : ScalarType) (x : float) : float :=
  match x with
  | S754_finite s m e =>
      match dt with
      | kFloat16 => binary_round 11 16 s m e
      | kBFloat16 => binary_round 8 128 s m e
      | kFloat => binary_round 24 128 s m e
      | _ => x
      end
  | _ => x
  end.

Definition cast_cell (dt : ScalarType) (c : cell) : cell :=
  match c with
  | Indet => Indet
  | Flt f => Flt (cast_float dt f)
  end.

(** A device pointer is the identity of the buffer it points into;
    [None] is [nullptr]. *)
Definition ptr := option nat.
Definition data_ptr (t : Tensor) : ptr := Some (t_buf t).

Fixpoint chunks (fuel : nat) (n : nat) (l : list cell) : list (list cell) :=
  match fuel with
  | O => []
  | S fuel' =>
      match l with
      | [] => []
      | _ => take n l :: chunks fuel' n (drop n l)
      end
  end.

(** [Slice(None, stop)] on an axis of length [len] keeps the first
    [slice_stop len stop] positions (a negative [stop] counts from the
    end). *)
Definition slice_stop (len stop : Z) : Z :=
  if stop <? 0 then Z.max 0 (len + stop) else Z.min len stop.

(** The first [keep] elements of every row of [len] elements, in
    row-major order. *)
Definition take_rows (len keep : Z) (l : list cell) : list cell :=
  if len <=? 0 then []
  else concat (take (Z.to_nat keep) <$> chunks (length l) (Z.to_nat len) l).

(** ** What the host code calls but does not define

    The generator of ATen and two helpers declared in [fmha.h]. *)

Inductive Data_type := DATA_TYPE_FP16 | DATA_TYPE_BF16 | DATA_TYPE_FP32.

Class Runtime := {
  (** [at::CUDAGeneratorImpl] *)
  Generator : Type;
  (** [at::PhiloxCudaState] *)
  PhiloxCudaState : Type;
  (** [gen->philox_cuda_state(increment)]: the state handed to the kernel
      and the generator after the reservation. *)
  philox_cuda_state : Z -> Generator -> PhiloxCudaState * Generator;
  (** [get_size_in_bytes(n, dtype)] *)
  get_size_in_bytes : Z -> Data_type -> Z;
  (** [set_alpha(alpha, norm, dtype)], as the value stored in [alpha]. *)
  set_alpha : float -> Data_type -> Z
}.

Record cudaDeviceProp := { major : Z; minor : Z }.

Section Params.
Context `{RT : Runtime}.

(** [FMHA_fprop_params] (with the fields of its base [Qkv_params]). The
    struct is declared in [fmha.h]; the fields are the ones the host code
    assigns. The dimensions are C [int]s; the strides and the fixed-point
    fields are [uint32_t], so that a value assigned to them is reduced
    modulo [2^32]. *)
Record FMHA_fprop_params := {
  q_ptr : ptr; k_ptr : ptr; v_ptr : ptr;
  q_row_stride_in_elts : Z; k_row_stride_in_elts : Z; v_row_stride_in_elts : Z;
  q_head_stride_in_elts : Z; k_head_stride_in_elts : Z; v_head_stride_in_elts : Z;
  o_ptr : ptr;
  o_row_stride_in_elts : Z; o_head_stride_in_elts : Z;
  o_tmp_ptr : ptr;
  o_tmp_row_stride_in_elts : Z; o_tmp_head_stride_in_elts : Z;
  cu_seqlens_q_ptr : ptr; cu_seqlens_k_ptr : ptr;
  s_ptr : ptr;
  s_stride_in_bytes : Z;
  softmax_lse_ptr : ptr;
  params_b : Z; params_h : Z; params_seqlen_q : Z; params_seqlen_k : Z; params_d : Z;
  scale_bmm1f : float;
  scale_bmm1 : Z;
  params_p_dropout : float;
  p_dropout_in_uint : Z;
  p_dropout_in_uint16_t : Z;
  rp_dropout : float;
  scale_bmm1_rp_dropout : float;
  scale_dropout : Z;
  philox_args : option PhiloxCudaState;
  is_bf16 : bool;
  params_is_causal : bool;
  params_num_splits : Z;
  blockmask : ptr
}.

Definition with_philox_args (p : FMHA_fprop_params) (ph : PhiloxCudaState)
  : FMHA_fprop_params :=
  {| q_ptr := q_ptr p; k_ptr := k_ptr p; v_ptr := v_ptr p;
     q_row_stride_in_elts := q_row_stride_in_elts p;
     k_row_stride_in_elts := k_row_stride_in_elts p;
     v_row_stride_in_elts := v_row_stride_in_elts p;
     q_head_stride_in_elts := q_head_stride_in_elts p;
     k_head_stride_in_elts := k_head_stride_in_elts p;
     v_head_stride_in_elts := v_head_stride_in_elts p;
     o_ptr := o_ptr p;
     o_row_stride_in_elts := o_row_stride_in_elts p;
     o_head_stride_in_elts := o_head_stride_in_elts p;
     o_tmp_ptr := o_tmp_ptr p;
     o_tmp_row_stride_in_elts := o_tmp_row_stride_in_elts p;
     o_tmp_head_stride_in_elts := o_tmp_head_stride_in_elts p;
     cu_seqlens_q_ptr := cu_seqlens_q_ptr p; cu_seqlens_k_ptr := cu_seqlens_k_ptr p;
     s_ptr := s_ptr p; s_stride_in_bytes := s_stride_in_bytes p;
     softmax_lse_ptr := softmax_lse_ptr p;
     params_b := params_b p; params_h := params_h p; params_seqlen_q := params_seqlen_q p;
     params_seqlen_k := params_seqlen_k p; params_d := params_d p;
     scale_bmm1f := scale_bmm1f p; scale_bmm1 := scale_bmm1 p;
     params_p_dropout := params_p_dropout p; p_dropout_in_uint := p_dropout_in_uint p;
     p_dropout_in_uint16_t := p_dropout_in_uint16_t p;
     rp_dropout := rp_dropout p;
     scale_bmm1_rp_dropout := scale_bmm1_rp_dropout p;
     scale_dropout := scale_dropout p;
     philox_args := Some ph;
     is_bf16 := is_bf16 p; params_is_causal := params_is_causal p;
     params_num_splits := params_num_splits p; blockmask := blockmask p |}.

Definition with_blockmask (p : FMHA_fprop_params) (bm : ptr) : FMHA_fprop_params :=
  {| q_ptr := q_ptr p; k_ptr := k_ptr p; v_ptr := v_ptr p;
     q_row_stride_in_elts := q_row_stride_in_elts p;
     k_row_stride_in_elts := k_row_stride_in_elts p;
     v_row_stride_in_elts := v_row_stride_in_elts p;
     q_head_stride_in_elts := q_head_stride_in_elts p;
     k_head_stride_in_elts := k_head_stride_in_elts p;
     v_head_stride_in_elts := v_head_stride_in_elts p;
     o_ptr := o_ptr p;
     o_row_stride_in_elts := o_row_stride_in_elts p;
     o_head_stride_in_elts := o_head_stride_in_elts p;
     o_tmp_ptr := o_tmp_ptr p;
     o_tmp_row_stride_in_elts := o_tmp_row_stride_in_elts p;
     o_tmp_head_stride_in_elts := o_tmp_head_stride_in_elts p;
     cu_seqlens_q_ptr := cu_seqlens_q_ptr p; cu_seqlens_k_ptr := cu_seqlens_k_ptr p;
     s_ptr := s_ptr p; s_stride_in_bytes := s_stride_in_bytes p;
     softmax_lse_ptr := softmax_lse_ptr p;
     params_b := params_b p; params_h := params_h p; params_seqlen_q := params_seqlen_q p;
     params_seqlen_k := params_seqlen_k p; params_d := params_d p;
     scale_bmm1f := scale_bmm1f p; scale_bmm1 := scale_bmm1 p;
     params_p_dropout := params_p_dropout p; p_dropout_in_uint := p_dropout_in_uint p;
     p_dropout_in_uint16_t := p_dropout_in_uint16_t p;
     rp_dropout := rp_dropout p;
     scale_bmm1_rp_dropout := scale_bmm1_rp_dropout p;
     scale_dropout := scale_dropout p;
     philox_args := philox_args p;
     is_bf16 := is_bf16 p; params_is_causal := params_is_causal p;
     params_num_splits := params_num_splits p; blockmask := bm |}.

Definition with_o_tmp_ptr (p : FMHA_fprop_params) (x : ptr) : FMHA_fprop_params :=
  {| q_ptr := q_ptr p; k_ptr := k_ptr p; v_ptr := v_ptr p;
     q_row_stride_in_elts := q_row_stride_in_elts p;
     k_row_stride_in_elts := k_row_stride_in_elts p;
     v_row_stride_in_elts := v_row_stride_in_elts p;
     q_head_stride_in_elts := q_head_stride_in_elts p;
     k_head_stride_in_elts := k_head_stride_in_elts p;
     v_head_stride_in_elts := v_head_stride_in_elts p;
     o_ptr := o_ptr p;
     o_row_stride_in_elts := o_row_stride_in_elts p;
     o_head_stride_in_elts := o_head_stride_in_elts p;
     o_tmp_ptr := x;
     o_tmp_row_stride_in_elts := o_tmp_row_stride_in_elts p;
     o_tmp_head_stride_in_elts := o_tmp_head_stride_in_elts p;
     cu_seqlens_q_ptr := cu_seqlens_q_ptr p; cu_seqlens_k_ptr := cu_seqlens_k_ptr p;
     s_ptr := s_ptr p; s_stride_in_bytes := s_stride_in_bytes p;
     softmax_lse_ptr := softmax_lse_ptr p;
     params_b := params_b p; params_h := params_h p; params_seqlen_q := params_seqlen_q p;
     params_seqlen_k := params_seqlen_k p; params_d := params_d p;
     scale_bmm1f := scale_bmm1f p; scale_bmm1 := scale_bmm1 p;
     params_p_dropout := params_p_dropout p; p_dropout_in_uint := p_dropout_in_uint p;
     p_dropout_in_uint16_t := p_dropout_in_uint16_t p;
     rp_dropout := rp_dropout p;
     scale_bmm1_rp_dropout := scale_bmm1_rp_dropout p;
     scale_dropout := scale_dropout p;
     philox_args := philox_args p;
     is_bf16 := is_bf16 p; params_is_causal := params_is_causal p;
     params_num_splits := params_num_splits p; blockmask := blockmask p |}.

Definition with_num_splits (p : FMHA_fprop_params) (n : Z) : FMHA_fprop_params :=
  {| q_ptr := q_ptr p; k_ptr := k_ptr p; v_ptr := v_ptr p;
     q_row_stride_in_elts := q_row_stride_in_elts p;
     k_row_stride_in_elts := k_row_stride_in_elts p;
     v_row_stride_in_elts := v_row_stride_in_elts p;
     q_head_stride_in_elts := q_head_stride_in_elts p;
     k_head_stride_in_elts := k_head_stride_in_elts p;
     v_head_stride_in_elts := v_head_stride_in_elts p;
     o_ptr := o_ptr p;
     o_row_stride_in_elts := o_row_stride_in_elts p;
     o_head_stride_in_elts := o_head_stride_in_elts p;
     o_tmp_ptr := o_tmp_ptr p;
     o_tmp_row_stride_in_elts := o_tmp_row_stride_in_elts p;
     o_tmp_head_stride_in_elts := o_tmp_head_stride_in_elts p;
     cu_seqlens_q_ptr := cu_seqlens_q_ptr p; cu_seqlens_k_ptr := cu_seqlens_k_ptr p;
     s_ptr := s_ptr p; s_stride_in_bytes := s_stride_in_bytes p;
     softmax_lse_ptr := softmax_lse_ptr p;
     params_b := params_b p; params_h := params_h p; params_seqlen_q := params_seqlen_q p;
     params_seqlen_k := params_seqlen_k p; params_d := params_d p;
     scale_bmm1f := scale_bmm1f p; scale_bmm1 := scale_bmm1 p;
     params_p_dropout := params_p_dropout p; p_dropout_in_uint := p_dropout_in_uint p;
     p_dropout_in_uint16_t := p_dropout_in_uint16_t p;
     rp_dropout := rp_dropout p;
     scale_bmm1_rp_dropout := scale_bmm1_rp_dropout p;
     scale_dropout := scale_dropout p;
     philox_args := philox_args p;
     is_bf16 := is_bf16 p; params_is_causal := params_is_causal p;
     params_num_splits := n; blockmask := blockmask p |}.

(** [FMHA_dgrad_params : public FMHA_fprop_params] *)
Record FMHA_dgrad_params := {
  fprop : FMHA_fprop_params;
  dq_ptr : ptr; dk_ptr : ptr; dv_ptr : ptr;
  dq_row_stride_in_elts : Z; dk_row_stride_in_elts : Z; dv_row_stride_in_elts : Z;
  dq_head_stride_in_elts : Z; dk_head_stride_in_elts : Z; dv_head_stride_in_elts : Z;
  do_ptr : ptr;
  dsoftmax_sum : ptr
}.

Definition with_fprop (p : FMHA_dgrad_params) (f : FMHA_fprop_params) : FMHA_dgrad_params :=
  {| fprop := f;
     dq_ptr := dq_ptr p; dk_ptr := dk_ptr p; dv_ptr := dv_ptr p;
     dq_row_stride_in_elts := dq_row_stride_in_elts p;
     dk_row_stride_in_elts := dk_row_stride_in_elts p;
     dv_row_stride_in_elts := dv_row_stride_in_elts p;
     dq_head_stride_in_elts := dq_head_stride_in_elts p;
     dk_head_stride_in_elts := dk_head_stride_in_elts p;
     dv_head_stride_in_elts := dv_head_stride_in_elts p;
     do_ptr := do_ptr p;
     dsoftmax_sum := dsoftmax_sum p |}.

(** [Launch_params<FMHA_fprop_params>]: [elts_per_thread] starts at 0 and
    is set by the configure pass of the block-sparse forward launcher. *)
Record Launch_params := {
  elts_per_thread : Z;
  lp_props : cudaDeviceProp;
  lp_params : FMHA_fprop_params;
  lp_is_dropout : bool;
  lp_return_softmax : bool
}.

End Params.

(** ** The compiled kernels

    The launchers [run_fmha_fwd_hdim*], [run_fmha_bwd_hdim*],
    [run_fmha_block_fp16_sm80] and [run_fmha_block_dgrad_fp16_sm80] are
    declared in [fmha.h] and compiled from CUDA sources. A launcher called
    with [configure = true] performs no arithmetic and only fills in a
    launch parameter ([num_splits], respectively [elts_per_thread]); a
    launch proper reads and writes device buffers. *)

Abbreviation Store := (gmap nat (list cell)).

Inductive Kernel :=
  | fmha_fwd_hdim32 | fmha_fwd_hdim64 | fmha_fwd_hdim128
  | fmha_bwd_hdim32 | fmha_bwd_hdim64 | fmha_bwd_hdim128
  | fmha_block_fp16_sm80 | fmha_block_dgrad_fp16_sm80.

Class Kernels `{RT : Runtime} := {
  fwd_kernel : Kernel -> Launch_params -> Store -> Store;
  bwd_configure : Kernel -> FMHA_dgrad_params -> Z;
  bwd_kernel : Kernel -> FMHA_dgrad_params -> Store -> Store;
  block_fwd_configure : Launch_params -> Z;
  block_fwd_kernel : Launch_params -> Store -> Store;
  block_dgrad_kernel : FMHA_dgrad_params -> Store -> Store
}.

(** ** The world of one call *)

Inductive DeviceType := CPU | CUDA.

(** A generator object passed by the caller. *)
Record GeneratorHandle := { gen_id : nat; gen_device : DeviceType }.

(** A generator of the world: the default CUDA generator ([None]) or a
    caller's object. *)
Definition GenRef := option nat.

(** The result of a computation: a value, or the error raised by a failed
    [TORCH_CHECK] (or by ATen). *)
Inductive outcome (A : Type) :=
  | Ok (a : A)
  | Raise (msg : string).
Arguments Ok {A} a.
Arguments Raise {A} msg.

Section World.
Context `{KN : Kernels}.

Inductive Event :=
  | EvPhilox (g : GenRef) (increment : Z)
  | EvFwd (k : Kernel) (configure : bool) (lp : Launch_params) (snapshot : Store)
  | EvBwd (k : Kernel) (configure : bool) (p : FMHA_dgrad_params) (snapshot : Store).

Record World := {
  device : cudaDeviceProp;
  bufs : Store;
  gens : GenRef -> Generator;
  trace : list Event
}.

Definition set_bufs (w : World) (b : Store) : World :=
  {| device := device w; bufs := b; gens := gens w; trace := trace w |}.
Definition set_gens (w : World) (g : GenRef -> Generator) : World :=
  {| device := device w; bufs := bufs w; gens := g; trace := trace w |}.
Definition log (w : World) (e : Event) : World :=
  {| device := device w; bufs := bufs w; gens := gens w; trace := trace w ++ [e] |}.

(** ** Computations that may raise *)

Definition M (A : Type) : Type := World -> World * outcome A.

Definition ret {A} (a : A) : M A := fun w => (w, Ok a).

Definition bind {A B} (m : M A) (k : A -> M B) : M B :=
  fun w =>
    match m w with
    | (w', Ok a) => k a w'
    | (w', Raise msg) => (w', Raise msg)
    end.

Definition TORCH_CHECK (cond : bool) (msg : string) : M unit :=
  fun w => if cond then (w, Ok tt) else (w, Raise msg).

Definition lift {A} (o : outcome A) : M A := fun w => (w, o).

End World.

Declare Scope fmha_scope.
Delimit Scope fmha_scope with fmha.
Notation "'do' x <- c1 ;; c2" := (bind c1 (fun x => c2))
  (at level 10, x name, c1 at level 99, c2 at level 200) : fmha_scope.
Notation "c1 ;; c2" := (bind c1 (fun _ => c2))
  (at level 100, c2 at level 200, right associativity) : fmha_scope.

(** ** Host operations *)

Section Host.
Context `{KN : Kernels}.
Local Open Scope fmha_scope.

(** Modelled from the spec: the axis constants of [fmha.h]; tensors are
    [total_tokens, num_heads, head_dim]. *)
Definition TOTAL_DIM : nat := 0.
Definition H_DIM : nat := 1.
Definition D_DIM : nat := 2.

Definition getCurrentDeviceProperties : M cudaDeviceProp :=
  fun w => (w, Ok (device w)).

Definition is_sm75 (d : cudaDeviceProp) : bool := (major d =? 7) && (minor d =? 5).
Definition is_sm80 (d : cudaDeviceProp) : bool := (major d =? 8) && (minor d =? 0).
Definition is_sm8x (d : cudaDeviceProp) : bool := (major d =? 8) && (minor d >=? 0).
Definition is_sm90 (d : cudaDeviceProp) : bool := (major d =? 9) && (minor d =? 0).

Definition contents (t : Tensor) (b : Store) : list cell := default [] (b !! t_buf t).

(** [torch::empty] and [torch::zeros] with the options of [q] (a CUDA
    tensor by then): a fresh buffer, or ATen's error on a negative size. *)
Definition new_tensor_at (sizes : list Z) (dt : ScalarType) (w : World) : Tensor :=
  {| t_dtype := dt; t_is_cuda := true; t_sizes := sizes;
     t_strides := contiguous_strides sizes; t_buf := fresh (dom (bufs w)) |}.

Definition new_tensor_world (sizes : list Z) (init : cell) (w : World) : World :=
  set_bufs w (<[fresh (dom (bufs w)) := replicate (Z.to_nat (prodZ sizes)) init]> (bufs w)).

Definition new_tensor (sizes : list Z) (dt : ScalarType) (init : cell) : M Tensor :=
  fun w =>
    if forallb (Z.leb 0) sizes
    then (new_tensor_world sizes init w, Ok (new_tensor_at sizes dt w))
    else (w, Raise "Trying to create tensor with negative dimension").

Definition torch_empty (sizes : list Z) (dt : ScalarType) : M Tensor :=
  new_tensor sizes dt Indet.
Definition torch_zeros (sizes : list Z) (dt : ScalarType) : M Tensor :=
  new_tensor sizes dt zero_cell.

(** [t.fill_(c)], [t.zero_()] and [dst.copy_(src)] *)
Definition fill_world (t : Tensor) (c : cell) (w : World) : World :=
  set_bufs w (<[t_buf t := replicate (Z.to_nat (numel t)) c]> (bufs w)).
Definition fill_ (t : Tensor) (c : cell) : M unit := fun w => (fill_world t c w, Ok tt).
Definition zero_ (t : Tensor) : M unit := fill_ t zero_cell.

Definition copy_world (dst src : Tensor) (w : World) : World :=
  set_bufs w (<[t_buf dst := cast_cell (t_dtype dst) <$> contents src (bufs w)]> (bufs w)).
Definition copy_ (dst src : Tensor) : M unit := fun w => (copy_world dst src w, Ok tt).

(** [t.index({Slice(), Slice(), Slice(None, stop)}).contiguous()]. The
    indexing returns a view: the tensor's own storage and strides, with
    axis 2 cut. [contiguous()] returns that view as it is when it is
    contiguous (the cut keeps every row whole, or leaves no element, or
    there is one row only); otherwise it gathers the elements of the
    view into a fresh buffer. *)
Definition slice_sizes (t : Tensor) (stop : Z) : list Z :=
  match t_sizes t with
  | s0 :: s1 :: s2 :: inner => s0 :: s1 :: slice_stop s2 stop :: inner
  | sizes => sizes
  end.

Definition slice_view (t : Tensor) (stop : Z) : Tensor :=
  {| t_dtype := t_dtype t; t_is_cuda := t_is_cuda t;
     t_sizes := slice_sizes t stop;
     t_strides := t_strides t;
     t_buf := t_buf t |}.

Definition slice_contents (t : Tensor) (stop : Z) (l : list cell) : list cell :=
  let inner := prodZ (drop 3 (t_sizes t)) in
  take_rows (size_at t 2 * inner) (slice_stop (size_at t 2) stop * inner) l.

Definition slice_tensor (t : Tensor) (stop : Z) (w : World) : Tensor :=
  if is_contiguous (slice_view t stop) then slice_view t stop
  else {| t_dtype := t_dtype t; t_is_cuda := t_is_cuda t;
          t_sizes := slice_sizes t stop;
          t_strides := contiguous_strides (slice_sizes t stop);
          t_buf := fresh (dom (bufs w)) |}.

Definition slice_world (t : Tensor) (stop : Z) (w : World) : World :=
  if is_contiguous (slice_view t stop) then w
  else set_bufs w
         (<[fresh (dom (bufs w)) := slice_contents t stop (contents t (bufs w))]> (bufs w)).

Definition index_slice2_contiguous (t : Tensor) (stop : Z) : M Tensor :=
  fun w =>
    if (3 <=? length (t_sizes t))%nat
    then (slice_world t stop w, Ok (slice_tensor t stop w))
    else (w, Raise "too many indices for tensor").

(** [at::get_generator_or_default<at::CUDAGeneratorImpl>(gen_, default)] *)
Definition get_generator_or_default (gen_ : option GeneratorHandle) : M GenRef :=
  match gen_ with
  | None => ret None
  | Some h =>
      TORCH_CHECK (match gen_device h with CUDA => true | CPU => false end)
        "Expected a 'cuda' device type for generator" ;;
      ret (Some (gen_id h))
  end.

(** [gen->philox_cuda_state(counter_offset)] under the generator's lock. *)
Definition reserve_world (g : GenRef) (counter_offset : Z) (w : World) : World :=
  set_gens (log w (EvPhilox g counter_offset))
    (fun r => if decide (r = g)
              then snd (philox_cuda_state counter_offset (gens w g))
              else gens w r).

Definition reserve_philox (g : GenRef) (counter_offset : Z) : M PhiloxCudaState :=
  fun w =>
    (reserve_world g counter_offset w,
     Ok (fst (philox_cuda_state counter_offset (gens w g)))).

(** *** Launchers *)

Definition fwd_launch_world (k : Kernel) (lp : Launch_params) (w : World) : World :=
  set_bufs (log w (EvFwd k false lp (bufs w))) (fwd_kernel k lp (bufs w)).

Definition launch_fwd (k : Kernel) (lp : Launch_params) : M unit :=
  fun w => (fwd_launch_world k lp w, Ok tt).

Definition run_fmha_fwd_hdim32 : Launch_params -> M unit := launch_fwd fmha_fwd_hdim32.
Definition run_fmha_fwd_hdim64 : Launch_params -> M unit := launch_fwd fmha_fwd_hdim64.
Definition run_fmha_fwd_hdim128 : Launch_params -> M unit := launch_fwd fmha_fwd_hdim128.

Definition bwd_configure_world (k : Kernel) (p : FMHA_dgrad_params) (w : World) : World :=
  log w (EvBwd k true p (bufs w)).
Definition bwd_launch_world (k : Kernel) (p : FMHA_dgrad_params) (w : World) : World :=
  set_bufs (log w (EvBwd k false p (bufs w))) (bwd_kernel k p (bufs w)).

(** The parameters after the configure pass of a backward launcher. *)
Definition configured (k : Kernel) (p : FMHA_dgrad_params) : FMHA_dgrad_params :=
  with_fprop p (with_num_splits (fprop p) (bwd_configure k p)).

Definition launch_bwd (k : Kernel) (params : FMHA_dgrad_params) (configure : bool)
  : M FMHA_dgrad_params :=
  fun w =>
    if configure then (bwd_configure_world k params w, Ok (configured k params))
    else (bwd_launch_world k params w, Ok params).

Definition run_fmha_bwd_hdim32 := launch_bwd fmha_bwd_hdim32.
Definition run_fmha_bwd_hdim64 := launch_bwd fmha_bwd_hdim64.
Definition run_fmha_bwd_hdim128 := launch_bwd fmha_bwd_hdim128.

Definition with_elts_per_thread (lp : Launch_params) (n : Z) : Launch_params :=
  {| elts_per_thread := n;
     lp_props := lp_props lp; lp_params := lp_params lp;
     lp_is_dropout := lp_is_dropout lp;
     lp_return_softmax := lp_return_softmax lp |}.

Definition with_lp_params (lp : Launch_params) (p : FMHA_fprop_params) : Launch_params :=
  {| elts_per_thread := elts_per_thread lp;
     lp_props := lp_props lp; lp_params := p;
     lp_is_dropout := lp_is_dropout lp;
     lp_return_softmax := lp_return_softmax lp |}.

Definition block_fwd_configure_world (lp : Launch_params) (w : World) : World :=
  log w (EvFwd fmha_block_fp16_sm80 true lp (bufs w)).
Definition block_fwd_launch_world (lp : Launch_params) (w : World) : World :=
  set_bufs (log w (EvFwd fmha_block_fp16_sm80 false lp (bufs w)))
    (block_fwd_kernel lp (bufs w)).

Definition run_fmha_block_fp16_sm80 (lp : Launch_params) (configure : bool)
  : M Launch_params :=
  fun w =>
    if configure then
      (block_fwd_configure_world lp w, Ok (with_elts_per_thread lp (block_fwd_configure lp)))
    else (block_fwd_launch_world lp w, Ok lp).

Definition block_dgrad_launch_world (p : FMHA_dgrad_params) (w : World) : World :=
  set_bufs (log w (EvBwd fmha_block_dgrad_fp16_sm80 false p (bufs w)))
    (block_dgrad_kernel p (bufs w)).

Definition run_fmha_block_dgrad_fp16_sm80 (params : FMHA_dgrad_params) : M unit :=
  fun w => (block_dgrad_launch_world params w, Ok tt).

Definition run_fmha_fwd (launch_params : Launch_params) : M unit :=
  if params_d (lp_params launch_params) <=? 32 then run_fmha_fwd_hdim32 launch_params
  else if params_d (lp_params launch_params) <=? 64 then run_fmha_fwd_hdim64 launch_params
  else if params_d (lp_params launch_params) <=? 128 then run_fmha_fwd_hdim128 launch_params
  else ret tt.

Definition run_fmha_bwd (params : FMHA_dgrad_params) (configure : bool)
  : M FMHA_dgrad_params :=
  if params_d (fprop params) <=? 32 then run_fmha_bwd_hdim32 params configure
  else if params_d (fprop params) <=? 64 then run_fmha_bwd_hdim64 params configure
  else if params_d (fprop params) <=? 128 then run_fmha_bwd_hdim128 params configure
  else ret params.

(** *** Parameter setup *)

(** The two fixed-point forms of the keep probability [params.p_dropout]:
    [uint32_t(std::floor(p * 4294967295.0))] and
    [uint16_t(std::floor(p * 65535.0))], the products taken in [double]. *)
Definition dropout_in_uint (keep : float) : Z :=
  to_uint32 (floor_to_Z (f64_mul (float_to_double keep) f64_4294967295)).
Definition dropout_in_uint16_t (keep : float) : Z :=
  to_uint16 (floor_to_Z (f64_mul (float_to_double keep) f64_65535)).

(** The field assignments of [set_params_fprop], after the [memset]. *)
Definition fprop_fields (b seqlen_q seqlen_k h d : Z) (q k v out : Tensor)
    (cu_seqlens_q_d cu_seqlens_k_d o_tmp_d s_d softmax_lse_d : ptr)
    (p_dropout softmax_scale : float) (is_causal : bool) (num_splits : Z)
  : FMHA_fprop_params :=
  let data_type :=
    if negb (ScalarType_eqb (t_dtype q) kBFloat16) then DATA_TYPE_FP16 else DATA_TYPE_BF16 in
  let scale_bmm1 := softmax_scale in
  (* Set this to probability of keeping an element to simplify things. *)
  let keep := f32_sub f32_one p_dropout in
  let rp := f32_div f32_one keep in
  {| is_bf16 := ScalarType_eqb (t_dtype q) kBFloat16;
     q_ptr := data_ptr q; k_ptr := data_ptr k; v_ptr := data_ptr v;
     q_row_stride_in_elts := uint32_of (stride_at q 0);
     k_row_stride_in_elts := uint32_of (stride_at k 0);
     v_row_stride_in_elts := uint32_of (stride_at v 0);
     q_head_stride_in_elts := uint32_of (stride_at q 1);
     k_head_stride_in_elts := uint32_of (stride_at k 1);
     v_head_stride_in_elts := uint32_of (stride_at v 1);
     o_ptr := data_ptr out;
     o_row_stride_in_elts := uint32_of (stride_at out 0);
     o_head_stride_in_elts := uint32_of (stride_at out 1);
     o_tmp_ptr := o_tmp_d;
     o_tmp_row_stride_in_elts := uint32_of (h * d);
     o_tmp_head_stride_in_elts := uint32_of d;
     cu_seqlens_q_ptr := cu_seqlens_q_d;
     cu_seqlens_k_ptr := cu_seqlens_k_d;
     s_ptr := s_d;
     s_stride_in_bytes := get_size_in_bytes (b * h * seqlen_k) data_type;
     softmax_lse_ptr := softmax_lse_d;
     params_b := b; params_h := h; params_seqlen_q := seqlen_q;
     params_seqlen_k := seqlen_k; params_d := d;
     scale_bmm1f := scale_bmm1;
     scale_bmm1 := set_alpha scale_bmm1 data_type;
     params_p_dropout := keep;
     p_dropout_in_uint := dropout_in_uint keep;
     p_dropout_in_uint16_t := dropout_in_uint16_t keep;
     rp_dropout := rp;
     scale_bmm1_rp_dropout := f32_mul rp scale_bmm1;
     scale_dropout := set_alpha rp data_type;
     philox_args := None;
     params_is_causal := is_causal;
     params_num_splits := num_splits;
     blockmask := None |}.

(** [set_params_fprop]: the assignments, then [TORCH_CHECK(p_dropout < 1.f)]
    (which in the source sits between the assignments of
    [scale_bmm1_rp_dropout] and [scale_dropout]). *)
Definition set_params_fprop (b seqlen_q seqlen_k h d : Z) (q k v out : Tensor)
    (cu_seqlens_q_d cu_seqlens_k_d o_tmp_d s_d softmax_lse_d : ptr)
    (p_dropout softmax_scale : float) (is_causal : bool) (num_splits : Z)
  : outcome FMHA_fprop_params :=
  let params :=
    fprop_fields b seqlen_q seqlen_k h d q k v out cu_seqlens_q_d cu_seqlens_k_d
      o_tmp_d s_d softmax_lse_d p_dropout softmax_scale is_causal num_splits in
  if f32_ltb p_dropout f32_one then Ok params else Raise "p_dropout < 1.f".

(** The assignments [set_params_dgrad] adds to those of
    [set_params_fprop]. *)
Definition dgrad_fields (base : FMHA_fprop_params) (dq dk dv : Tensor)
    (do_packed_d dsoftmax_sum_d : ptr) : FMHA_dgrad_params :=
  {| fprop := base;
     dq_ptr := data_ptr dq; dk_ptr := data_ptr dk; dv_ptr := data_ptr dv;
     dq_row_stride_in_elts := uint32_of (stride_at dq 0);
     dk_row_stride_in_elts := uint32_of (stride_at dk 0);
     dv_row_stride_in_elts := uint32_of (stride_at dv 0);
     dq_head_stride_in_elts := uint32_of (stride_at dq 1);
     dk_head_stride_in_elts := uint32_of (stride_at dk 1);
     dv_head_stride_in_elts := uint32_of (stride_at dv 1);
     do_ptr := do_packed_d;
     dsoftmax_sum := dsoftmax_sum_d |}.

Definition set_params_dgrad (b seqlen_q seqlen_k h d : Z) (q k v out dq dk dv : Tensor)
    (cu_seqlens_q_d cu_seqlens_k_d dq_tmp_d do_packed_d softmax_lse_d dsoftmax_sum_d : ptr)
    (p_dropout softmax_scale : float) (is_causal : bool) (num_splits : Z)
  : outcome FMHA_dgrad_params :=
  match set_params_fprop b seqlen_q seqlen_k h d q k v out
          cu_seqlens_q_d cu_seqlens_k_d
          dq_tmp_d (* Reusing the o_tmp_ptr variable to store dq_tmp *)
          None softmax_lse_d p_dropout softmax_scale is_causal num_splits with
  | Raise msg => Raise msg
  | Ok base => Ok (dgrad_fields base dq dk dv do_packed_d dsoftmax_sum_d)
  end.

(** *** Tiling parameters *)

(** [((x + m - 1) / m) * m] *)
Definition round_multiple (x m : Z) : Z := int_mul (int_div (int_sub (int_add x m) 1) m) m.

Definition fwd_blocksize_c (head_size : Z) : Z := if head_size >? 64 then 128 else 256.

Definition bwd_blocksize_c (sm75 : bool) (head_size : Z) : Z :=
  if (head_size >? 64) || (sm75 && (head_size >? 32)) then 128 else 256.

Definition padded_max_seqlen_k (max_seqlen_k_ blocksize_c : Z) : Z :=
  let max_seqlen_k := round_multiple max_seqlen_k_ blocksize_c in
  if max_seqlen_k_ <=? 128 then 128
  else if max_seqlen_k_ <=? 256 then 256
  else max_seqlen_k.

Definition padded_max_seqlen_q (max_seqlen_q_ : Z) : Z := round_multiple max_seqlen_q_ 16.

(** The block-sparse entry points always tile the key axis by 256. *)
Definition block_max_seqlen_k (max_seqlen_k_ : Z) : Z :=
  let max_seqlen_k := round_multiple max_seqlen_k_ 256 in
  if max_seqlen_k <=? 256 then 256 else max_seqlen_k.

Definition batch_size_of (cu_seqlens_q : Tensor) : Z := to_int (numel cu_seqlens_q - 1).
Definition total_of (t : Tensor) : Z := to_int (size_at t TOTAL_DIM).
Definition num_heads_of (q : Tensor) : Z := to_int (size_at q H_DIM).
Definition head_size_of (q : Tensor) : Z := to_int (size_at q D_DIM).

(** [p_dropout > 0.0], the comparison taken in [double]. *)
Definition is_dropout_of (p_dropout : float) : bool :=
  f64_ltb f64_zero (float_to_double p_dropout).

Definition alloc_if (c : bool) (sizes : list Z) (dt : ScalarType) (init : cell)
  : M (option Tensor) :=
  if c then do t <- new_tensor sizes dt init ;; ret (Some t) else ret None.

Definition opt_ptr (t : option Tensor) : ptr :=
  match t with Some t => data_ptr t | None => None end.

(** ** The entry points *)

Definition mha_fwd
    (q k v out cu_seqlens_q cu_seqlens_k : Tensor)
    (max_seqlen_q_ max_seqlen_k_ : Z)
    (p_dropout softmax_scale : float)
    (zero_tensors is_causal return_softmax : bool)
    (num_splits : Z)
    (gen_ : option GeneratorHandle) : M (list Tensor) :=
  do dprops <- getCurrentDeviceProperties ;;
  TORCH_CHECK (is_sm90 dprops || is_sm8x dprops || is_sm75 dprops)
    "is_sm90 || is_sm8x || is_sm75" ;;
  let is_dropout := is_dropout_of p_dropout in
  let q_dtype := t_dtype q in
  TORCH_CHECK (ScalarType_eqb q_dtype kFloat16
               || ((is_sm8x dprops || is_sm90 dprops) && ScalarType_eqb q_dtype kBFloat16))
    "q_dtype == torch::kFloat16 || ((is_sm8x || is_sm90) && q_dtype == torch::kBFloat16)" ;;
  TORCH_CHECK (ScalarType_eqb (t_dtype k) q_dtype) "k.dtype() == q_dtype" ;;
  TORCH_CHECK (ScalarType_eqb (t_dtype v) q_dtype) "v.dtype() == q_dtype" ;;
  TORCH_CHECK (ScalarType_eqb (t_dtype out) q_dtype) "out.dtype() == q_dtype" ;;
  TORCH_CHECK (ScalarType_eqb (t_dtype cu_seqlens_q) kInt32)
    "cu_seqlens_q.dtype() == torch::kInt32" ;;
  TORCH_CHECK (ScalarType_eqb (t_dtype cu_seqlens_k) kInt32)
    "cu_seqlens_k.dtype() == torch::kInt32" ;;
  TORCH_CHECK (t_is_cuda q) "q.is_cuda()" ;;
  TORCH_CHECK (t_is_cuda k) "k.is_cuda()" ;;
  TORCH_CHECK (t_is_cuda v) "v.is_cuda()" ;;
  TORCH_CHECK (t_is_cuda out) "out.is_cuda()" ;;
  TORCH_CHECK (t_is_cuda cu_seqlens_q) "cu_seqlens_q.is_cuda()" ;;
  TORCH_CHECK (t_is_cuda cu_seqlens_k) "cu_seqlens_k.is_cuda()" ;;
  TORCH_CHECK (stride_m1_is_1 q) "q.stride(-1) == 1" ;;
  TORCH_CHECK (stride_m1_is_1 k) "k.stride(-1) == 1" ;;
  TORCH_CHECK (stride_m1_is_1 v) "v.stride(-1) == 1" ;;
  TORCH_CHECK (stride_m1_is_1 out) "out.stride(-1) == 1" ;;
  TORCH_CHECK (is_contiguous cu_seqlens_q) "cu_seqlens_q.is_contiguous()" ;;
  TORCH_CHECK (is_contiguous cu_seqlens_k) "cu_seqlens_k.is_contiguous()" ;;
  let batch_size := batch_size_of cu_seqlens_q in
  let total_q := total_of q in
  let num_heads := num_heads_of q in
  let head_size := head_size_of q in
  let total_k := total_of k in
  TORCH_CHECK (batch_size >? 0) "batch_size > 0" ;;
  TORCH_CHECK ((int_rem head_size 8 =? 0) && (head_size <=? 128))
    "(head_size % 8 == 0) && (head_size <= 128)" ;;
  TORCH_CHECK (shape_is q [total_q; num_heads; head_size])
    "q must have shape (total_q, num_heads, head_size)" ;;
  TORCH_CHECK (shape_is k [total_k; num_heads; head_size])
    "k must have shape (total_k, num_heads, head_size)" ;;
  TORCH_CHECK (shape_is v [total_k; num_heads; head_size])
    "v must have shape (total_k, num_heads, head_size)" ;;
  TORCH_CHECK (shape_is out [total_q; num_heads; head_size])
    "out must have shape (total_q, num_heads, head_size)" ;;
  TORCH_CHECK (shape_is cu_seqlens_q [int_add batch_size 1])
    "cu_seqlens_q must have shape (batch_size + 1)" ;;
  TORCH_CHECK (shape_is cu_seqlens_k [int_add batch_size 1])
    "cu_seqlens_k must have shape (batch_size + 1)" ;;
  let blocksize_c := fwd_blocksize_c head_size in
  (* Need to round max_seqlen_k to multiples of blocksize_c *)
  let max_seqlen_k := padded_max_seqlen_k max_seqlen_k_ blocksize_c in
  let max_seqlen_q := padded_max_seqlen_q max_seqlen_q_ in
  let loop := max_seqlen_k >? blocksize_c in
  do o_tmp <- alloc_if loop [total_q; num_heads; head_size] kFloat Indet ;;
  do softmax_lse <- torch_empty [batch_size; num_heads; max_seqlen_q] kFloat ;;
  do s <- alloc_if return_softmax
            [batch_size; num_heads; max_seqlen_q; max_seqlen_k] q_dtype Indet ;;
  (if zero_tensors then
     zero_ out ;;
     fill_ softmax_lse neg_inf_cell ;;
     match s with Some s => zero_ s | None => ret tt end
   else ret tt) ;;
  do gen <- get_generator_or_default gen_ ;;
  do params <- lift (set_params_fprop batch_size max_seqlen_q max_seqlen_k
                       num_heads head_size q k v out
                       (data_ptr cu_seqlens_q) (data_ptr cu_seqlens_k)
                       (if loop then opt_ptr o_tmp else None)
                       (if return_softmax then opt_ptr s else None)
                       (data_ptr softmax_lse)
                       p_dropout softmax_scale is_causal num_splits) ;;
  (* We use a custom RNG that increases the offset by batch_size * nheads * 32. *)
  let counter_offset := int_mul (int_mul (params_b params) (params_h params)) 32 in
  do params <- (if is_dropout then
                  do ph <- reserve_philox gen counter_offset ;;
                  ret (with_philox_args params ph)
                else ret params) ;;
  run_fmha_fwd {| elts_per_thread := 0; lp_props := dprops; lp_params := params;
                  lp_is_dropout := is_dropout; lp_return_softmax := return_softmax |} ;;
  ret (softmax_lse :: match s with Some s => [s] | None => [] end).

Definition mha_bwd
    (dout q k v out softmax_lse_ dq dk dv cu_seqlens_q cu_seqlens_k : Tensor)
    (max_seqlen_q_ max_seqlen_k_ : Z)
    (p_dropout softmax_scale : float)
    (zero_tensors is_causal : bool)
    (num_splits : Z)
    (gen_ : option GeneratorHandle) : M (list Tensor) :=
  do dprops <- getCurrentDeviceProperties ;;
  TORCH_CHECK (is_sm90 dprops || is_sm8x dprops || is_sm75 dprops)
    "is_sm90 || is_sm8x || is_sm75" ;;
  let launch := run_fmha_bwd in
  let is_dropout := is_dropout_of p_dropout in
  let q_dtype := t_dtype q in
  TORCH_CHECK (ScalarType_eqb q_dtype kFloat16
               || ((is_sm8x dprops || is_sm90 dprops) && ScalarType_eqb q_dtype kBFloat16))
    "q_dtype == torch::kFloat16 || ((is_sm8x || is_sm90) && q_dtype == torch::kBFloat16)" ;;
  TORCH_CHECK (ScalarType_eqb (t_dtype k) q_dtype) "k.dtype() == q_dtype" ;;
  TORCH_CHECK (ScalarType_eqb (t_dtype v) q_dtype) "v.dtype() == q_dtype" ;;
  TORCH_CHECK (ScalarType_eqb (t_dtype out) q_dtype) "out.dtype() == q_dtype" ;;
  TORCH_CHECK (ScalarType_eqb (t_dtype dout) q_dtype) "dout.dtype() == q_dtype" ;;
  TORCH_CHECK (ScalarType_eqb (t_dtype dq) q_dtype) "dq.dtype() == q_dtype" ;;
  TORCH_CHECK (ScalarType_eqb (t_dtype dk) q_dtype) "dk.dtype() == q_dtype" ;;
  TORCH_CHECK (ScalarType_eqb (t_dtype dv) q_dtype) "dv.dtype() == q_dtype" ;;
  TORCH_CHECK (ScalarType_eqb (t_dtype cu_seqlens_q) kInt32)
    "cu_seqlens_q.dtype() == torch::kInt32" ;;
  TORCH_CHECK (ScalarType_eqb (t_dtype cu_seqlens_k) kInt32)
    "cu_seqlens_k.dtype() == torch::kInt32" ;;
  TORCH_CHECK (t_is_cuda q) "q.is_cuda()" ;;
  TORCH_CHECK (t_is_cuda k) "k.is_cuda()" ;;
  TORCH_CHECK (t_is_cuda v) "v.is_cuda()" ;;
  TORCH_CHECK (t_is_cuda out) "out.is_cuda()" ;;
  TORCH_CHECK (t_is_cuda dout) "dout.is_cuda()" ;;
  TORCH_CHECK (t_is_cuda softmax_lse_) "softmax_lse_.is_cuda()" ;;
  TORCH_CHECK (t_is_cuda cu_seqlens_q) "cu_seqlens_q.is_cuda()" ;;
  TORCH_CHECK (t_is_cuda cu_seqlens_k) "cu_seqlens_k.is_cuda()" ;;
  TORCH_CHECK (stride_m1_is_1 q) "q.stride(-1) == 1" ;;
  TORCH_CHECK (stride_m1_is_1 k) "k.stride(-1) == 1" ;;
  TORCH_CHECK (stride_m1_is_1 v) "v.stride(-1) == 1" ;;
  TORCH_CHECK (is_contiguous out) "out.is_contiguous()" ;;
  TORCH_CHECK (is_contiguous dout) "dout.is_contiguous()" ;;
  TORCH_CHECK (stride_m1_is_1 dq) "dq.stride(-1) == 1" ;;
  TORCH_CHECK (stride_m1_is_1 dk) "dk.stride(-1) == 1" ;;
  TORCH_CHECK (stride_m1_is_1 dv) "dv.stride(-1) == 1" ;;
  TORCH_CHECK (is_contiguous cu_seqlens_q) "cu_seqlens_q.is_contiguous()" ;;
  TORCH_CHECK (is_contiguous cu_seqlens_k) "cu_seqlens_k.is_contiguous()" ;;
  let batch_size := batch_size_of cu_seqlens_q in
  let total_q := total_of q in
  let num_heads := num_heads_of q in
  let head_size := head_size_of q in
  let total_k := total_of k in
  TORCH_CHECK (batch_size >? 0) "batch_size > 0" ;;
  TORCH_CHECK ((int_rem head_size 8 =? 0) && (head_size <=? 128))
    "(head_size % 8 == 0) && (head_size <= 128)" ;;
  (* TODO: eventually we should support SM86 and SM70 with d=128 as well *)
  (if head_size >? 64
   then TORCH_CHECK (is_sm80 dprops || is_sm90 dprops) "is_sm80 || is_sm90"
   else ret tt) ;;
  TORCH_CHECK (shape_is q [total_q; num_heads; head_size])
    "q must have shape (total_q, num_heads, head_size)" ;;
  TORCH_CHECK (shape_is k [total_k; num_heads; head_size])
    "k must have shape (total_k, num_heads, head_size)" ;;
  TORCH_CHECK (shape_is v [total_k; num_heads; head_size])
    "v must have shape (total_k, num_heads, head_size)" ;;
  TORCH_CHECK (shape_is out [total_q; num_heads; head_size])
    "out must have shape (total_q, num_heads, head_size)" ;;
  TORCH_CHECK (shape_is dout [total_q; num_heads; head_size])
    "dout must have shape (total_q, num_heads, head_size)" ;;
  TORCH_CHECK (shape_is dq [total_q; num_heads; head_size])
    "dq must have shape (total_q, num_heads, head_size)" ;;
  TORCH_CHECK (shape_is dk [total_k; num_heads; head_size])
    "dk must have shape (total_k, num_heads, head_size)" ;;
  TORCH_CHECK (shape_is dv [total_k; num_heads; head_size])
    "dv must have shape (total_k, num_heads, head_size)" ;;
  TORCH_CHECK (shape_is cu_seqlens_q [int_add batch_size 1])
    "cu_seqlens_q must have shape (batch_size + 1)" ;;
  TORCH_CHECK (shape_is cu_seqlens_k [int_add batch_size 1])
    "cu_seqlens_k must have shape (batch_size + 1)" ;;
  let blocksize_c := bwd_blocksize_c (is_sm75 dprops) head_size in
  let max_seqlen_k := padded_max_seqlen_k max_seqlen_k_ blocksize_c in
  let max_seqlen_q := padded_max_seqlen_q max_seqlen_q_ in
  let loop := max_seqlen_k >? blocksize_c in
  (* It's possible the softmax_lse_ from the fwd has a different length since
     blocksize_c could be different. *)
  do softmax_lse <- index_slice2_contiguous softmax_lse_ max_seqlen_q ;;
  do softmax_d <- torch_empty [batch_size; num_heads; max_seqlen_q] kFloat ;;
  do dq_tmp <- alloc_if loop [total_q; num_heads; head_size] kFloat Indet ;;
  (if zero_tensors then
     zero_ dq ;; zero_ dk ;; zero_ dv ;; zero_ softmax_d
   else ret tt) ;;
  do params <- lift (set_params_dgrad batch_size max_seqlen_q max_seqlen_k
                       num_heads head_size q k v out dq dk dv
                       (data_ptr cu_seqlens_q) (data_ptr cu_seqlens_k)
                       (if loop then opt_ptr dq_tmp else None)
                       (data_ptr dout)
                       (data_ptr softmax_lse)
                       (data_ptr softmax_d)
                       p_dropout softmax_scale is_causal num_splits) ;;
  do params <- launch params (* configure = *) true ;;
  do split <- (if params_num_splits (fprop params) >? 1 then
                 match dq_tmp with
                 | None =>
                     do t <- torch_zeros [total_q; num_heads; head_size] kFloat ;;
                     (* o_tmp stores dq_tmp in the backward pass *)
                     ret (Some t, with_fprop params (with_o_tmp_ptr (fprop params) (data_ptr t)))
                 | Some t => zero_ t ;; ret (Some t, params)
                 end
               else ret (dq_tmp, params)) ;;
  let dq_tmp := fst split in
  let params := snd split in
  do gen <- get_generator_or_default gen_ ;;
  (* We use a custom RNG that increases the offset by batch_size * nheads * 32. *)
  let counter_offset := int_mul (int_mul (params_b (fprop params)) (params_h (fprop params))) 32 in
  do params <- (if is_dropout then
                  do ph <- reserve_philox gen counter_offset ;;
                  ret (with_fprop params (with_philox_args (fprop params) ph))
                else ret params) ;;
  do params <- launch params (* configure = *) false ;;
  (if params_num_splits (fprop params) >? 1 then
     match dq_tmp with Some t => copy_ dq t | None => ret tt end
   else ret tt) ;;
  ret [dq; dk; dv; softmax_d].

Definition mha_fwd_block
    (q k v cu_seqlens_q cu_seqlens_k blockmask : Tensor)
    (max_seqlen_q_ max_seqlen_k_ : Z)
    (p_dropout softmax_scale : float)
    (is_causal return_softmax : bool)
    (gen_ : option GeneratorHandle) : M (list Tensor) :=
  do dprops <- getCurrentDeviceProperties ;;
  TORCH_CHECK (is_sm8x dprops || is_sm90 dprops) "is_sm8x || is_sm90" ;;
  let is_dropout := is_dropout_of p_dropout in
  TORCH_CHECK (ScalarType_eqb (t_dtype q) kFloat16) "q.dtype() == torch::kFloat16" ;;
  TORCH_CHECK (ScalarType_eqb (t_dtype k) kFloat16) "k.dtype() == torch::kFloat16" ;;
  TORCH_CHECK (ScalarType_eqb (t_dtype v) kFloat16) "v.dtype() == torch::kFloat16" ;;
  TORCH_CHECK (ScalarType_eqb (t_dtype cu_seqlens_q) kInt32)
    "cu_seqlens_q.dtype() == torch::kInt32" ;;
  TORCH_CHECK (ScalarType_eqb (t_dtype cu_seqlens_k) kInt32)
    "cu_seqlens_k.dtype() == torch::kInt32" ;;
  TORCH_CHECK (ScalarType_eqb (t_dtype blockmask) kInt32)
    "blockmask.dtype() == torch::kInt32" ;;
  TORCH_CHECK (t_is_cuda q) "q.is_cuda()" ;;
  TORCH_CHECK (t_is_cuda k) "k.is_cuda()" ;;
  TORCH_CHECK (t_is_cuda v) "v.is_cuda()" ;;
  TORCH_CHECK (t_is_cuda cu_seqlens_q) "cu_seqlens_q.is_cuda()" ;;
  TORCH_CHECK (t_is_cuda cu_seqlens_k) "cu_seqlens_k.is_cuda()" ;;
  TORCH_CHECK (t_is_cuda blockmask) "blockmask.is_cuda()" ;;
  TORCH_CHECK (stride_m1_is_1 q) "q.stride(-1) == 1" ;;
  TORCH_CHECK (stride_m1_is_1 k) "k.stride(-1) == 1" ;;
  TORCH_CHECK (stride_m1_is_1 v) "v.stride(-1) == 1" ;;
  TORCH_CHECK (is_contiguous cu_seqlens_k) "cu_seqlens_k.is_contiguous()" ;;
  TORCH_CHECK (is_contiguous cu_seqlens_k) "cu_seqlens_k.is_contiguous()" ;;
  TORCH_CHECK (is_contiguous blockmask) "blockmask.is_contiguous()" ;;
  let batch_size := batch_size_of cu_seqlens_q in
  let total_q := total_of q in
  let num_heads := num_heads_of q in
  let head_size := head_size_of q in
  let total_k := total_of k in
  TORCH_CHECK (batch_size >? 0) "batch_size > 0" ;;
  TORCH_CHECK ((head_size =? 16) || (head_size =? 32) || (head_size =? 64)
               || (head_size =? 128))
    "head_size == 16 || head_size == 32 || head_size == 64 || head_size == 128" ;;
  TORCH_CHECK (shape_is q [total_q; num_heads; head_size])
    "q must have shape (total_q, num_heads, head_size)" ;;
  TORCH_CHECK (shape_is k [total_k; num_heads; head_size])
    "k must have shape (total_k, num_heads, head_size)" ;;
  TORCH_CHECK (shape_is v [total_k; num_heads; head_size])
    "v must have shape (total_k, num_heads, head_size)" ;;
  TORCH_CHECK (shape_is cu_seqlens_q [int_add batch_size 1])
    "cu_seqlens_q must have shape (batch_size + 1)" ;;
  TORCH_CHECK (shape_is cu_seqlens_k [int_add batch_size 1])
    "cu_seqlens_k must have shape (batch_size + 1)" ;;
  let max_seqlen_k := block_max_seqlen_k max_seqlen_k_ in
  let max_seqlen_q := padded_max_seqlen_q max_seqlen_q_ in
  let loop := max_seqlen_k >? 256 in
  TORCH_CHECK (shape_is blockmask [int_div max_seqlen_k 256; int_div max_seqlen_q 16])
    "blockmask must have shape (max_seqlen_k / 256, max_seqlen_q / 16)" ;;
  do o <- torch_zeros [total_q; num_heads; head_size] (t_dtype q) ;;
  do o_tmp <- alloc_if loop [total_q; num_heads; head_size] kFloat Indet ;;
  do softmax_lse <- torch_empty [batch_size; num_heads; max_seqlen_q] kFloat ;;
  do s <- alloc_if return_softmax
            [batch_size; num_heads; max_seqlen_q; max_seqlen_k] (t_dtype q) zero_cell ;;
  do gen <- get_generator_or_default gen_ ;;
  do params <- lift (set_params_fprop batch_size max_seqlen_q max_seqlen_k
                       num_heads head_size q k v o
                       (data_ptr cu_seqlens_q) (data_ptr cu_seqlens_k)
                       (if loop then opt_ptr o_tmp else None)
                       (if return_softmax then opt_ptr s else None)
                       (data_ptr softmax_lse)
                       p_dropout softmax_scale is_causal (* num_splits = *) 1) ;;
  let params := with_blockmask params (data_ptr blockmask) in
  do launch_params <-
    run_fmha_block_fp16_sm80
      {| elts_per_thread := 0; lp_props := dprops; lp_params := params;
         lp_is_dropout := is_dropout; lp_return_softmax := return_softmax |}
      (* configure = *) true ;;
  (* number of times random will be generated per thread, to offset philox
     counter in thc random state *)
  let counter_offset := elts_per_thread launch_params in
  do launch_params <-
    (if is_dropout then
       do ph <- reserve_philox gen counter_offset ;;
       ret (with_lp_params launch_params
              (with_philox_args (lp_params launch_params) ph))
     else ret launch_params) ;;
  run_fmha_block_fp16_sm80 launch_params (* configure = *) false ;;
  ret (o :: softmax_lse :: match s with Some s => [s] | None => [] end).

Definition mha_bwd_block
    (dout q k v out softmax_lse_ dq dk dv cu_seqlens_q cu_seqlens_k blockmask : Tensor)
    (max_seqlen_q_ max_seqlen_k_ : Z)
    (p_dropout softmax_scale : float)
    (is_causal : bool)
    (gen_ : option GeneratorHandle) : M (list Tensor) :=
  do dprops <- getCurrentDeviceProperties ;;
  TORCH_CHECK (is_sm8x dprops || is_sm90 dprops) "is_sm8x || is_sm90" ;;
  let launch := run_fmha_block_dgrad_fp16_sm80 in
  let is_dropout := is_dropout_of p_dropout in
  TORCH_CHECK (ScalarType_eqb (t_dtype q) kFloat16) "q.dtype() == torch::kFloat16" ;;
  TORCH_CHECK (ScalarType_eqb (t_dtype k) kFloat16) "k.dtype() == torch::kFloat16" ;;
  TORCH_CHECK (ScalarType_eqb (t_dtype v) kFloat16) "v.dtype() == torch::kFloat16" ;;
  TORCH_CHECK (ScalarType_eqb (t_dtype out) kFloat16) "out.dtype() == torch::kFloat16" ;;
  TORCH_CHECK (ScalarType_eqb (t_dtype dout) kFloat16) "dout.dtype() == torch::kFloat16" ;;
  TORCH_CHECK (ScalarType_eqb (t_dtype dq) kFloat16) "dq.dtype() == torch::kFloat16" ;;
  TORCH_CHECK (ScalarType_eqb (t_dtype dk) kFloat16) "dk.dtype() == torch::kFloat16" ;;
  TORCH_CHECK (ScalarType_eqb (t_dtype dv) kFloat16) "dv.dtype() == torch::kFloat16" ;;
  TORCH_CHECK (ScalarType_eqb (t_dtype cu_seqlens_q) kInt32)
    "cu_seqlens_q.dtype() == torch::kInt32" ;;
  TORCH_CHECK (ScalarType_eqb (t_dtype cu_seqlens_k) kInt32)
    "cu_seqlens_k.dtype() == torch::kInt32" ;;
  TORCH_CHECK (ScalarType_eqb (t_dtype blockmask) kInt32)
    "blockmask.dtype() == torch::kInt32" ;;
  TORCH_CHECK (t_is_cuda q) "q.is_cuda()" ;;
  TORCH_CHECK (t_is_cuda k) "k.is_cuda()" ;;
  TORCH_CHECK (t_is_cuda v) "v.is_cuda()" ;;
  TORCH_CHECK (t_is_cuda out) "out.is_cuda()" ;;
  TORCH_CHECK (t_is_cuda dout) "dout.is_cuda()" ;;
  TORCH_CHECK (t_is_cuda softmax_lse_) "softmax_lse_.is_cuda()" ;;
  TORCH_CHECK (t_is_cuda cu_seqlens_q) "cu_seqlens_q.is_cuda()" ;;
  TORCH_CHECK (t_is_cuda cu_seqlens_k) "cu_seqlens_k.is_cuda()" ;;
  TORCH_CHECK (t_is_cuda blockmask) "blockmask.is_cuda()" ;;
  TORCH_CHECK (stride_m1_is_1 q) "q.stride(-1) == 1" ;;
  TORCH_CHECK (stride_m1_is_1 k) "k.stride(-1) == 1" ;;
  TORCH_CHECK (stride_m1_is_1 v) "v.stride(-1) == 1" ;;
  TORCH_CHECK (is_contiguous out) "out.is_contiguous()" ;;
  TORCH_CHECK (is_contiguous dout) "dout.is_contiguous()" ;;
  TORCH_CHECK (stride_m1_is_1 dq) "dq.stride(-1) == 1" ;;
  TORCH_CHECK (stride_m1_is_1 dk) "dk.stride(-1) == 1" ;;
  TORCH_CHECK (stride_m1_is_1 dv) "dv.stride(-1) == 1" ;;
  TORCH_CHECK (is_contiguous cu_seqlens_q) "cu_seqlens_q.is_contiguous()" ;;
  TORCH_CHECK (is_contiguous cu_seqlens_k) "cu_seqlens_k.is_contiguous()" ;;
  TORCH_CHECK (is_contiguous blockmask) "blockmask.is_contiguous()" ;;
  let batch_size := batch_size_of cu_seqlens_q in
  let total_q := total_of q in
  let num_heads := num_heads_of q in
  let head_size := head_size_of q in
  let total_k := total_of k in
  TORCH_CHECK (batch_size >? 0) "batch_size > 0" ;;
  TORCH_CHECK ((head_size =? 16) || (head_size =? 32) || (head_size =? 64)
               || (head_size =? 128))
    "head_size == 16 || head_size == 32 || head_size == 64 || head_size == 128" ;;
  (* TODO: eventually we should support SM86 and SM70 with d=128 as well *)
  (if head_size =? 128
   then TORCH_CHECK (is_sm80 dprops || is_sm90 dprops) "is_sm80 || is_sm90"
   else ret tt) ;;
  TORCH_CHECK (shape_is q [total_q; num_heads; head_size])
    "q must have shape (total_q, num_heads, head_size)" ;;
  TORCH_CHECK (shape_is k [total_k; num_heads; head_size])
    "k must have shape (total_k, num_heads, head_size)" ;;
  TORCH_CHECK (shape_is v [total_k; num_heads; head_size])
    "v must have shape (total_k, num_heads, head_size)" ;;
  TORCH_CHECK (shape_is out [total_q; num_heads; head_size])
    "out must have shape (total_q, num_heads, head_size)" ;;
  TORCH_CHECK (shape_is dout [total_q; num_heads; head_size])
    "dout must have shape (total_q, num_heads, head_size)" ;;
  TORCH_CHECK (shape_is dq [total_q; num_heads; head_size])
    "dq must have shape (total_q, num_heads, head_size)" ;;
  TORCH_CHECK (shape_is dk [total_k; num_heads; head_size])
    "dk must have shape (total_k, num_heads, head_size)" ;;
  TORCH_CHECK (shape_is dv [total_k; num_heads; head_size])
    "dv must have shape (total_k, num_heads, head_size)" ;;
  TORCH_CHECK (shape_is cu_seqlens_q [int_add batch_size 1])
    "cu_seqlens_q must have shape (batch_size + 1)" ;;
  TORCH_CHECK (shape_is cu_seqlens_k [int_add batch_size 1])
    "cu_seqlens_k must have shape (batch_size + 1)" ;;
  let max_seqlen_k := block_max_seqlen_k max_seqlen_k_ in
  let max_seqlen_q := padded_max_seqlen_q max_seqlen_q_ in
  let loop := max_seqlen_k >? 256 in
  TORCH_CHECK (shape_is blockmask [int_div max_seqlen_k 256; int_div max_seqlen_q 16])
    "blockmask must have shape (max_seqlen_k / 256, max_seqlen_q / 16)" ;;
  (* It's possible the softmax_lse_ from the fwd has a different length since
     blocksize_c could be different. *)
  do softmax_lse <- index_slice2_contiguous softmax_lse_ max_seqlen_q ;;
  do softmax_d <- torch_empty [batch_size; num_heads; max_seqlen_q] kFloat ;;
  do dq_tmp <- alloc_if loop [total_q; num_heads; head_size] kFloat Indet ;;
  do params <- lift (set_params_dgrad batch_size max_seqlen_q max_seqlen_k
                       num_heads head_size q k v out dq dk dv
                       (data_ptr cu_seqlens_q) (data_ptr cu_seqlens_k)
                       (if loop then opt_ptr dq_tmp else None)
                       (data_ptr dout)
                       (data_ptr softmax_lse)
                       (data_ptr softmax_d)
                       p_dropout softmax_scale is_causal (* num_splits = *) 1) ;;
  let params := with_fprop params (with_blockmask (fprop params) (data_ptr blockmask)) in
  do gen <- get_generator_or_default gen_ ;;
  (* We're gonna reset the rng state in Python after this kernel, so the counter
     offset here doesn't matter at all. We just choose an arbitrary number; *)
  let counter_offset := 4 in
  do params <- (if is_dropout then
                  do ph <- reserve_philox gen counter_offset ;;
                  ret (with_fprop params (with_philox_args (fprop params) ph))
                else ret params) ;;
  launch params ;;
  ret [dq; dk; dv; softmax_d].

End Host.

(** ** The extension module

    [PYBIND11_MODULE] exports the four entry points as [fwd], [bwd],
    [fwd_block] and [bwd_block]. A call names one of them and carries its
    arguments. *)

Record fwd_args := {
  f_q : Tensor; f_k : Tensor; f_v : Tensor; f_out : Tensor;
  f_cu_seqlens_q : Tensor; f_cu_seqlens_k : Tensor;
  f_max_seqlen_q_ : Z; f_max_seqlen_k_ : Z;
  f_p_dropout : float; f_softmax_scale : float;
  f_zero_tensors : bool; f_is_causal : bool; f_return_softmax : bool;
  f_num_splits : Z;
  f_gen_ : option GeneratorHandle
}.

Record bwd_args := {
  b_dout : Tensor; b_q : Tensor; b_k : Tensor; b_v : Tensor; b_out : Tensor;
  b_softmax_lse_ : Tensor;
  b_dq : Tensor; b_dk : Tensor; b_dv : Tensor;
  b_cu_seqlens_q : Tensor; b_cu_seqlens_k : Tensor;
  b_max_seqlen_q_ : Z; b_max_seqlen_k_ : Z;
  b_p_dropout : float; b_softmax_scale : float;
  b_zero_tensors : bool; b_is_causal : bool;
  b_num_splits : Z;
  b_gen_ : option GeneratorHandle
}.

Record fwd_block_args := {
  fb_q : Tensor; fb_k : Tensor; fb_v : Tensor;
  fb_cu_seqlens_q : Tensor; fb_cu_seqlens_k : Tensor;
  fb_blockmask : Tensor;
  fb_max_seqlen_q_ : Z; fb_max_seqlen_k_ : Z;
  fb_p_dropout : float; fb_softmax_scale : float;
  fb_is_causal : bool; fb_return_softmax : bool;
  fb_gen_ : option GeneratorHandle
}.

Record bwd_block_args := {
  bb_dout : Tensor; bb_q : Tensor; bb_k : Tensor; bb_v : Tensor; bb_out : Tensor;
  bb_softmax_lse_ : Tensor;
  bb_dq : Tensor; bb_dk : Tensor; bb_dv : Tensor;
  bb_cu_seqlens_q : Tensor; bb_cu_seqlens_k : Tensor;
  bb_blockmask : Tensor;
  bb_max_seqlen_q_ : Z; bb_max_seqlen_k_ : Z;
  bb_p_dropout : float; bb_softmax_scale : float;
  bb_is_causal : bool;
  bb_gen_ : option GeneratorHandle
}.

Inductive call :=
  | fwd (a : fwd_args)
  | bwd (a : bwd_args)
  | fwd_block (a : fwd_block_args)
  | bwd_block (a : bwd_block_args).

Definition call_q (c : call) : Tensor :=
  match c with
  | fwd a => f_q a | bwd a => b_q a | fwd_block a => fb_q a | bwd_block a => bb_q a
  end.

Definition call_cu_seqlens_q (c : call) : Tensor :=
  match c with
  | fwd a => f_cu_seqlens_q a | bwd a => b_cu_seqlens_q a
  | fwd_block a => fb_cu_seqlens_q a | bwd_block a => bb_cu_seqlens_q a
  end.

Definition call_p_dropout (c : call) : float :=
  match c with
  | fwd a => f_p_dropout a | bwd a => b_p_dropout a
  | fwd_block a => fb_p_dropout a | bwd_block a => bb_p_dropout a
  end.

Definition call_gen_ (c : call) : option GeneratorHandle :=
  match c with
  | fwd a => f_gen_ a | bwd a => b_gen_ a
  | fwd_block a => fb_gen_ a | bwd_block a => bb_gen_ a
  end.

Definition call_max_seqlen_q_ (c : call) : Z :=
  match c with
  | fwd a => f_max_seqlen_q_ a | bwd a => b_max_seqlen_q_ a
  | fwd_block a => fb_max_seqlen_q_ a | bwd_block a => bb_max_seqlen_q_ a
  end.

Definition call_max_seqlen_k_ (c : call) : Z :=
  match c with
  | fwd a => f_max_seqlen_k_ a | bwd a => b_max_seqlen_k_ a
  | fwd_block a => fb_max_seqlen_k_ a | bwd_block a => bb_max_seqlen_k_ a
  end.

Definition is_backward (c : call) : bool :=
  match c with bwd _ | bwd_block _ => true | _ => false end.
Definition is_block_sparse (c : call) : bool :=
  match c with fwd_block _ | bwd_block _ => true | _ => false end.

Section Module.
Context `{KN : Kernels}.

Definition run (c : call) : M (list Tensor) :=
  match c with
  | fwd a =>
      mha_fwd (f_q a) (f_k a) (f_v a) (f_out a) (f_cu_seqlens_q a) (f_cu_seqlens_k a)
        (f_max_seqlen_q_ a) (f_max_seqlen_k_ a) (f_p_dropout a) (f_softmax_scale a)
        (f_zero_tensors a) (f_is_causal a) (f_return_softmax a) (f_num_splits a)
        (f_gen_ a)
  | bwd a =>
      mha_bwd (b_dout a) (b_q a) (b_k a) (b_v a) (b_out a) (b_softmax_lse_ a)
        (b_dq a) (b_dk a) (b_dv a) (b_cu_seqlens_q a) (b_cu_seqlens_k a)
        (b_max_seqlen_q_ a) (b_max_seqlen_k_ a) (b_p_dropout a) (b_softmax_scale a)
        (b_zero_tensors a) (b_is_causal a) (b_num_splits a) (b_gen_ a)
  | fwd_block a =>
      mha_fwd_block (fb_q a) (fb_k a) (fb_v a) (fb_cu_seqlens_q a) (fb_cu_seqlens_k a)
        (fb_blockmask a) (fb_max_seqlen_q_ a) (fb_max_seqlen_k_ a) (fb_p_dropout a)
        (fb_softmax_scale a) (fb_is_causal a) (fb_return_softmax a) (fb_gen_ a)
  | bwd_block a =>
      mha_bwd_block (bb_dout a) (bb_q a) (bb_k a) (bb_v a) (bb_out a)
        (bb_softmax_lse_ a) (bb_dq a) (bb_dk a) (bb_dv a) (bb_cu_seqlens_q a)
        (bb_cu_seqlens_k a) (bb_blockmask a) (bb_max_seqlen_q_ a) (bb_max_seqlen_k_ a)
        (bb_p_dropout a) (bb_softmax_scale a) (bb_is_causal a) (bb_gen_ a)
  end.

(** The world a call leaves behind and what it returns or raises. *)
Definition final (c : call) (w : World) : World := fst (run c w).
Definition result (c : call) (w : World) : outcome (list Tensor) := snd (run c w).

(** *** What a trace shows *)

(** The reservations made on generators, in order. *)
Definition reservations (tr : list Event) : list (GenRef * Z) :=
  flat_map (fun e => match e with EvPhilox g n => [(g, n)] | _ => [] end) tr.

(** The kernels dispatched (launches with [configure = false]), in order. *)
Definition dispatches (tr : list Event) : list Kernel :=
  flat_map (fun e => match e with
                     | EvFwd k false _ _ | EvBwd k false _ _ => [k]
                     | _ => []
                     end) tr.

(** The parameters a launcher was called with, configure passes included. *)
Definition launched_params (e : Event) : list FMHA_fprop_params :=
  match e with
  | EvPhilox _ _ => []
  | EvFwd _ _ lp _ => [lp_params lp]
  | EvBwd _ _ p _ => [fprop p]
  end.

(** The padded sequence lengths (query, key) of every launcher call. *)
Definition launched_seqlens (tr : list Event) : list (Z * Z) :=
  (fun p => (params_seqlen_q p, params_seqlen_k p)) <$> flat_map launched_params tr.

(** The two fixed-point dropout thresholds of every launcher call. *)
Definition launched_thresholds (tr : list Event) : list (Z * Z) :=
  (fun p => (p_dropout_in_uint p, p_dropout_in_uint16_t p))
    <$> flat_map launched_params tr.

(** The kernel chosen by [run_fmha_fwd] and [run_fmha_bwd] for a head
    dimension of at most 128. *)
Definition fwd_kernel_for (d : Z) : Kernel :=
  if d <=? 32 then fmha_fwd_hdim32
  else if d <=? 64 then fmha_fwd_hdim64 else fmha_fwd_hdim128.
Definition bwd_kernel_for (d : Z) : Kernel :=
  if d <=? 32 then fmha_bwd_hdim32
  else if d <=? 64 then fmha_bwd_hdim64 else fmha_bwd_hdim128.

(** The generator [get_generator_or_default] selects, and whether it
    accepts the caller's generator. *)
Definition gen_ref (gen_ : option GeneratorHandle) : GenRef := gen_id <$> gen_.
Definition gen_ok (gen_ : option GeneratorHandle) : bool :=
  match gen_ with
  | Some h => match gen_device h with CUDA => true | CPU => false end
  | None => true
  end.

(** The tensor and the world after [alloc_if c sizes dt init]. *)
Definition alloc_tensor (c : bool) (sizes : list Z) (dt : ScalarType) (w : World)
  : option Tensor :=
  if c then Some (new_tensor_at sizes dt w) else None.
Definition alloc_world (c : bool) (sizes : list Z) (init : cell) (w : World) : World :=
  if c then new_tensor_world sizes init w else w.

(** The buffers a backward kernel is given for output. *)
Definition dgrad_outputs (p : FMHA_dgrad_params) : list ptr :=
  [dq_ptr p; dk_ptr p; dv_ptr p; dsoftmax_sum p; o_tmp_ptr (fprop p)].

(** The contract of the backward kernels on device memory: a launch
    writes only to its output buffers. *)
Definition bwd_kernels_write_outputs_only : Prop :=
  forall p st (i : nat), Some i ∉ dgrad_outputs p ->
    (forall k, bwd_kernel k p st !! i = st !! i)
    /\ block_dgrad_kernel p st !! i = st !! i.

End Module.

(** [r] is [x] rounded up to a multiple of [m]. *)
Definition rounds_up (x m r : Z) : Prop := (m | r) /\ x <= r < x + m.

(** ** Observations on a run *)

Section Observations.
Context `{KN : Kernels}.

(** [t]'s buffer holds [c] in every element. *)
Definition filled (t : Tensor) (c : cell) (st : Store) : Prop :=
  st !! t_buf t = Some (replicate (Z.to_nat (numel t)) c).

(** The offset [off] a call passes to [philox_cuda_state], against the
    events [new] the call added to the log: what the dense entry points
    compute, the constant of the block-sparse backward, and, in the
    block-sparse forward, what the configure pass that opens [new]
    returned and the launch that closes it carries in
    [elts_per_thread]. *)
Definition counter_offset_spec (c : call) (new : list Event) (off : Z) : Prop :=
  match c with
  | fwd _ | bwd _ =>
      off = batch_size_of (call_cu_seqlens_q c) * num_heads_of (call_q c) * 32
  | bwd_block _ => off = 4
  | fwd_block _ =>
      exists lp0 snap0 lp snap,
        new = [EvFwd fmha_block_fp16_sm80 true lp0 snap0;
               EvPhilox (gen_ref (call_gen_ c)) off;
               EvFwd fmha_block_fp16_sm80 false lp snap]
        /\ off = block_fwd_configure lp0
        /\ elts_per_thread lp = off
  end.

(** The caller's LogSumExp tensor and gradient tensors of a backward
    call. *)
Definition call_softmax_lse_ (c : call) : option Tensor :=
  match c with
  | bwd a => Some (b_softmax_lse_ a)
  | bwd_block a => Some (bb_softmax_lse_ a)
  | _ => None
  end.

Definition call_grads (c : call) : list Tensor :=
  match c with
  | bwd a => [b_dq a; b_dk a; b_dv a]
  | bwd_block a => [bb_dq a; bb_dk a; bb_dv a]
  | _ => []
  end.

(** The calls made to the backward launchers, configure passes included:
    the parameters and the store at the time of the call. *)
Definition bwd_launches (tr : list Event) : list (FMHA_dgrad_params * Store) :=
  flat_map (fun e => match e with EvBwd _ _ p st => [(p, st)] | _ => [] end) tr.

(** The caller's [lse_] with axis 2 cut to [n] entries, on the caller's
    own storage. *)
Definition lse_cut (lse_ : Tensor) (n : Z) : Tensor :=
  {| t_dtype := t_dtype lse_; t_is_cuda := t_is_cuda lse_;
     t_sizes := <[2%nat := n]> (t_sizes lse_);
     t_strides := t_strides lse_;
     t_buf := t_buf lse_ |}.

(** What a backward launcher call [l] is given as LogSumExp when the
    padded query length is [sq], for the caller's [lse_] in world [w].
    The launcher is told that a row has [sq] entries. With [n] the
    smaller of [sq] and the row length of [lse_]: when [lse_] cut to
    [n] entries a row is contiguous, the launcher is given the caller's
    own buffer, unchanged; otherwise it is given a buffer that did not
    exist in [w], which holds, row after row, the first [n] entries of
    every row of [lse_] and nothing else. (A row is indexed by the first
    two axes; an entry spans the axes after the third.) *)
Definition lse_view (lse_ : Tensor) (sq : Z) (w : World)
    (l : FMHA_dgrad_params * Store) : Prop :=
  let n := Z.min (size_at lse_ 2) sq in
  let rows := size_at lse_ 0 * size_at lse_ 1 in
  let entry := prodZ (drop 3 (t_sizes lse_)) in
  params_seqlen_q (fprop (fst l)) = sq
  /\ if is_contiguous (lse_cut lse_ n)
     then softmax_lse_ptr (fprop (fst l)) = data_ptr lse_
          /\ snd l !! t_buf lse_ = bufs w !! t_buf lse_
     else exists (i : nat) (cut : list cell),
            softmax_lse_ptr (fprop (fst l)) = Some i
            /\ bufs w !! i = None
            /\ snd l !! i = Some cut
            /\ length cut = Z.to_nat (rows * (n * entry))
            /\ forall r k : Z,
                 0 <= r < rows -> 0 <= k < n * entry ->
                 cut !! Z.to_nat (r * (n * entry) + k)
                 = contents lse_ (bufs w) !! Z.to_nat (r * (size_at lse_ 2 * entry) + k).

End Observations.

(** ** The tensors of a call *)

Section CallTensors.
Context `{KN : Kernels}.

Definition call_k (c : call) : Tensor :=
  match c with
  | fwd a => f_k a | bwd a => b_k a | fwd_block a => fb_k a | bwd_block a => bb_k a
  end.

Definition call_cu_seqlens_k (c : call) : Tensor :=
  match c with
  | fwd a => f_cu_seqlens_k a | bwd a => b_cu_seqlens_k a
  | fwd_block a => fb_cu_seqlens_k a | bwd_block a => bb_cu_seqlens_k a
  end.

(** The tensors whose element type an entry point compares with [q]'s
    (dense calls) or with [kFloat16] (block-sparse calls). *)
Definition call_data_tensors (c : call) : list Tensor :=
  match c with
  | fwd a => [f_k a; f_v a; f_out a]
  | bwd a => [b_k a; b_v a; b_out a; b_dout a; b_dq a; b_dk a; b_dv a]
  | fwd_block a => [fb_k a; fb_v a]
  | bwd_block a => [bb_k a; bb_v a; bb_out a; bb_dout a; bb_dq a; bb_dk a; bb_dv a]
  end.

(** The tensors required to be [kInt32]. *)
Definition call_index_tensors (c : call) : list Tensor :=
  match c with
  | fwd a => [f_cu_seqlens_q a; f_cu_seqlens_k a]
  | bwd a => [b_cu_seqlens_q a; b_cu_seqlens_k a]
  | fwd_block a => [fb_cu_seqlens_q a; fb_cu_seqlens_k a; fb_blockmask a]
  | bwd_block a => [bb_cu_seqlens_q a; bb_cu_seqlens_k a; bb_blockmask a]
  end.

(** The tensors [CHECK_SHAPE] compares with [(total_q, num_heads,
    head_size)], and those it compares with [(total_k, num_heads,
    head_size)]. *)
Definition call_q_shaped (c : call) : list Tensor :=
  match c with
  | fwd a => [f_q a; f_out a]
  | bwd a => [b_q a; b_out a; b_dout a; b_dq a]
  | fwd_block a => [fb_q a]
  | bwd_block a => [bb_q a; bb_out a; bb_dout a; bb_dq a]
  end.

Definition call_k_shaped (c : call) : list Tensor :=
  match c with
  | fwd a => [f_k a; f_v a]
  | bwd a => [b_k a; b_v a; b_dk a; b_dv a]
  | fwd_block a => [fb_k a; fb_v a]
  | bwd_block a => [bb_k a; bb_v a; bb_dk a; bb_dv a]
  end.

(** The tensors checked with [is_cuda()], with [stride(-1) == 1] and with
    [is_contiguous()]. *)
Definition call_cuda_checked (c : call) : list Tensor :=
  match c with
  | fwd a => [f_q a; f_k a; f_v a; f_out a; f_cu_seqlens_q a; f_cu_seqlens_k a]
  | bwd a => [b_q a; b_k a; b_v a; b_out a; b_dout a; b_softmax_lse_ a;
              b_cu_seqlens_q a; b_cu_seqlens_k a]
  | fwd_block a => [fb_q a; fb_k a; fb_v a; fb_cu_seqlens_q a; fb_cu_seqlens_k a;
                    fb_blockmask a]
  | bwd_block a => [bb_q a; bb_k a; bb_v a; bb_out a; bb_dout a; bb_softmax_lse_ a;
                    bb_cu_seqlens_q a; bb_cu_seqlens_k a; bb_blockmask a]
  end.

Definition call_unit_stride (c : call) : list Tensor :=
  match c with
  | fwd a => [f_q a; f_k a; f_v a; f_out a]
  | bwd a => [b_q a; b_k a; b_v a; b_dq a; b_dk a; b_dv a]
  | fwd_block a => [fb_q a; fb_k a; fb_v a]
  | bwd_block a => [bb_q a; bb_k a; bb_v a; bb_dq a; bb_dk a; bb_dv a]
  end.

Definition call_contiguous (c : call) : list Tensor :=
  match c with
  | fwd a => [f_cu_seqlens_q a; f_cu_seqlens_k a]
  | bwd a => [b_out a; b_dout a; b_cu_seqlens_q a; b_cu_seqlens_k a]
  | fwd_block a => [fb_cu_seqlens_k a; fb_blockmask a]
  | bwd_block a => [bb_out a; bb_dout a; bb_cu_seqlens_q a; bb_cu_seqlens_k a;
                    bb_blockmask a]
  end.

End CallTensors.
Section CallEffects.
Context `{KN : Kernels}.

(** The caller's tensors the [zero_tensors] block of a dense call
    fills. *)
Definition call_zeroed (c : call) : list Tensor :=
  match c with
  | fwd a => if f_zero_tensors a then [f_out a] else []
  | bwd a => if b_zero_tensors a then [b_dq a; b_dk a; b_dv a] else []
  | fwd_block _ | bwd_block _ => []
  end.

(** The device memory as it was at every call of a launcher (configure
    passes included), in order. *)
Definition snapshots (tr : list Event) : list Store :=
  flat_map (fun e => match e with
                     | EvFwd _ _ _ st | EvBwd _ _ _ st => [st]
                     | EvPhilox _ _ => []
                     end) tr.

End CallEffects.

(** ** What a launcher is given of a call *)

Section CallInputs.
Context `{KN : Kernels}.

Definition call_v (c : call) : Tensor :=
  match c with
  | fwd a => f_v a | bwd a => b_v a | fwd_block a => fb_v a | bwd_block a => bb_v a
  end.

Definition call_softmax_scale (c : call) : float :=
  match c with
  | fwd a => f_softmax_scale a | bwd a => b_softmax_scale a
  | fwd_block a => fb_softmax_scale a | bwd_block a => bb_softmax_scale a
  end.

Definition call_is_causal (c : call) : bool :=
  match c with
  | fwd a => f_is_causal a | bwd a => b_is_causal a
  | fwd_block a => fb_is_causal a | bwd_block a => bb_is_causal a
  end.

Definition call_blockmask (c : call) : option Tensor :=
  match c with
  | fwd_block a => Some (fb_blockmask a)
  | bwd_block a => Some (bb_blockmask a)
  | fwd _ | bwd _ => None
  end.

(** The output tensor and the output gradient the caller passes in; the
    block-sparse forward call allocates its own output. *)
Definition call_out (c : call) : option Tensor :=
  match c with
  | fwd a => Some (f_out a)
  | bwd a => Some (b_out a)
  | bwd_block a => Some (bb_out a)
  | fwd_block _ => None
  end.

Definition call_dout (c : call) : option Tensor :=
  match c with
  | bwd a => Some (b_dout a)
  | bwd_block a => Some (bb_dout a)
  | fwd _ | fwd_block _ => None
  end.

(** The row and head strides of a tensor as a [uint32_t] field holds
    them: reduced modulo [2^32]. *)
Definition row_head_strides (t : Tensor) : Z * Z :=
  (stride_at t 0 mod 2 ^ 32, stride_at t 1 mod 2 ^ 32).

(** [p] describes the inputs of [c]: the buffers of [q], [k] and [v],
    their row and head strides modulo [2^32], the sequence offsets, the
    dimensions read off [q] and [cu_seqlens_q], and the scalar
    options. *)
Definition carries_inputs (c : call) (p : FMHA_fprop_params) : Prop :=
  q_ptr p = data_ptr (call_q c)
  /\ k_ptr p = data_ptr (call_k c)
  /\ v_ptr p = data_ptr (call_v c)
  /\ (q_row_stride_in_elts p, q_head_stride_in_elts p) = row_head_strides (call_q c)
  /\ (k_row_stride_in_elts p, k_head_stride_in_elts p) = row_head_strides (call_k c)
  /\ (v_row_stride_in_elts p, v_head_stride_in_elts p) = row_head_strides (call_v c)
  /\ cu_seqlens_q_ptr p = data_ptr (call_cu_seqlens_q c)
  /\ cu_seqlens_k_ptr p = data_ptr (call_cu_seqlens_k c)
  /\ params_b p = batch_size_of (call_cu_seqlens_q c)
  /\ params_h p = num_heads_of (call_q c)
  /\ params_d p = head_size_of (call_q c)
  /\ is_bf16 p = ScalarType_eqb (t_dtype (call_q c)) kBFloat16
  /\ scale_bmm1f p = call_softmax_scale c
  /\ params_p_dropout p = f32_sub f32_one (call_p_dropout c)
  /\ params_is_causal p = call_is_causal c
  /\ blockmask p = (call_blockmask c ≫= data_ptr)
  /\ match call_out c with
     | Some out => o_ptr p = data_ptr out
                   /\ (o_row_stride_in_elts p, o_head_stride_in_elts p)
                      = row_head_strides out
     | None => True
     end.

(** [p] points to the caller's gradient tensors (with their row and
    head strides modulo [2^32]) and output gradient, and to
    [softmax_d]. *)
Definition carries_grads (c : call) (softmax_d : Tensor) (p : FMHA_dgrad_params) : Prop :=
  [dq_ptr p; dk_ptr p; dv_ptr p] = data_ptr <$> call_grads c
  /\ [(dq_row_stride_in_elts p, dq_head_stride_in_elts p);
      (dk_row_stride_in_elts p, dk_head_stride_in_elts p);
      (dv_row_stride_in_elts p, dv_head_stride_in_elts p)]
     = row_head_strides <$> call_grads c
  /\ Some (do_ptr p) = data_ptr <$> call_dout c
  /\ dsoftmax_sum p = data_ptr softmax_d.

End CallInputs.

(** ** A concrete runtime, for running the model

    A generator is its (seed, offset) pair; a reservation returns the pair
    and advances the offset. The stand-in kernels store [1.0] in every
    element of the buffers they are given for output. *)

#[export] Instance ex_runtime : Runtime := {|
  Generator := Z * Z;
  PhiloxCudaState := Z * Z;
  philox_cuda_state := fun inc g => (g, (fst g, snd g + inc));
  get_size_in_bytes := fun n dt =>
    match dt with DATA_TYPE_FP32 => n * 4 | _ => n * 2 end;
  set_alpha := fun _ _ => 0
|}.

Definition one_cell : cell := Flt f32_one.

Definition overwrite (p : ptr) (st : Store) : Store :=
  match p with
  | Some b => alter (fun l => (fun _ => one_cell) <$> l) b st
  | None => st
  end.

Definition ex_fwd_kernel (lp : Launch_params) (st : Store) : Store :=
  overwrite (o_ptr (lp_params lp))
    (overwrite (softmax_lse_ptr (lp_params lp))
       (overwrite (s_ptr (lp_params lp))
          (overwrite (o_tmp_ptr (lp_params lp)) st))).

Definition ex_bwd_kernel (p : FMHA_dgrad_params) (st : Store) : Store :=
  overwrite (dq_ptr p)
    (overwrite (dk_ptr p)
       (overwrite (dv_ptr p)
          (overwrite (dsoftmax_sum p)
             (overwrite (o_tmp_ptr (fprop p)) st)))).

(** The configure pass of the stand-in backward launcher picks two splits
    when none was requested. *)
#[export] Instance ex_kernels : Kernels := {|
  fwd_kernel := fun _ => ex_fwd_kernel;
  bwd_configure := fun _ p =>
    if params_num_splits (fprop p) =? 0 then 2 else params_num_splits (fprop p);
  bwd_kernel := fun _ => ex_bwd_kernel;
  block_fwd_configure := fun _ => 64;
  block_fwd_kernel := ex_fwd_kernel;
  block_dgrad_kernel := ex_bwd_kernel
|}.

(** A packed batch of one sequence of two tokens, one head. *)
Definition ex_qkv (dt : ScalarType) (head_size : Z) (buf : nat) : Tensor :=
  {| t_dtype := dt; t_is_cuda := true; t_sizes := [2; 1; head_size];
     t_strides := [head_size; head_size; 1]; t_buf := buf |}.

Definition ex_cu_seqlens (buf : nat) : Tensor :=
  {| t_dtype := kInt32; t_is_cuda := true; t_sizes := [2]; t_strides := [1];
     t_buf := buf |}.

Definition ex_lse (len : Z) (buf : nat) : Tensor :=
  {| t_dtype := kFloat; t_is_cuda := true; t_sizes := [1; 1; len];
     t_strides := [len; len; 1]; t_buf := buf |}.

Definition ex_blockmask (buf : nat) : Tensor :=
  {| t_dtype := kInt32; t_is_cuda := true; t_sizes := [1; 1]; t_strides := [1; 1];
     t_buf := buf |}.

Definition half_cell : cell := Flt (S754_finite false 8388608 (-24)).

Definition ex_bufs (head_size : Z) : Store :=
  list_to_map
    (((fun i => (i, replicate (Z.to_nat (2 * head_size)) half_cell)) <$> seq 0 8)
     ++ [(8%nat, replicate 32 half_cell); (9%nat, [Indet; Indet]);
         (10%nat, [Indet; Indet]); (11%nat, [Indet])]).

Definition ex_world (major minor : Z) (head_size : Z) : World :=
  {| device := {| major := major; minor := minor |};
     bufs := ex_bufs head_size;
     gens := fun _ => (42, 0);
     trace := [] |}.

(** [0.5f], [0.0f] *)
Definition f32_half : float := S754_finite false 8388608 (-24).
Definition f32_zero : float := S754_zero false.

Definition ex_fwd (head_size max_seqlen_q_ max_seqlen_k_ : Z)
    (p_dropout : float) (zero_tensors return_softmax : bool) : call :=
  fwd {| f_q := ex_qkv kFloat16 head_size 0; f_k := ex_qkv kFloat16 head_size 1;
         f_v := ex_qkv kFloat16 head_size 2; f_out := ex_qkv kFloat16 head_size 3;
         f_cu_seqlens_q := ex_cu_seqlens 9; f_cu_seqlens_k := ex_cu_seqlens 10;
         f_max_seqlen_q_ := max_seqlen_q_; f_max_seqlen_k_ := max_seqlen_k_;
         f_p_dropout := p_dropout; f_softmax_scale := f32_one;
         f_zero_tensors := zero_tensors; f_is_causal := false;
         f_return_softmax := return_softmax; f_num_splits := 1; f_gen_ := None |}.

Definition ex_bwd (head_size max_seqlen_q_ max_seqlen_k_ : Z)
    (p_dropout : float) (zero_tensors : bool) (num_splits : Z) : call :=
  bwd {| b_dout := ex_qkv kFloat16 head_size 4; b_q := ex_qkv kFloat16 head_size 0;
         b_k := ex_qkv kFloat16 head_size 1; b_v := ex_qkv kFloat16 head_size 2;
         b_out := ex_qkv kFloat16 head_size 3; b_softmax_lse_ := ex_lse 32 8;
         b_dq := ex_qkv kFloat16 head_size 5; b_dk := ex_qkv kFloat16 head_size 6;
         b_dv := ex_qkv kFloat16 head_size 7;
         b_cu_seqlens_q := ex_cu_seqlens 9; b_cu_seqlens_k := ex_cu_seqlens 10;
         b_max_seqlen_q_ := max_seqlen_q_; b_max_seqlen_k_ := max_seqlen_k_;
         b_p_dropout := p_dropout; b_softmax_scale := f32_one;
         b_zero_tensors := zero_tensors; b_is_causal := false;
         b_num_splits := num_splits; b_gen_ := None |}.

Definition ex_fwd_block (head_size : Z) (p_dropout : float) : call :=
  fwd_block
    {| fb_q := ex_qkv kFloat16 head_size 0; fb_k := ex_qkv kFloat16 head_size 1;
       fb_v := ex_qkv kFloat16 head_size 2;
       fb_cu_seqlens_q := ex_cu_seqlens 9; fb_cu_seqlens_k := ex_cu_seqlens 10;
       fb_blockmask := ex_blockmask 11;
       fb_max_seqlen_q_ := 16; fb_max_seqlen_k_ := 16;
       fb_p_dropout := p_dropout; fb_softmax_scale := f32_one;
       fb_is_causal := false; fb_return_softmax := false; fb_gen_ := None |}.

Definition ex_bwd_block (head_size : Z) (p_dropout : float) : call :=
  bwd_block
    {| bb_dout := ex_qkv kFloat16 head_size 4; bb_q := ex_qkv kFloat16 head_size 0;
       bb_k := ex_qkv kFloat16 head_size 1; bb_v := ex_qkv kFloat16 head_size 2;
       bb_out := ex_qkv kFloat16 head_size 3; bb_softmax_lse_ := ex_lse 32 8;
       bb_dq := ex_qkv kFloat16 head_size 5; bb_dk := ex_qkv kFloat16 head_size 6;
       bb_dv := ex_qkv kFloat16 head_size 7;
       bb_cu_seqlens_q := ex_cu_seqlens 9; bb_cu_seqlens_k := ex_cu_seqlens 10;
       bb_blockmask := ex_blockmask 11;
       bb_max_seqlen_q_ := 16; bb_max_seqlen_k_ := 16;
       bb_p_dropout := p_dropout; bb_softmax_scale := f32_one;
       bb_is_causal := false; bb_gen_ := None |}.

(** ** Concrete arguments

    The argument records of the example calls, for the statements made
    on one entry point. *)

Definition ex_fwd_args (head_size max_seqlen_q_ max_seqlen_k_ : Z)
    (p_dropout : float) (zero_tensors return_softmax : bool) : fwd_args :=
  {| f_q := ex_qkv kFloat16 head_size 0; f_k := ex_qkv kFloat16 head_size 1;
     f_v := ex_qkv kFloat16 head_size 2; f_out := ex_qkv kFloat16 head_size 3;
     f_cu_seqlens_q := ex_cu_seqlens 9; f_cu_seqlens_k := ex_cu_seqlens 10;
     f_max_seqlen_q_ := max_seqlen_q_; f_max_seqlen_k_ := max_seqlen_k_;
     f_p_dropout := p_dropout; f_softmax_scale := f32_one;
     f_zero_tensors := zero_tensors; f_is_causal := false;
     f_return_softmax := return_softmax; f_num_splits := 1; f_gen_ := None |}.

Definition ex_bwd_args (head_size max_seqlen_q_ max_seqlen_k_ : Z)
    (p_dropout : float) (zero_tensors : bool) (num_splits : Z) : bwd_args :=
  {| b_dout := ex_qkv kFloat16 head_size 4; b_q := ex_qkv kFloat16 head_size 0;
     b_k := ex_qkv kFloat16 head_size 1; b_v := ex_qkv kFloat16 head_size 2;
     b_out := ex_qkv kFloat16 head_size 3; b_softmax_lse_ := ex_lse 32 8;
     b_dq := ex_qkv kFloat16 head_size 5; b_dk := ex_qkv kFloat16 head_size 6;
     b_dv := ex_qkv kFloat16 head_size 7;
     b_cu_seqlens_q := ex_cu_seqlens 9; b_cu_seqlens_k := ex_cu_seqlens 10;
     b_max_seqlen_q_ := max_seqlen_q_; b_max_seqlen_k_ := max_seqlen_k_;
     b_p_dropout := p_dropout; b_softmax_scale := f32_one;
     b_zero_tensors := zero_tensors; b_is_causal := false;
     b_num_splits := num_splits; b_gen_ := None |}.

Definition ex_fwd_block_args (head_size : Z) (p_dropout : float)
    (return_softmax : bool) : fwd_block_args :=
  {| fb_q := ex_qkv kFloat16 head_size 0; fb_k := ex_qkv kFloat16 head_size 1;
     fb_v := ex_qkv kFloat16 head_size 2;
     fb_cu_seqlens_q := ex_cu_seqlens 9; fb_cu_seqlens_k := ex_cu_seqlens 10;
     fb_blockmask := ex_blockmask 11;
     fb_max_seqlen_q_ := 16; fb_max_seqlen_k_ := 16;
     fb_p_dropout := p_dropout; fb_softmax_scale := f32_one;
     fb_is_causal := false; fb_return_softmax := return_softmax; fb_gen_ := None |}.

(** A LogSumExp of two rows of 32 entries in a buffer of its own
    (buffer 12: [0.5] in the first row, [1.0] in the second), and a
    dense backward call that is given it with a maximal query length of
    16. *)
Definition ex_lse_rows : Tensor :=
  {| t_dtype := kFloat; t_is_cuda := true; t_sizes := [2; 1; 32];
     t_strides := [32; 32; 1]; t_buf := 12%nat |}.

Definition ex_world_rows : World :=
  set_bufs (ex_world 8 0 8)
    (<[12%nat := replicate 32 half_cell ++ replicate 32 one_cell]> (ex_bufs 8)).

Definition ex_bwd_rows : bwd_args :=
  {| b_dout := ex_qkv kFloat16 8 4; b_q := ex_qkv kFloat16 8 0;
     b_k := ex_qkv kFloat16 8 1; b_v := ex_qkv kFloat16 8 2;
     b_out := ex_qkv kFloat16 8 3; b_softmax_lse_ := ex_lse_rows;
     b_dq := ex_qkv kFloat16 8 5; b_dk := ex_qkv kFloat16 8 6;
     b_dv := ex_qkv kFloat16 8 7;
     b_cu_seqlens_q := ex_cu_seqlens 9; b_cu_seqlens_k := ex_cu_seqlens 10;
     b_max_seqlen_q_ := 16; b_max_seqlen_k_ := 16;
     b_p_dropout := f32_half; b_softmax_scale := f32_one;
     b_zero_tensors := true; b_is_causal := false;
     b_num_splits := 1; b_gen_ := None |}.

(** * Proofs *)

(** * Stepping through a call *)

Section Steps.
Context `{KN : Kernels}.
Local Open Scope fmha_scope.

Lemma check_bind {B} c msg (k : unit -> M B) w :
  bind (TORCH_CHECK c msg) k w = if c then k tt w else (w, Raise msg).
Proof. unfold bind, TORCH_CHECK. destruct c; reflexivity. Qed.

Lemma cond_check_bind {B} (c d : bool) msg (k : unit -> M B) w :
  bind (if c then TORCH_CHECK d msg else ret tt) k w =
  if negb c || d then k tt w else (w, Raise msg).
Proof. destruct c, d; reflexivity. Qed.

Lemma getprops_bind {B} (k : cudaDeviceProp -> M B) w :
  bind getCurrentDeviceProperties k w = k (device w) w.
Proof. reflexivity. Qed.

Lemma ret_bind {A B} (a : A) (k : A -> M B) w : bind (ret a) k w = k a w.
Proof. reflexivity. Qed.

Lemma bind_assoc {A B C} (m : M A) (k1 : A -> M B) (k2 : B -> M C) w :
  bind (bind m k1) k2 w = bind m (fun a => bind (k1 a) k2) w.
Proof. unfold bind. destruct (m w) as [w1 [a|msg]]; reflexivity. Qed.

Lemma new_tensor_bind {B} sizes dt init (k : Tensor -> M B) w :
  bind (new_tensor sizes dt init) k w =
  if forallb (Z.leb 0) sizes
  then k (new_tensor_at sizes dt w) (new_tensor_world sizes init w)
  else (w, Raise "Trying to create tensor with negative dimension"%string).
Proof. unfold bind, new_tensor. destruct (forallb _ _); reflexivity. Qed.

Lemma alloc_if_bind {B} c sizes dt init (k : option Tensor -> M B) w :
  bind (alloc_if c sizes dt init) k w =
  if negb c || forallb (Z.leb 0) sizes then
    k (alloc_tensor c sizes dt w) (alloc_world c sizes init w)
  else (w, Raise "Trying to create tensor with negative dimension"%string).
Proof.
  unfold alloc_if, alloc_tensor, alloc_world. destruct c; [ | reflexivity ].
  rewrite bind_assoc, new_tensor_bind. cbn [negb orb].
  destruct (forallb _ _); reflexivity.
Qed.

Lemma fill_bind {B} t c (k : unit -> M B) w :
  bind (fill_ t c) k w = k tt (fill_world t c w).
Proof. reflexivity. Qed.

Lemma copy_bind {B} dst src (k : unit -> M B) w :
  bind (copy_ dst src) k w = k tt (copy_world dst src w).
Proof. reflexivity. Qed.

Lemma gen_bind {B} gen_ (k : GenRef -> M B) w :
  bind (get_generator_or_default gen_) k w =
  if gen_ok gen_ then k (gen_ref gen_) w
  else (w, Raise "Expected a 'cuda' device type for generator"%string).
Proof.
  destruct gen_ as [h|]; [ | reflexivity ].
  unfold get_generator_or_default, gen_ok. rewrite bind_assoc, check_bind.
  destruct (gen_device h); reflexivity.
Qed.

Lemma set_params_fprop_bind {B} b sq sk h d q k v out cq ck ot s lse p sc ic ns
    (kont : FMHA_fprop_params -> M B) w :
  bind (lift (set_params_fprop b sq sk h d q k v out cq ck ot s lse p sc ic ns)) kont w =
  if f32_ltb p f32_one
  then kont (fprop_fields b sq sk h d q k v out cq ck ot s lse p sc ic ns) w
  else (w, Raise "p_dropout < 1.f"%string).
Proof.
  unfold bind, lift, set_params_fprop. destruct (f32_ltb p f32_one); reflexivity.
Qed.

Lemma set_params_dgrad_bind {B} b sq sk h d q k v out dq dk dv cq ck ot dout lse dsum
    p sc ic ns (kont : FMHA_dgrad_params -> M B) w :
  bind (lift (set_params_dgrad b sq sk h d q k v out dq dk dv cq ck ot dout lse dsum
                p sc ic ns)) kont w =
  if f32_ltb p f32_one
  then kont (dgrad_fields (fprop_fields b sq sk h d q k v out cq ck ot None lse p sc ic ns)
               dq dk dv dout dsum) w
  else (w, Raise "p_dropout < 1.f"%string).
Proof.
  unfold bind, lift, set_params_dgrad, set_params_fprop.
  destruct (f32_ltb p f32_one); reflexivity.
Qed.

Lemma reserve_philox_bind {B} g off (k : PhiloxCudaState -> M B) w :
  bind (reserve_philox g off) k w =
  k (fst (philox_cuda_state off (gens w g))) (reserve_world g off w).
Proof. reflexivity. Qed.

Lemma run_fmha_fwd_bind {B} lp (k : unit -> M B) w :
  bind (run_fmha_fwd lp) k w =
  if params_d (lp_params lp) <=? 128 then
    k tt (fwd_launch_world (fwd_kernel_for (params_d (lp_params lp))) lp w)
  else k tt w.
Proof.
  unfold run_fmha_fwd, fwd_kernel_for.
  destruct (params_d (lp_params lp) <=? 32) eqn:E1;
    [ replace (params_d (lp_params lp) <=? 128) with true by lia; reflexivity | ].
  destruct (params_d (lp_params lp) <=? 64) eqn:E2;
    [ replace (params_d (lp_params lp) <=? 128) with true by lia; reflexivity | ].
  destruct (params_d (lp_params lp) <=? 128); reflexivity.
Qed.

Lemma run_fmha_bwd_bind {B} p (configure : bool) (k : FMHA_dgrad_params -> M B) w :
  bind (run_fmha_bwd p configure) k w =
  if params_d (fprop p) <=? 128 then
    if configure then
      k (configured (bwd_kernel_for (params_d (fprop p))) p)
        (bwd_configure_world (bwd_kernel_for (params_d (fprop p))) p w)
    else k p (bwd_launch_world (bwd_kernel_for (params_d (fprop p))) p w)
  else k p w.
Proof.
  unfold run_fmha_bwd, bwd_kernel_for.
  destruct (params_d (fprop p) <=? 32) eqn:E1;
    [ replace (params_d (fprop p) <=? 128) with true by lia;
      destruct configure; reflexivity | ].
  destruct (params_d (fprop p) <=? 64) eqn:E2;
    [ replace (params_d (fprop p) <=? 128) with true by lia;
      destruct configure; reflexivity | ].
  destruct (params_d (fprop p) <=? 128); [ destruct configure | ]; reflexivity.
Qed.

Lemma block_fwd_bind {B} lp (configure : bool) (k : Launch_params -> M B) w :
  bind (run_fmha_block_fp16_sm80 lp configure) k w =
  if configure then
    k (with_elts_per_thread lp (block_fwd_configure lp)) (block_fwd_configure_world lp w)
  else k lp (block_fwd_launch_world lp w).
Proof. destruct configure; reflexivity. Qed.

Lemma block_dgrad_bind {B} p (k : unit -> M B) w :
  bind (run_fmha_block_dgrad_fp16_sm80 p) k w =
  k tt (block_dgrad_launch_world p w).
Proof. reflexivity. Qed.

Lemma slice_bind {B} t stop (k : Tensor -> M B) w :
  bind (index_slice2_contiguous t stop) k w =
  if (3 <=? length (t_sizes t))%nat
  then k (slice_tensor t stop w) (slice_world t stop w)
  else (w, Raise "too many indices for tensor"%string).
Proof.
  unfold bind, index_slice2_contiguous.
  destruct (3 <=? length (t_sizes t))%nat; reflexivity.
Qed.

Lemma bind_when {B} (c : bool) (m : M unit) (f : World -> World) (k : unit -> M B) w :
  (forall w0, m w0 = (f w0, Ok tt)) ->
  bind (if c then m else ret tt) k w = k tt (if c then f w else w).
Proof. intros Hm. destruct c; [ | reflexivity ]. unfold bind. by rewrite Hm. Qed.

Lemma bind_dropout {A B} (c : bool) g off (F : PhiloxCudaState -> A) (p : A)
    (k : A -> M B) w :
  bind (if c then (do ph <- reserve_philox g off ;; ret (F ph)) else ret p) k w =
  k (if c then F (fst (philox_cuda_state off (gens w g))) else p)
    (if c then reserve_world g off w else w).
Proof. destruct c; reflexivity. Qed.

Lemma run_fmha_fwd_bind_le {B} lp (k : unit -> M B) w :
  (params_d (lp_params lp) <=? 128) = true ->
  bind (run_fmha_fwd lp) k w =
  k tt (fwd_launch_world (fwd_kernel_for (params_d (lp_params lp))) lp w).
Proof. intros H. by rewrite run_fmha_fwd_bind, H. Qed.

Lemma run_fmha_bwd_bind_le {B} p (configure : bool) (k : FMHA_dgrad_params -> M B) w :
  (params_d (fprop p) <=? 128) = true ->
  bind (run_fmha_bwd p configure) k w =
  if configure then
    k (configured (bwd_kernel_for (params_d (fprop p))) p)
      (bwd_configure_world (bwd_kernel_for (params_d (fprop p))) p w)
  else k p (bwd_launch_world (bwd_kernel_for (params_d (fprop p))) p w).
Proof. intros H. by rewrite run_fmha_bwd_bind, H. Qed.

Lemma bind_split {B} (c : bool) (dq0 : option Tensor) sizes
    (P : Tensor -> FMHA_dgrad_params) (p1 : FMHA_dgrad_params)
    (k : option Tensor * FMHA_dgrad_params -> M B) w :
  bind (if c then
          match dq0 with
          | None => bind (torch_zeros sizes kFloat) (fun t => ret (Some t, P t))
          | Some t => bind (zero_ t) (fun _ => ret (Some t, p1))
          end
        else ret (dq0, p1)) k w =
  if negb c || match dq0 with Some _ => true | None => false end
     || forallb (Z.leb 0) sizes
  then
    k (if c then
         match dq0 with
         | None => (Some (new_tensor_at sizes kFloat w), P (new_tensor_at sizes kFloat w))
         | Some t => (Some t, p1)
         end
       else (dq0, p1))
      (if c then
         match dq0 with
         | None => new_tensor_world sizes zero_cell w
         | Some t => fill_world t zero_cell w
         end
       else w)
  else (w, Raise "Trying to create tensor with negative dimension"%string).
Proof.
  destruct c; [ | reflexivity ]. destruct dq0 as [t|]; [ reflexivity | ].
  rewrite bind_assoc. unfold torch_zeros. rewrite new_tensor_bind. cbn [negb orb].
  destruct (forallb _ _); reflexivity.
Qed.

(** A step that may raise: both ways of reading its outcome. *)
Lemma if_ok {A} (c : bool) (X : World * outcome A) w0 msg w' r :
  (if c then X else (w0, Raise msg)) = (w', Ok r) -> c = true /\ X = (w', Ok r).
Proof. destruct c; [ auto | discriminate ]. Qed.

Lemma if_cases {A} (c : bool) (X : World * outcome A) w0 msg w' o :
  (if c then X else (w0, Raise msg)) = (w', o) ->
  (c = false /\ w' = w0 /\ o = Raise msg) \/ (c = true /\ X = (w', o)).
Proof. destruct c; intros H; [ right; auto | left; by inversion H ]. Qed.

Lemma ok_pair_inv {A} (W w' : World) (R r : A) :
  (W, Ok R) = (w', Ok r) -> W = w' /\ R = r.
Proof. intros H. by inversion H. Qed.

Lemma ret_run {A} (a : A) w : ret a w = (w, Ok a).
Proof. reflexivity. Qed.

(** Projections of the parameter structs *)

Lemma params_d_fields b sq sk h d q k v out cq ck ot s lse p sc ic ns :
  params_d (fprop_fields b sq sk h d q k v out cq ck ot s lse p sc ic ns) = d.
Proof. reflexivity. Qed.
Lemma params_b_fields b sq sk h d q k v out cq ck ot s lse p sc ic ns :
  params_b (fprop_fields b sq sk h d q k v out cq ck ot s lse p sc ic ns) = b.
Proof. reflexivity. Qed.
Lemma params_h_fields b sq sk h d q k v out cq ck ot s lse p sc ic ns :
  params_h (fprop_fields b sq sk h d q k v out cq ck ot s lse p sc ic ns) = h.
Proof. reflexivity. Qed.
Lemma params_seqlen_q_fields b sq sk h d q k v out cq ck ot s lse p sc ic ns :
  params_seqlen_q (fprop_fields b sq sk h d q k v out cq ck ot s lse p sc ic ns) = sq.
Proof. reflexivity. Qed.
Lemma params_seqlen_k_fields b sq sk h d q k v out cq ck ot s lse p sc ic ns :
  params_seqlen_k (fprop_fields b sq sk h d q k v out cq ck ot s lse p sc ic ns) = sk.
Proof. reflexivity. Qed.
Lemma params_num_splits_fields b sq sk h d q k v out cq ck ot s lse p sc ic ns :
  params_num_splits (fprop_fields b sq sk h d q k v out cq ck ot s lse p sc ic ns) = ns.
Proof. reflexivity. Qed.
Lemma o_tmp_ptr_fields b sq sk h d q k v out cq ck ot s lse p sc ic ns :
  o_tmp_ptr (fprop_fields b sq sk h d q k v out cq ck ot s lse p sc ic ns) = ot.
Proof. reflexivity. Qed.
Lemma o_ptr_fields b sq sk h d q k v out cq ck ot s lse p sc ic ns :
  o_ptr (fprop_fields b sq sk h d q k v out cq ck ot s lse p sc ic ns) = data_ptr out.
Proof. reflexivity. Qed.
Lemma s_ptr_fields b sq sk h d q k v out cq ck ot s lse p sc ic ns :
  s_ptr (fprop_fields b sq sk h d q k v out cq ck ot s lse p sc ic ns) = s.
Proof. reflexivity. Qed.
Lemma softmax_lse_ptr_fields b sq sk h d q k v out cq ck ot s lse p sc ic ns :
  softmax_lse_ptr (fprop_fields b sq sk h d q k v out cq ck ot s lse p sc ic ns) = lse.
Proof. reflexivity. Qed.
Lemma params_p_dropout_fields b sq sk h d q k v out cq ck ot s lse p sc ic ns :
  params_p_dropout (fprop_fields b sq sk h d q k v out cq ck ot s lse p sc ic ns)
  = f32_sub f32_one p.
Proof. reflexivity. Qed.
Lemma p_dropout_in_uint_fields b sq sk h d q k v out cq ck ot s lse p sc ic ns :
  p_dropout_in_uint (fprop_fields b sq sk h d q k v out cq ck ot s lse p sc ic ns)
  = dropout_in_uint (f32_sub f32_one p).
Proof. reflexivity. Qed.
Lemma p_dropout_in_uint16_t_fields b sq sk h d q k v out cq ck ot s lse p sc ic ns :
  p_dropout_in_uint16_t (fprop_fields b sq sk h d q k v out cq ck ot s lse p sc ic ns)
  = dropout_in_uint16_t (f32_sub f32_one p).
Proof. reflexivity. Qed.

Lemma fprop_dgrad_fields base dq dk dv dout dsum :
  fprop (dgrad_fields base dq dk dv dout dsum) = base.
Proof. reflexivity. Qed.
Lemma fprop_with_fprop p f : fprop (with_fprop p f) = f.
Proof. reflexivity. Qed.

(** The field updates leave the other fields alone. *)
Lemma with_philox_args_other p ph :
  params_d (with_philox_args p ph) = params_d p
  /\ params_b (with_philox_args p ph) = params_b p
  /\ params_h (with_philox_args p ph) = params_h p
  /\ params_seqlen_q (with_philox_args p ph) = params_seqlen_q p
  /\ params_seqlen_k (with_philox_args p ph) = params_seqlen_k p
  /\ params_num_splits (with_philox_args p ph) = params_num_splits p
  /\ o_tmp_ptr (with_philox_args p ph) = o_tmp_ptr p
  /\ o_ptr (with_philox_args p ph) = o_ptr p
  /\ s_ptr (with_philox_args p ph) = s_ptr p
  /\ softmax_lse_ptr (with_philox_args p ph) = softmax_lse_ptr p
  /\ p_dropout_in_uint (with_philox_args p ph) = p_dropout_in_uint p
  /\ p_dropout_in_uint16_t (with_philox_args p ph) = p_dropout_in_uint16_t p
  /\ params_p_dropout (with_philox_args p ph) = params_p_dropout p.
Proof. repeat split. Qed.

Lemma with_num_splits_other p n :
  params_d (with_num_splits p n) = params_d p
  /\ params_b (with_num_splits p n) = params_b p
  /\ params_h (with_num_splits p n) = params_h p
  /\ params_seqlen_q (with_num_splits p n) = params_seqlen_q p
  /\ params_seqlen_k (with_num_splits p n) = params_seqlen_k p
  /\ params_num_splits (with_num_splits p n) = n
  /\ o_tmp_ptr (with_num_splits p n) = o_tmp_ptr p
  /\ softmax_lse_ptr (with_num_splits p n) = softmax_lse_ptr p
  /\ p_dropout_in_uint (with_num_splits p n) = p_dropout_in_uint p
  /\ p_dropout_in_uint16_t (with_num_splits p n) = p_dropout_in_uint16_t p.
Proof. repeat split. Qed.

Lemma with_o_tmp_ptr_other p x :
  params_d (with_o_tmp_ptr p x) = params_d p
  /\ params_b (with_o_tmp_ptr p x) = params_b p
  /\ params_h (with_o_tmp_ptr p x) = params_h p
  /\ params_seqlen_q (with_o_tmp_ptr p x) = params_seqlen_q p
  /\ params_seqlen_k (with_o_tmp_ptr p x) = params_seqlen_k p
  /\ params_num_splits (with_o_tmp_ptr p x) = params_num_splits p
  /\ o_tmp_ptr (with_o_tmp_ptr p x) = x
  /\ softmax_lse_ptr (with_o_tmp_ptr p x) = softmax_lse_ptr p
  /\ p_dropout_in_uint (with_o_tmp_ptr p x) = p_dropout_in_uint p
  /\ p_dropout_in_uint16_t (with_o_tmp_ptr p x) = p_dropout_in_uint16_t p.
Proof. repeat split. Qed.

Lemma with_blockmask_other p x :
  params_d (with_blockmask p x) = params_d p
  /\ params_b (with_blockmask p x) = params_b p
  /\ params_h (with_blockmask p x) = params_h p
  /\ params_seqlen_q (with_blockmask p x) = params_seqlen_q p
  /\ params_seqlen_k (with_blockmask p x) = params_seqlen_k p
  /\ params_num_splits (with_blockmask p x) = params_num_splits p
  /\ o_tmp_ptr (with_blockmask p x) = o_tmp_ptr p
  /\ softmax_lse_ptr (with_blockmask p x) = softmax_lse_ptr p
  /\ p_dropout_in_uint (with_blockmask p x) = p_dropout_in_uint p
  /\ p_dropout_in_uint16_t (with_blockmask p x) = p_dropout_in_uint16_t p.
Proof. repeat split. Qed.

(** Worlds: what each transformer leaves alone *)

Lemma trace_alloc_world c sizes init w : trace (alloc_world c sizes init w) = trace w.
Proof. destruct c; reflexivity. Qed.
Lemma gens_alloc_world c sizes init w : gens (alloc_world c sizes init w) = gens w.
Proof. destruct c; reflexivity. Qed.
Lemma device_alloc_world c sizes init w : device (alloc_world c sizes init w) = device w.
Proof. destruct c; reflexivity. Qed.

Lemma trace_slice_world t stop w : trace (slice_world t stop w) = trace w.
Proof. unfold slice_world. destruct (is_contiguous (slice_view t stop)); reflexivity. Qed.
Lemma gens_slice_world t stop w : gens (slice_world t stop w) = gens w.
Proof. unfold slice_world. destruct (is_contiguous (slice_view t stop)); reflexivity. Qed.

Lemma trace_new_tensor_world sizes init w : trace (new_tensor_world sizes init w) = trace w.
Proof. reflexivity. Qed.
Lemma gens_new_tensor_world sizes init w : gens (new_tensor_world sizes init w) = gens w.
Proof. reflexivity. Qed.
Lemma trace_fill_world t c w : trace (fill_world t c w) = trace w.
Proof. reflexivity. Qed.
Lemma gens_fill_world t c w : gens (fill_world t c w) = gens w.
Proof. reflexivity. Qed.
Lemma trace_copy_world d s w : trace (copy_world d s w) = trace w.
Proof. reflexivity. Qed.
Lemma gens_copy_world d s w : gens (copy_world d s w) = gens w.
Proof. reflexivity. Qed.

Lemma trace_reserve_world g off w :
  trace (reserve_world g off w) = trace w ++ [EvPhilox g off].
Proof. reflexivity. Qed.
Lemma bufs_reserve_world g off w : bufs (reserve_world g off w) = bufs w.
Proof. reflexivity. Qed.

Lemma trace_fwd_launch_world k lp w :
  trace (fwd_launch_world k lp w) = trace w ++ [EvFwd k false lp (bufs w)].
Proof. reflexivity. Qed.
Lemma gens_fwd_launch_world k lp w : gens (fwd_launch_world k lp w) = gens w.
Proof. reflexivity. Qed.
Lemma trace_bwd_launch_world k p w :
  trace (bwd_launch_world k p w) = trace w ++ [EvBwd k false p (bufs w)].
Proof. reflexivity. Qed.
Lemma gens_bwd_launch_world k p w : gens (bwd_launch_world k p w) = gens w.
Proof. reflexivity. Qed.
Lemma trace_bwd_configure_world k p w :
  trace (bwd_configure_world k p w) = trace w ++ [EvBwd k true p (bufs w)].
Proof. reflexivity. Qed.
Lemma gens_bwd_configure_world k p w : gens (bwd_configure_world k p w) = gens w.
Proof. reflexivity. Qed.
Lemma bufs_bwd_configure_world k p w : bufs (bwd_configure_world k p w) = bufs w.
Proof. reflexivity. Qed.
Lemma trace_block_fwd_configure_world lp w :
  trace (block_fwd_configure_world lp w)
  = trace w ++ [EvFwd fmha_block_fp16_sm80 true lp (bufs w)].
Proof. reflexivity. Qed.
Lemma gens_block_fwd_configure_world lp w :
  gens (block_fwd_configure_world lp w) = gens w.
Proof. reflexivity. Qed.
Lemma bufs_block_fwd_configure_world lp w :
  bufs (block_fwd_configure_world lp w) = bufs w.
Proof. reflexivity. Qed.
Lemma trace_block_fwd_launch_world lp w :
  trace (block_fwd_launch_world lp w)
  = trace w ++ [EvFwd fmha_block_fp16_sm80 false lp (bufs w)].
Proof. reflexivity. Qed.
Lemma gens_block_fwd_launch_world lp w : gens (block_fwd_launch_world lp w) = gens w.
Proof. reflexivity. Qed.
Lemma trace_block_dgrad_launch_world p w :
  trace (block_dgrad_launch_world p w)
  = trace w ++ [EvBwd fmha_block_dgrad_fp16_sm80 false p (bufs w)].
Proof. reflexivity. Qed.
Lemma gens_block_dgrad_launch_world p w : gens (block_dgrad_launch_world p w) = gens w.
Proof. reflexivity. Qed.

Lemma reservations_app l1 l2 :
  reservations (l1 ++ l2) = reservations l1 ++ reservations l2.
Proof. apply flat_map_app. Qed.
Lemma dispatches_app l1 l2 : dispatches (l1 ++ l2) = dispatches l1 ++ dispatches l2.
Proof. apply flat_map_app. Qed.
Lemma launched_seqlens_app l1 l2 :
  launched_seqlens (l1 ++ l2) = launched_seqlens l1 ++ launched_seqlens l2.
Proof. unfold launched_seqlens. rewrite flat_map_app. apply fmap_app. Qed.
Lemma launched_thresholds_app l1 l2 :
  launched_thresholds (l1 ++ l2) = launched_thresholds l1 ++ launched_thresholds l2.
Proof. unfold launched_thresholds. rewrite flat_map_app. apply fmap_app. Qed.

End Steps.

Create Rewrite HintDb world.
Create Rewrite HintDb params.
#[export] Hint Rewrite @trace_alloc_world @gens_alloc_world @device_alloc_world
  @trace_slice_world @gens_slice_world
  @trace_new_tensor_world @gens_new_tensor_world @trace_fill_world @gens_fill_world
  @trace_copy_world @gens_copy_world @trace_reserve_world @bufs_reserve_world
  @trace_fwd_launch_world @gens_fwd_launch_world
  @trace_bwd_launch_world @gens_bwd_launch_world
  @trace_bwd_configure_world @gens_bwd_configure_world @bufs_bwd_configure_world
  @trace_block_fwd_configure_world @gens_block_fwd_configure_world
  @bufs_block_fwd_configure_world
  @trace_block_fwd_launch_world @gens_block_fwd_launch_world
  @trace_block_dgrad_launch_world @gens_block_dgrad_launch_world
  @reservations_app @dispatches_app @launched_seqlens_app @launched_thresholds_app
  : world.

(** One step of a run [H : m w = (w', o)]: the head of [m] is rewritten by
    its equation. [step_ok] is for a run known to return, [step_any] for
    any run; there [close] finishes the branch in which the head raises,
    from [w' = w0] and the world [w0] reached by then. *)
Ltac step_eqn H :=
  lazymatch type of H with
  | bind (TORCH_CHECK _ _) _ _ = _ => rewrite check_bind in H
  | bind (if _ then TORCH_CHECK _ _ else ret tt) _ _ = _ => rewrite cond_check_bind in H
  | bind (alloc_if _ _ _ _) _ _ = _ => rewrite alloc_if_bind in H
  | bind (torch_empty _ _) _ _ = _ => unfold torch_empty in H; rewrite new_tensor_bind in H
  | bind (torch_zeros _ _) _ _ = _ => unfold torch_zeros in H; rewrite new_tensor_bind in H
  | bind (new_tensor _ _ _) _ _ = _ => rewrite new_tensor_bind in H
  | bind (lift (set_params_fprop _ _ _ _ _ _ _ _ _ _ _ _ _ _ _ _ _ _)) _ _ = _ =>
      rewrite set_params_fprop_bind in H
  | bind (lift (set_params_dgrad _ _ _ _ _ _ _ _ _ _ _ _ _ _ _ _ _ _ _ _ _ _)) _ _ = _ =>
      rewrite set_params_dgrad_bind in H
  | bind (get_generator_or_default _) _ _ = _ => rewrite gen_bind in H
  | bind (index_slice2_contiguous _ _) _ _ = _ => rewrite slice_bind in H
  | bind (if _ then match _ with
                    | None => bind (torch_zeros _ _) _
                    | Some _ => bind (zero_ _) _
                    end
          else ret _) _ _ = _ => rewrite bind_split in H
  end.

Ltac step_pure H :=
  lazymatch type of H with
  | bind getCurrentDeviceProperties _ _ = _ => rewrite getprops_bind in H
  | bind (ret _) _ _ = _ => rewrite ret_bind in H
  | bind (bind _ _) _ _ = _ => rewrite bind_assoc in H
  | bind (zero_ _) _ _ = _ => unfold zero_ in H; rewrite fill_bind in H
  | bind (fill_ _ _) _ _ = _ => rewrite fill_bind in H
  | bind (copy_ _ _) _ _ = _ => rewrite copy_bind in H
  | bind (reserve_philox _ _) _ _ = _ => rewrite reserve_philox_bind in H
  | bind (if _ then bind (reserve_philox _ _) _ else ret _) _ _ = _ =>
      rewrite bind_dropout in H
  | bind (run_fmha_block_fp16_sm80 _ _) _ _ = _ => rewrite block_fwd_bind in H
  | bind (run_fmha_block_dgrad_fp16_sm80 _) _ _ = _ => rewrite block_dgrad_bind in H
  | ret _ _ = _ => rewrite ret_run in H
  end.

Ltac step_ok H :=
  first [ step_pure H | step_eqn H; apply if_ok in H as [? H] ]; cbv beta zeta in H.

Ltac step_any H close :=
  first [ step_pure H
        | step_eqn H; apply if_cases in H as [(? & ? & ?) | [? H]]; [ close | ] ];
  cbv beta zeta in H.

(** * Buffers a call leaves alone *)

Section Frame.
Context `{KN : Kernels}.

Lemma fresh_live_ne (m : Store) (i : nat) : is_Some (m !! i) -> fresh (dom m) ≠ i.
Proof.
  intros Hi Heq. apply (is_fresh (dom m)). rewrite Heq. by apply elem_of_dom.
Qed.

Lemma lookup_new_tensor_world sizes init w i :
  is_Some (bufs w !! i) -> bufs (new_tensor_world sizes init w) !! i = bufs w !! i.
Proof.
  intros Hi. unfold new_tensor_world. cbn [bufs set_bufs].
  apply lookup_insert_ne. by apply fresh_live_ne.
Qed.

Lemma lookup_alloc_world c sizes init w i :
  is_Some (bufs w !! i) -> bufs (alloc_world c sizes init w) !! i = bufs w !! i.
Proof.
  destruct c; [ apply lookup_new_tensor_world | reflexivity ].
Qed.

Lemma lookup_slice_world t stop w i :
  is_Some (bufs w !! i) -> bufs (slice_world t stop w) !! i = bufs w !! i.
Proof.
  intros Hi. unfold slice_world. destruct (is_contiguous (slice_view t stop)); [ reflexivity | ].
  cbn [bufs set_bufs]. apply lookup_insert_ne. by apply fresh_live_ne.
Qed.

Lemma lookup_fill_world t c w i :
  t_buf t ≠ i -> bufs (fill_world t c w) !! i = bufs w !! i.
Proof. intros Hne. unfold fill_world. cbn [bufs set_bufs]. by apply lookup_insert_ne. Qed.

Lemma lookup_fill_world_eq t c w :
  bufs (fill_world t c w) !! t_buf t = Some (replicate (Z.to_nat (numel t)) c).
Proof. unfold fill_world. cbn [bufs set_bufs]. apply lookup_insert_eq. Qed.

Lemma lookup_new_tensor_world_eq sizes dt init w :
  bufs (new_tensor_world sizes init w) !! t_buf (new_tensor_at sizes dt w)
  = Some (replicate (Z.to_nat (prodZ sizes)) init).
Proof. unfold new_tensor_world. cbn [bufs set_bufs new_tensor_at t_buf]. apply lookup_insert_eq. Qed.

Lemma lookup_copy_world dst src w i :
  t_buf dst ≠ i -> bufs (copy_world dst src w) !! i = bufs w !! i.
Proof. intros Hne. unfold copy_world. cbn [bufs set_bufs]. by apply lookup_insert_ne. Qed.

Lemma new_tensor_at_ne sizes dt w i :
  is_Some (bufs w !! i) -> t_buf (new_tensor_at sizes dt w) ≠ i.
Proof. apply fresh_live_ne. Qed.

Lemma live_new_tensor_world sizes dt init w :
  is_Some (bufs (new_tensor_world sizes init w) !! t_buf (new_tensor_at sizes dt w)).
Proof. rewrite lookup_new_tensor_world_eq. eauto. Qed.

End Frame.

(** [live] proves that a buffer of the initial world is still there, and
    [frame] that it still holds what it held, through the allocations,
    fills and reservations of a partial run. *)
Ltac live :=
  first
    [ assumption
    | rewrite lookup_new_tensor_world by live; live
    | rewrite lookup_alloc_world by live; live
    | rewrite lookup_slice_world by live; live
    | rewrite lookup_fill_world
        by first [ assumption | congruence | apply new_tensor_at_ne; live ]; live
    | rewrite bufs_reserve_world; live
    | rewrite bufs_bwd_configure_world; live
    | rewrite bufs_block_fwd_configure_world; live ].

Ltac frame :=
  repeat first
    [ reflexivity
    | rewrite lookup_new_tensor_world by live
    | rewrite lookup_alloc_world by live
    | rewrite lookup_slice_world by live
    | rewrite lookup_fill_world
        by first [ assumption | congruence | apply new_tensor_at_ne; live ]
    | rewrite bufs_reserve_world
    | rewrite bufs_bwd_configure_world
    | rewrite bufs_block_fwd_configure_world ].

(** * Summaries of the four entry points *)

Section Summaries.
Context `{KN : Kernels}.

Lemma params_d_philox (c : bool) p ph :
  params_d (if c then with_philox_args p ph else p) = params_d p.
Proof. by destruct c. Qed.

(** The zero-initialisation block of [mha_fwd], as a step. *)
Ltac step_fwd_zero H :=
  lazymatch type of H with
  | bind (if _ then bind (zero_ ?o) (fun _ => bind (fill_ ?l ?c)
            (fun _ => match ?s with Some _ => _ | None => _ end)) else ret tt) _ _ = _ =>
      rewrite (bind_when _ _
                 (fun w0 => match s with
                            | Some s0 => fill_world s0 zero_cell | None => fun w => w end
                              (fill_world l c (fill_world o zero_cell w0))))
        in H by (intros; destruct s; reflexivity)
  end.

(** The zero-initialisation block of [mha_bwd]. *)
Ltac step_bwd_zero H :=
  lazymatch type of H with
  | bind (if _ then bind (zero_ ?dq) (fun _ => bind (zero_ ?dk)
            (fun _ => bind (zero_ ?dv) (fun _ => zero_ ?sd))) else ret tt) _ _ = _ =>
      rewrite (bind_when _ _
                 (fun w0 => fill_world sd zero_cell
                              (fill_world dv zero_cell
                                 (fill_world dk zero_cell (fill_world dq zero_cell w0)))))
        in H by reflexivity
  end.

(** The copy of the temporary back into [dq]. *)
Ltac step_bwd_copy H :=
  lazymatch type of H with
  | bind (if _ then match ?t with Some _ => copy_ ?dq _ | None => ret tt end
          else ret tt) _ _ = _ =>
      rewrite (bind_when _ _
                 (fun w0 => match t with Some t0 => copy_world dq t0 w0 | None => w0 end))
        in H by (intros; destruct t; reflexivity)
  end.

(** Case analysis on every conditional of a small goal. *)
Ltac by_cases :=
  repeat match goal with
         | |- context [if ?c then _ else _] => destruct c
         | |- context [match ?o with Some _ => _ | None => _ end] => destruct o
         end;
  reflexivity.

Lemma mha_fwd_ok (a : fwd_args) (w : World) (r : list Tensor) :
  result (fwd a) w = Ok r ->
  let batch_size := batch_size_of (f_cu_seqlens_q a) in
  let total_q := total_of (f_q a) in
  let num_heads := num_heads_of (f_q a) in
  let head_size := head_size_of (f_q a) in
  let blocksize_c := fwd_blocksize_c head_size in
  let max_seqlen_k := padded_max_seqlen_k (f_max_seqlen_k_ a) blocksize_c in
  let max_seqlen_q := padded_max_seqlen_q (f_max_seqlen_q_ a) in
  let loop := max_seqlen_k >? blocksize_c in
  let is_dropout := is_dropout_of (f_p_dropout a) in
  let o_tmp := alloc_tensor loop [total_q; num_heads; head_size] kFloat w in
  let w1 := alloc_world loop [total_q; num_heads; head_size] Indet w in
  let lse_sizes := [batch_size; num_heads; max_seqlen_q] in
  let softmax_lse := new_tensor_at lse_sizes kFloat w1 in
  let w2 := new_tensor_world lse_sizes Indet w1 in
  let s_sizes := [batch_size; num_heads; max_seqlen_q; max_seqlen_k] in
  let s := alloc_tensor (f_return_softmax a) s_sizes (t_dtype (f_q a)) w2 in
  let w3 := alloc_world (f_return_softmax a) s_sizes Indet w2 in
  let w4 :=
    if f_zero_tensors a then
      match s with Some s => fill_world s zero_cell | None => fun w => w end
        (fill_world softmax_lse neg_inf_cell (fill_world (f_out a) zero_cell w3))
    else w3 in
  let g := gen_ref (f_gen_ a) in
  let params :=
    fprop_fields batch_size max_seqlen_q max_seqlen_k num_heads head_size
      (f_q a) (f_k a) (f_v a) (f_out a)
      (data_ptr (f_cu_seqlens_q a)) (data_ptr (f_cu_seqlens_k a))
      (if loop then opt_ptr o_tmp else None)
      (if f_return_softmax a then opt_ptr s else None)
      (data_ptr softmax_lse)
      (f_p_dropout a) (f_softmax_scale a) (f_is_causal a) (f_num_splits a) in
  let counter_offset := int_mul (int_mul batch_size num_heads) 32 in
  let params' :=
    if is_dropout
    then with_philox_args params (fst (philox_cuda_state counter_offset (gens w4 g)))
    else params in
  let w5 := if is_dropout then reserve_world g counter_offset w4 else w4 in
  let lp :=
    {| elts_per_thread := 0; lp_props := device w; lp_params := params';
       lp_is_dropout := is_dropout; lp_return_softmax := f_return_softmax a |} in
  (batch_size >? 0) = true
  /\ (int_rem head_size 8 =? 0) && (head_size <=? 128) = true
  /\ f32_ltb (f_p_dropout a) f32_one = true
  /\ gen_ok (f_gen_ a) = true
  /\ r = softmax_lse :: match s with Some s => [s] | None => [] end
  /\ final (fwd a) w = fwd_launch_world (fwd_kernel_for head_size) lp w5.
Proof.
  unfold result, final. destruct (run (fwd a) w) as [w' o] eqn:H.
  cbn [fst snd]. intros ->.
  cbn [run] in H. unfold mha_fwd in H.
  repeat step_ok H. step_fwd_zero H.
  repeat step_ok H.
  rewrite run_fmha_fwd_bind_le in H
    by (cbn [lp_params]; rewrite params_d_philox;
        match goal with Hc : _ && (_ <=? 128) = true |- _ =>
          apply andb_prop in Hc as [_ Hc]; exact Hc end).
  repeat step_ok H.
  apply ok_pair_inv in H as [<- <-]. cbv zeta.
  repeat apply conj; try assumption.
  - reflexivity.
  - cbn [lp_params]. rewrite params_d_philox. reflexivity.
Qed.

(** On a raising run the world reached is one of the partial worlds. *)
Ltac close_raise :=
  subst;
  repeat first
    [ progress autorewrite with world
    | match goal with
      | |- context [trace (if ?c then _ else _)] => destruct c
      | |- context [gens (if ?c then _ else _)] => destruct c
      | |- context [bufs (if ?c then _ else _)] => destruct c
      | |- context [match alloc_tensor ?c _ _ _ with Some _ => _ | None => _ end] =>
          unfold alloc_tensor; destruct c
      end ];
  cbn [app dispatches reservations flat_map]; rewrite ?app_nil_r;
  repeat apply conj; try reflexivity; try (intros; frame).

Lemma mha_fwd_raise (a : fwd_args) (w : World) (msg : string) :
  result (fwd a) w = Raise msg ->
  trace (final (fwd a) w) = trace w /\ gens (final (fwd a) w) = gens w.
Proof.
  unfold result, final. destruct (run (fwd a) w) as [w' o] eqn:H.
  cbn [fst snd]. intros ->.
  cbn [run] in H. unfold mha_fwd in H.
  repeat step_any H close_raise. step_fwd_zero H.
  repeat step_any H close_raise.
  rewrite run_fmha_fwd_bind in H.
  match type of H with (if ?c then _ else _) = _ => destruct c end;
    repeat step_any H close_raise; discriminate H.
Qed.

Lemma mha_bwd_ok (a : bwd_args) (w : World) (r : list Tensor) :
  result (bwd a) w = Ok r ->
  let batch_size := batch_size_of (b_cu_seqlens_q a) in
  let total_q := total_of (b_q a) in
  let num_heads := num_heads_of (b_q a) in
  let head_size := head_size_of (b_q a) in
  let blocksize_c := bwd_blocksize_c (is_sm75 (device w)) head_size in
  let max_seqlen_k := padded_max_seqlen_k (b_max_seqlen_k_ a) blocksize_c in
  let max_seqlen_q := padded_max_seqlen_q (b_max_seqlen_q_ a) in
  let loop := max_seqlen_k >? blocksize_c in
  let is_dropout := is_dropout_of (b_p_dropout a) in
  let softmax_lse := slice_tensor (b_softmax_lse_ a) max_seqlen_q w in
  let w1 := slice_world (b_softmax_lse_ a) max_seqlen_q w in
  let sd_sizes := [batch_size; num_heads; max_seqlen_q] in
  let softmax_d := new_tensor_at sd_sizes kFloat w1 in
  let w2 := new_tensor_world sd_sizes Indet w1 in
  let tmp_sizes := [total_q; num_heads; head_size] in
  let dq_tmp0 := alloc_tensor loop tmp_sizes kFloat w2 in
  let w3 := alloc_world loop tmp_sizes Indet w2 in
  let w4 :=
    if b_zero_tensors a then
      fill_world softmax_d zero_cell
        (fill_world (b_dv a) zero_cell
           (fill_world (b_dk a) zero_cell (fill_world (b_dq a) zero_cell w3)))
    else w3 in
  let params0 :=
    dgrad_fields
      (fprop_fields batch_size max_seqlen_q max_seqlen_k num_heads head_size
         (b_q a) (b_k a) (b_v a) (b_out a)
         (data_ptr (b_cu_seqlens_q a)) (data_ptr (b_cu_seqlens_k a))
         (if loop then opt_ptr dq_tmp0 else None) None (data_ptr softmax_lse)
         (b_p_dropout a) (b_softmax_scale a) (b_is_causal a) (b_num_splits a))
      (b_dq a) (b_dk a) (b_dv a) (data_ptr (b_dout a)) (data_ptr softmax_d) in
  let kn := bwd_kernel_for head_size in
  let params1 := configured kn params0 in
  let w5 := bwd_configure_world kn params0 w4 in
  let splits := bwd_configure kn params0 in
  let fresh_tmp := new_tensor_at tmp_sizes kFloat w5 in
  let split :=
    if splits >? 1 then
      match dq_tmp0 with
      | None => (Some fresh_tmp,
                 with_fprop params1 (with_o_tmp_ptr (fprop params1) (data_ptr fresh_tmp)))
      | Some t => (Some t, params1)
      end
    else (dq_tmp0, params1) in
  let dq_tmp := fst split in
  let params2 := snd split in
  let w6 :=
    if splits >? 1 then
      match dq_tmp0 with
      | None => new_tensor_world tmp_sizes zero_cell w5
      | Some t => fill_world t zero_cell w5
      end
    else w5 in
  let g := gen_ref (b_gen_ a) in
  let counter_offset := int_mul (int_mul batch_size num_heads) 32 in
  let params3 :=
    if is_dropout
    then with_fprop params2
           (with_philox_args (fprop params2)
              (fst (philox_cuda_state counter_offset (gens w6 g))))
    else params2 in
  let w7 := if is_dropout then reserve_world g counter_offset w6 else w6 in
  let w8 := bwd_launch_world kn params3 w7 in
  let w9 :=
    if splits >? 1
    then match dq_tmp with Some t => copy_world (b_dq a) t w8 | None => w8 end
    else w8 in
  (batch_size >? 0) = true
  /\ (int_rem head_size 8 =? 0) && (head_size <=? 128) = true
  /\ negb (head_size >? 64) || (is_sm80 (device w) || is_sm90 (device w)) = true
  /\ (3 <=? length (t_sizes (b_softmax_lse_ a)))%nat = true
  /\ f32_ltb (b_p_dropout a) f32_one = true
  /\ gen_ok (b_gen_ a) = true
  /\ r = [b_dq a; b_dk a; b_dv a; softmax_d]
  /\ final (bwd a) w = w9.
Proof.
  unfold result, final. destruct (run (bwd a) w) as [w' o] eqn:H.
  cbn [fst snd]. intros ->.
  cbn [run] in H. unfold mha_bwd in H. cbv zeta in H.
  repeat step_ok H. step_bwd_zero H. repeat step_ok H.
  assert (Hle : (head_size_of (b_q a) <=? 128) = true)
    by (match goal with Hc : _ && (_ <=? 128) = true |- _ =>
          apply andb_prop in Hc as [_ Hc]; exact Hc end).
  rewrite run_fmha_bwd_bind_le in H by exact Hle.
  cbv iota in H. cbn [fprop dgrad_fields] in H. rewrite params_d_fields in H.
  repeat step_ok H.
  match type of H with
  | context [int_mul (int_mul (params_b (fprop ?p2)) (params_h (fprop ?p2))) 32] =>
      replace (params_b (fprop p2)) with (batch_size_of (b_cu_seqlens_q a)) in H
        by by_cases;
      replace (params_h (fprop p2)) with (num_heads_of (b_q a)) in H by by_cases
  end.
  match type of H with
  | bind (run_fmha_bwd ?p3 false) _ _ = _ =>
      assert (Ed : params_d (fprop p3) = head_size_of (b_q a)) by by_cases;
      assert (En : params_num_splits (fprop p3)
                   = params_num_splits
                       (fprop (configured (bwd_kernel_for (head_size_of (b_q a)))
                                 ltac:(match type of H with
                                       | context [configured _ ?p0] => exact p0 end))))
        by by_cases
  end.
  rewrite run_fmha_bwd_bind_le in H by (rewrite Ed; exact Hle).
  cbv iota in H. rewrite Ed, En in H.
  step_bwd_copy H. repeat step_ok H.
  apply ok_pair_inv in H as [<- <-]. cbv zeta.
  repeat apply conj; try assumption; reflexivity.
Qed.

Lemma mha_bwd_raise (a : bwd_args) (w : World) (msg : string) :
  result (bwd a) w = Raise msg ->
  dispatches (trace (final (bwd a) w)) = dispatches (trace w)
  /\ reservations (trace (final (bwd a) w)) = reservations (trace w)
  /\ gens (final (bwd a) w) = gens w
  /\ forall i : nat,
       is_Some (bufs w !! i) ->
       t_buf (b_dq a) ≠ i -> t_buf (b_dk a) ≠ i -> t_buf (b_dv a) ≠ i ->
       bufs (final (bwd a) w) !! i = bufs w !! i.
Proof.
  unfold result, final. destruct (run (bwd a) w) as [w' o] eqn:H.
  cbn [fst snd]. intros ->.
  cbn [run] in H. unfold mha_bwd in H. cbv zeta in H.
  repeat step_any H close_raise. step_bwd_zero H. repeat step_any H close_raise.
  assert (Hle : (head_size_of (b_q a) <=? 128) = true)
    by (match goal with Hc : _ && (_ <=? 128) = true |- _ =>
          apply andb_prop in Hc as [_ Hc]; exact Hc end).
  rewrite run_fmha_bwd_bind_le in H by exact Hle.
  cbv iota in H.
  repeat step_any H close_raise.
  match type of H with
  | bind (run_fmha_bwd ?p3 false) _ _ = _ =>
      assert (Ed : params_d (fprop p3) = head_size_of (b_q a)) by by_cases
  end.
  rewrite run_fmha_bwd_bind_le in H by (rewrite Ed; exact Hle).
  cbv iota in H. step_bwd_copy H. repeat step_any H close_raise.
  discriminate H.
Qed.

Lemma mha_fwd_block_ok (a : fwd_block_args) (w : World) (r : list Tensor) :
  result (fwd_block a) w = Ok r ->
  let batch_size := batch_size_of (fb_cu_seqlens_q a) in
  let total_q := total_of (fb_q a) in
  let num_heads := num_heads_of (fb_q a) in
  let head_size := head_size_of (fb_q a) in
  let max_seqlen_k := block_max_seqlen_k (fb_max_seqlen_k_ a) in
  let max_seqlen_q := padded_max_seqlen_q (fb_max_seqlen_q_ a) in
  let loop := max_seqlen_k >? 256 in
  let is_dropout := is_dropout_of (fb_p_dropout a) in
  let o_sizes := [total_q; num_heads; head_size] in
  let o := new_tensor_at o_sizes (t_dtype (fb_q a)) w in
  let w1 := new_tensor_world o_sizes zero_cell w in
  let o_tmp := alloc_tensor loop o_sizes kFloat w1 in
  let w2 := alloc_world loop o_sizes Indet w1 in
  let lse_sizes := [batch_size; num_heads; max_seqlen_q] in
  let softmax_lse := new_tensor_at lse_sizes kFloat w2 in
  let w3 := new_tensor_world lse_sizes Indet w2 in
  let s_sizes := [batch_size; num_heads; max_seqlen_q; max_seqlen_k] in
  let s := alloc_tensor (fb_return_softmax a) s_sizes (t_dtype (fb_q a)) w3 in
  let w4 := alloc_world (fb_return_softmax a) s_sizes zero_cell w3 in
  let g := gen_ref (fb_gen_ a) in
  let params :=
    with_blockmask
      (fprop_fields batch_size max_seqlen_q max_seqlen_k num_heads head_size
         (fb_q a) (fb_k a) (fb_v a) o
         (data_ptr (fb_cu_seqlens_q a)) (data_ptr (fb_cu_seqlens_k a))
         (if loop then opt_ptr o_tmp else None)
         (if fb_return_softmax a then opt_ptr s else None)
         (data_ptr softmax_lse)
         (fb_p_dropout a) (fb_softmax_scale a) (fb_is_causal a) 1)
      (data_ptr (fb_blockmask a)) in
  let lp0 :=
    {| elts_per_thread := 0; lp_props := device w; lp_params := params;
       lp_is_dropout := is_dropout; lp_return_softmax := fb_return_softmax a |} in
  let w5 := block_fwd_configure_world lp0 w4 in
  let lp1 := with_elts_per_thread lp0 (block_fwd_configure lp0) in
  let counter_offset := block_fwd_configure lp0 in
  let lp2 :=
    if is_dropout
    then with_lp_params lp1
           (with_philox_args (lp_params lp1)
              (fst (philox_cuda_state counter_offset (gens w5 g))))
    else lp1 in
  let w6 := if is_dropout then reserve_world g counter_offset w5 else w5 in
  (batch_size >? 0) = true
  /\ (head_size =? 16) || (head_size =? 32) || (head_size =? 64) || (head_size =? 128)
     = true
  /\ f32_ltb (fb_p_dropout a) f32_one = true
  /\ gen_ok (fb_gen_ a) = true
  /\ r = o :: softmax_lse :: match s with Some s => [s] | None => [] end
  /\ final (fwd_block a) w = block_fwd_launch_world lp2 w6.
Proof.
  unfold result, final. destruct (run (fwd_block a) w) as [w' o] eqn:H.
  cbn [fst snd]. intros ->.
  cbn [run] in H. unfold mha_fwd_block in H. cbv zeta in H.
  repeat step_ok H. cbv iota in H. repeat step_ok H. cbv iota in H.
  repeat step_ok H.
  apply ok_pair_inv in H as [<- <-]. cbv zeta.
  repeat apply conj; try assumption; reflexivity.
Qed.

Lemma mha_fwd_block_raise (a : fwd_block_args) (w : World) (msg : string) :
  result (fwd_block a) w = Raise msg ->
  trace (final (fwd_block a) w) = trace w /\ gens (final (fwd_block a) w) = gens w.
Proof.
  unfold result, final. destruct (run (fwd_block a) w) as [w' o] eqn:H.
  cbn [fst snd]. intros ->.
  cbn [run] in H. unfold mha_fwd_block in H. cbv zeta in H.
  repeat step_any H close_raise. cbv iota in H.
  repeat step_any H close_raise. cbv iota in H.
  repeat step_any H close_raise.
  discriminate H.
Qed.

Lemma mha_bwd_block_ok (a : bwd_block_args) (w : World) (r : list Tensor) :
  result (bwd_block a) w = Ok r ->
  let batch_size := batch_size_of (bb_cu_seqlens_q a) in
  let total_q := total_of (bb_q a) in
  let num_heads := num_heads_of (bb_q a) in
  let head_size := head_size_of (bb_q a) in
  let max_seqlen_k := block_max_seqlen_k (bb_max_seqlen_k_ a) in
  let max_seqlen_q := padded_max_seqlen_q (bb_max_seqlen_q_ a) in
  let loop := max_seqlen_k >? 256 in
  let is_dropout := is_dropout_of (bb_p_dropout a) in
  let softmax_lse := slice_tensor (bb_softmax_lse_ a) max_seqlen_q w in
  let w1 := slice_world (bb_softmax_lse_ a) max_seqlen_q w in
  let sd_sizes := [batch_size; num_heads; max_seqlen_q] in
  let softmax_d := new_tensor_at sd_sizes kFloat w1 in
  let w2 := new_tensor_world sd_sizes Indet w1 in
  let tmp_sizes := [total_q; num_heads; head_size] in
  let dq_tmp := alloc_tensor loop tmp_sizes kFloat w2 in
  let w3 := alloc_world loop tmp_sizes Indet w2 in
  let params0 :=
    dgrad_fields
      (fprop_fields batch_size max_seqlen_q max_seqlen_k num_heads head_size
         (bb_q a) (bb_k a) (bb_v a) (bb_out a)
         (data_ptr (bb_cu_seqlens_q a)) (data_ptr (bb_cu_seqlens_k a))
         (if loop then opt_ptr dq_tmp else None) None (data_ptr softmax_lse)
         (bb_p_dropout a) (bb_softmax_scale a) (bb_is_causal a) 1)
      (bb_dq a) (bb_dk a) (bb_dv a) (data_ptr (bb_dout a)) (data_ptr softmax_d) in
  let params :=
    with_fprop params0 (with_blockmask (fprop params0) (data_ptr (bb_blockmask a))) in
  let g := gen_ref (bb_gen_ a) in
  let params' :=
    if is_dropout
    then with_fprop params
           (with_philox_args (fprop params) (fst (philox_cuda_state 4 (gens w3 g))))
    else params in
  let w4 := if is_dropout then reserve_world g 4 w3 else w3 in
  (batch_size >? 0) = true
  /\ (head_size =? 16) || (head_size =? 32) || (head_size =? 64) || (head_size =? 128)
     = true
  /\ (3 <=? length (t_sizes (bb_softmax_lse_ a)))%nat = true
  /\ f32_ltb (bb_p_dropout a) f32_one = true
  /\ gen_ok (bb_gen_ a) = true
  /\ r = [bb_dq a; bb_dk a; bb_dv a; softmax_d]
  /\ final (bwd_block a) w = block_dgrad_launch_world params' w4.
Proof.
  unfold result, final. destruct (run (bwd_block a) w) as [w' o] eqn:H.
  cbn [fst snd]. intros ->.
  cbn [run] in H. unfold mha_bwd_block in H. cbv zeta in H.
  repeat step_ok H.
  apply ok_pair_inv in H as [<- <-]. cbv zeta.
  repeat apply conj; try assumption; reflexivity.
Qed.

Lemma mha_bwd_block_raise (a : bwd_block_args) (w : World) (msg : string) :
  result (bwd_block a) w = Raise msg ->
  trace (final (bwd_block a) w) = trace w
  /\ gens (final (bwd_block a) w) = gens w
  /\ forall i : nat,
       is_Some (bufs w !! i) -> bufs (final (bwd_block a) w) !! i = bufs w !! i.
Proof.
  unfold result, final. destruct (run (bwd_block a) w) as [w' o] eqn:H.
  cbn [fst snd]. intros ->.
  cbn [run] in H. unfold mha_bwd_block in H. cbv zeta in H.
  repeat step_any H close_raise.
  discriminate H.
Qed.

End Summaries.

Section Reservations.
Context `{KN : Kernels}.

Lemma bufs_dropout_reserve (c : bool) g off w :
  bufs (if c then reserve_world g off w else w) = bufs w.
Proof. destruct c; [ apply bufs_reserve_world | reflexivity ]. Qed.

Lemma trace_dropout_reserve (c : bool) g off w :
  trace (if c then reserve_world g off w else w)
  = trace w ++ (if c then [EvPhilox g off] else []).
Proof.
  destruct c; [ apply trace_reserve_world | symmetry; apply app_nil_r ].
Qed.

Lemma dispatches_dropout_reserve (c : bool) g off :
  dispatches (if c then [EvPhilox g off] else []) = [].
Proof. destruct c; reflexivity. Qed.

Lemma reservations_dropout (c : bool) g off :
  reservations (if c then [EvPhilox g off] else []) = if c then [(g, off)] else [].
Proof. destruct c; reflexivity. Qed.

(** What a returning dense backward call reserves. *)
Lemma mha_bwd_ok_reservations (a : bwd_args) (w : World) (r : list Tensor) :
  result (bwd a) w = Ok r ->
  reservations (trace (final (bwd a) w))
  = reservations (trace w)
      ++ (if is_dropout_of (b_p_dropout a)
          then [(gen_ref (b_gen_ a),
                 int_mul (int_mul (batch_size_of (b_cu_seqlens_q a))
                            (num_heads_of (b_q a))) 32)]
          else [])
  /\ (is_dropout_of (b_p_dropout a) = false -> gens (final (bwd a) w) = gens w).
Proof.
  intros Hr.
  pose proof (mha_bwd_ok a w r Hr) as X. cbv zeta in X.
  destruct X as (_ & _ & _ & _ & _ & _ & _ & ->).
  match goal with
  | |- context [bwd_configure_world ?k ?p ?w4] =>
      set (kn := k); set (p0 := p); set (W4 := w4)
  end.
  assert (T4 : trace W4 = trace w)
    by (subst W4; destruct (b_zero_tensors a); autorewrite with world; reflexivity).
  assert (G4 : gens W4 = gens w)
    by (subst W4; destruct (b_zero_tensors a); autorewrite with world; reflexivity).
  clearbody p0 W4.
  destruct (bwd_configure kn p0 >? 1);
    [ destruct (alloc_tensor _ _ _ _) as [t|] | ]; cbn [fst snd];
    (split;
     [ autorewrite with world; rewrite trace_dropout_reserve;
       autorewrite with world; rewrite T4;
       autorewrite with world; rewrite reservations_dropout;
       cbn [reservations flat_map app]; rewrite ?app_nil_r; reflexivity
     | intros ->; autorewrite with world; exact G4 ]).
Qed.

End Reservations.

(** * Which kernel a call runs *)

Section Dispatch.
Context `{KN : Kernels}.

Lemma fwd_kernel_for_cases (d : Z) :
  (d <= 32 -> fwd_kernel_for d = fmha_fwd_hdim32)
  /\ (32 < d <= 64 -> fwd_kernel_for d = fmha_fwd_hdim64)
  /\ (64 < d -> fwd_kernel_for d = fmha_fwd_hdim128).
Proof.
  unfold fwd_kernel_for.
  destruct (d <=? 32) eqn:H1; [ apply Z.leb_le in H1 | apply Z.leb_gt in H1 ];
    (destruct (d <=? 64) eqn:H2; [ apply Z.leb_le in H2 | apply Z.leb_gt in H2 ]);
    repeat split; intros; try reflexivity; lia.
Qed.

Lemma bwd_kernel_for_cases (d : Z) :
  (d <= 32 -> bwd_kernel_for d = fmha_bwd_hdim32)
  /\ (32 < d <= 64 -> bwd_kernel_for d = fmha_bwd_hdim64)
  /\ (64 < d -> bwd_kernel_for d = fmha_bwd_hdim128).
Proof.
  unfold bwd_kernel_for.
  destruct (d <=? 32) eqn:H1; [ apply Z.leb_le in H1 | apply Z.leb_gt in H1 ];
    (destruct (d <=? 64) eqn:H2; [ apply Z.leb_le in H2 | apply Z.leb_gt in H2 ]);
    repeat split; intros; try reflexivity; lia.
Qed.

(** The trace a returning dense forward call adds: the reservation, if
    any, and one launch. *)
Lemma mha_fwd_ok_trace (a : fwd_args) (w : World) (r : list Tensor) :
  result (fwd a) w = Ok r ->
  exists lp st,
    trace (final (fwd a) w)
    = trace w
        ++ (if is_dropout_of (f_p_dropout a)
            then [EvPhilox (gen_ref (f_gen_ a))
                    (int_mul (int_mul (batch_size_of (f_cu_seqlens_q a))
                                (num_heads_of (f_q a))) 32)]
            else [])
        ++ [EvFwd (fwd_kernel_for (head_size_of (f_q a))) false lp st]
    /\ (is_dropout_of (f_p_dropout a) = false -> philox_args (lp_params lp) = None)
    /\ (is_dropout_of (f_p_dropout a) = true ->
        philox_args (lp_params lp)
        = Some (fst (philox_cuda_state
                       (int_mul (int_mul (batch_size_of (f_cu_seqlens_q a))
                                   (num_heads_of (f_q a))) 32)
                       (gens w (gen_ref (f_gen_ a)))))
        /\ gens (final (fwd a) w) (gen_ref (f_gen_ a))
           = snd (philox_cuda_state
                    (int_mul (int_mul (batch_size_of (f_cu_seqlens_q a))
                                (num_heads_of (f_q a))) 32)
                    (gens w (gen_ref (f_gen_ a))))
        /\ forall g', g' <> gen_ref (f_gen_ a) -> gens (final (fwd a) w) g' = gens w g').
Proof.
  intros Hr.
  pose proof (mha_fwd_ok a w r Hr) as X. cbv zeta in X.
  destruct X as (_ & _ & _ & _ & _ & ->).
  match goal with
  | |- context [fwd_launch_world _ _ (if _ then reserve_world _ _ ?w4 else _)] =>
      set (W4 := w4)
  end.
  assert (T4 : trace W4 = trace w).
  { subst W4. destruct (f_zero_tensors a);
      [ destruct (alloc_tensor (f_return_softmax a) _ _ _) | ];
      autorewrite with world; reflexivity. }
  assert (G4 : gens W4 = gens w).
  { subst W4. destruct (f_zero_tensors a);
      [ destruct (alloc_tensor (f_return_softmax a) _ _ _) | ];
      autorewrite with world; reflexivity. }
  clearbody W4.
  do 2 eexists. split; [ | split ].
  - rewrite trace_fwd_launch_world, trace_dropout_reserve, T4, <- app_assoc.
    reflexivity.
  - intros ->. reflexivity.
  - intros ->. cbn [lp_params]. rewrite G4. split; [ reflexivity | ].
    rewrite gens_fwd_launch_world. unfold reserve_world. cbn [gens set_gens log].
    split; [ rewrite decide_True by reflexivity; rewrite G4; reflexivity | ].
    intros g' Hg'. rewrite decide_False by exact Hg'. rewrite G4. reflexivity.
Qed.

(** The same for a returning dense backward call: the configure pass,
    the reservation, the launch. *)
Lemma mha_bwd_ok_trace (a : bwd_args) (w : World) (r : list Tensor) :
  result (bwd a) w = Ok r ->
  exists p0 st0 p1 st1,
    trace (final (bwd a) w)
    = trace w
        ++ [EvBwd (bwd_kernel_for (head_size_of (b_q a))) true p0 st0]
        ++ (if is_dropout_of (b_p_dropout a)
            then [EvPhilox (gen_ref (b_gen_ a))
                    (int_mul (int_mul (batch_size_of (b_cu_seqlens_q a))
                                (num_heads_of (b_q a))) 32)]
            else [])
        ++ [EvBwd (bwd_kernel_for (head_size_of (b_q a))) false p1 st1]
    /\ philox_args (fprop p0) = None
    /\ (is_dropout_of (b_p_dropout a) = false -> philox_args (fprop p1) = None)
    /\ (is_dropout_of (b_p_dropout a) = true ->
        philox_args (fprop p1)
        = Some (fst (philox_cuda_state
                       (int_mul (int_mul (batch_size_of (b_cu_seqlens_q a))
                                   (num_heads_of (b_q a))) 32)
                       (gens w (gen_ref (b_gen_ a)))))
        /\ gens (final (bwd a) w) (gen_ref (b_gen_ a))
           = snd (philox_cuda_state
                    (int_mul (int_mul (batch_size_of (b_cu_seqlens_q a))
                                (num_heads_of (b_q a))) 32)
                    (gens w (gen_ref (b_gen_ a))))
        /\ forall g', g' <> gen_ref (b_gen_ a) -> gens (final (bwd a) w) g' = gens w g').
Proof.
  intros Hr.
  pose proof (mha_bwd_ok a w r Hr) as X. cbv zeta in X.
  destruct X as (_ & _ & _ & _ & _ & _ & _ & ->).
  match goal with
  | |- context [bwd_configure_world ?k ?p ?w4] =>
      set (kn := k); set (p0 := p); set (W4 := w4)
  end.
  assert (T4 : trace W4 = trace w)
    by (subst W4; destruct (b_zero_tensors a); autorewrite with world; reflexivity).
  assert (G4 : gens W4 = gens w)
    by (subst W4; destruct (b_zero_tensors a); autorewrite with world; reflexivity).
  assert (P0 : philox_args (fprop p0) = None) by reflexivity.
  clearbody p0 W4.
  destruct (bwd_configure kn p0 >? 1);
    [ destruct (alloc_tensor _ _ _ _) as [t|] | ]; cbn [fst snd];
    exists p0, (bufs W4); do 2 eexists;
    (split;
     [ autorewrite with world; rewrite trace_dropout_reserve;
       autorewrite with world; rewrite T4, <- !app_assoc; reflexivity | ]);
    (split; [ exact P0 | ]);
    (split;
     [ intros ->; exact P0
     | intros ->; split; [ autorewrite with world; rewrite G4; reflexivity | ];
       autorewrite with world; unfold reserve_world; cbn [gens set_gens log];
       (split;
        [ rewrite decide_True by reflexivity; autorewrite with world;
          rewrite G4; reflexivity
        | intros g' Hg'; rewrite decide_False by exact Hg';
          autorewrite with world; rewrite G4; reflexivity ]) ]).
Qed.

(** The trace of a returning block-sparse forward call: the configure
    pass, the reservation, the launch. *)
Lemma mha_fwd_block_ok_trace (a : fwd_block_args) (w : World) (r : list Tensor) :
  result (fwd_block a) w = Ok r ->
  exists lp0 st0 lp st,
    trace (final (fwd_block a) w)
    = trace w
        ++ [EvFwd fmha_block_fp16_sm80 true lp0 st0]
        ++ (if is_dropout_of (fb_p_dropout a)
            then [EvPhilox (gen_ref (fb_gen_ a)) (block_fwd_configure lp0)]
            else [])
        ++ [EvFwd fmha_block_fp16_sm80 false lp st]
    /\ elts_per_thread lp = block_fwd_configure lp0
    /\ (is_dropout_of (fb_p_dropout a) = false -> philox_args (lp_params lp) = None)
    /\ (is_dropout_of (fb_p_dropout a) = true ->
        philox_args (lp_params lp)
        = Some (fst (philox_cuda_state (block_fwd_configure lp0)
                       (gens w (gen_ref (fb_gen_ a)))))
        /\ gens (final (fwd_block a) w) (gen_ref (fb_gen_ a))
           = snd (philox_cuda_state (block_fwd_configure lp0)
                    (gens w (gen_ref (fb_gen_ a))))
        /\ forall g', g' <> gen_ref (fb_gen_ a) ->
                      gens (final (fwd_block a) w) g' = gens w g').
Proof.
  intros Hr.
  pose proof (mha_fwd_block_ok a w r Hr) as X. cbv zeta in X.
  destruct X as (_ & _ & _ & _ & _ & ->).
  match goal with
  | |- context [block_fwd_configure_world ?l ?w4] => set (lp0 := l); set (W4 := w4)
  end.
  assert (T4 : trace W4 = trace w) by (subst W4; autorewrite with world; reflexivity).
  assert (G4 : gens W4 = gens w) by (subst W4; autorewrite with world; reflexivity).
  assert (P0 : philox_args (lp_params lp0) = None) by reflexivity.
  clearbody lp0 W4.
  exists lp0, (bufs W4). do 2 eexists.
  split; [ | split; [ | split ] ].
  - autorewrite with world. rewrite trace_dropout_reserve.
    autorewrite with world. rewrite T4, <- !app_assoc. reflexivity.
  - destruct (is_dropout_of (fb_p_dropout a)); reflexivity.
  - intros ->. exact P0.
  - intros ->. split; [ autorewrite with world; rewrite G4; reflexivity | ].
    autorewrite with world. unfold reserve_world. cbn [gens set_gens log].
    split; [ rewrite decide_True by reflexivity; autorewrite with world;
             rewrite G4; reflexivity | ].
    intros g' Hg'. rewrite decide_False by exact Hg'. autorewrite with world.
    rewrite G4. reflexivity.
Qed.

(** The trace of a returning block-sparse backward call. *)
Lemma mha_bwd_block_ok_trace (a : bwd_block_args) (w : World) (r : list Tensor) :
  result (bwd_block a) w = Ok r ->
  exists p st,
    trace (final (bwd_block a) w)
    = trace w
        ++ (if is_dropout_of (bb_p_dropout a)
            then [EvPhilox (gen_ref (bb_gen_ a)) 4] else [])
        ++ [EvBwd fmha_block_dgrad_fp16_sm80 false p st]
    /\ (is_dropout_of (bb_p_dropout a) = false -> philox_args (fprop p) = None)
    /\ (is_dropout_of (bb_p_dropout a) = true ->
        philox_args (fprop p)
        = Some (fst (philox_cuda_state 4 (gens w (gen_ref (bb_gen_ a)))))
        /\ gens (final (bwd_block a) w) (gen_ref (bb_gen_ a))
           = snd (philox_cuda_state 4 (gens w (gen_ref (bb_gen_ a))))
        /\ forall g', g' <> gen_ref (bb_gen_ a) ->
                      gens (final (bwd_block a) w) g' = gens w g').
Proof.
  intros Hr.
  pose proof (mha_bwd_block_ok a w r Hr) as X. cbv zeta in X.
  destruct X as (_ & _ & _ & _ & _ & _ & ->).
  match goal with
  | |- context [block_dgrad_launch_world _ (if _ then reserve_world _ _ ?w3 else _)] =>
      set (W3 := w3)
  end.
  assert (T3 : trace W3 = trace w) by (subst W3; autorewrite with world; reflexivity).
  assert (G3 : gens W3 = gens w) by (subst W3; autorewrite with world; reflexivity).
  clearbody W3.
  do 2 eexists. split; [ | split ].
  - autorewrite with world. rewrite trace_dropout_reserve, T3, <- !app_assoc.
    reflexivity.
  - intros ->. reflexivity.
  - intros ->. split; [ rewrite G3; reflexivity | ].
    autorewrite with world. unfold reserve_world. cbn [gens set_gens log].
    split; [ rewrite decide_True by reflexivity; rewrite G3; reflexivity | ].
    intros g' Hg'. rewrite decide_False by exact Hg'. rewrite G3. reflexivity.
Qed.

End Dispatch.

(** * The random generator *)

(** After the summary of a returning run has been unfolded: simplify the
    projections of the final world, splitting on the conditionals that
    stand in the way. *)
Ltac world_cases :=
  repeat first
    [ progress autorewrite with world
    | match goal with
      | |- context [trace (if ?c then _ else _)] => destruct c
      | |- context [gens (if ?c then _ else _)] => destruct c
      | |- context [trace (match ?o with Some _ => _ | None => _ end _)] => destruct o
      | |- context [gens (match ?o with Some _ => _ | None => _ end _)] => destruct o
      | |- context [trace (match ?o with Some _ => _ | None => _ end)] => destruct o
      | |- context [gens (match ?o with Some _ => _ | None => _ end)] => destruct o
      end ].

Section Generator.
Context `{KN : Kernels}.

Lemma is_dropout_of_zero (p : float) : SFeqb p f64_zero = true -> is_dropout_of p = false.
Proof. destruct p as [s|[]| |[] m e]; cbn; intros H; try discriminate H; reflexivity. Qed.

Lemma no_dropout_no_reservation (c : call) (w : World) :
  is_dropout_of (call_p_dropout c) = false ->
  gens (final c w) = gens w /\ reservations (trace (final c w)) = reservations (trace w).
Proof.
  intros Hd. destruct (result c w) as [r|msg] eqn:Hr.
  - destruct c as [a|a|a|a]; cbn [call_p_dropout] in Hd.
    + pose proof (mha_fwd_ok a w r Hr) as X. cbv zeta in X.
      destruct X as (_ & _ & _ & _ & _ & ->). rewrite Hd.
      world_cases; cbn [reservations flat_map app]; rewrite ?app_nil_r; auto.
    + destruct (mha_bwd_ok_reservations a w r Hr) as [Hres Hgens].
      rewrite Hres, Hd, app_nil_r. auto.
    + pose proof (mha_fwd_block_ok a w r Hr) as X. cbv zeta in X.
      destruct X as (_ & _ & _ & _ & _ & ->). rewrite Hd.
      world_cases; cbn [reservations flat_map app]; rewrite ?app_nil_r; auto.
    + pose proof (mha_bwd_block_ok a w r Hr) as X. cbv zeta in X.
      destruct X as (_ & _ & _ & _ & _ & _ & ->). rewrite Hd.
      world_cases; cbn [reservations flat_map app]; rewrite ?app_nil_r; auto.
  - destruct c as [a|a|a|a].
    + destruct (mha_fwd_raise a w msg Hr) as [-> ->]. auto.
    + destruct (mha_bwd_raise a w msg Hr) as (_ & -> & -> & _). auto.
    + destruct (mha_fwd_block_raise a w msg Hr) as [-> ->]. auto.
    + destruct (mha_bwd_block_raise a w msg Hr) as (-> & -> & _). auto.
Qed.

(** C10. For every call to any of the four entry points whose dropout
    probability equals 0, the generators of the world are left as they
    were and no counter offset is reserved, whether the call returns or
    raises. *)
Theorem C10_no_dropout_leaves_generator (c : call) (w : World) :
  SFeqb (call_p_dropout c) f64_zero = true ->
  gens (final c w) = gens w
  /\ reservations (trace (final c w)) = reservations (trace w).
Proof. intros Hz. apply no_dropout_no_reservation. by apply is_dropout_of_zero. Qed.

End Generator.

(** * Validation *)

Section Validation.
Context `{KN : Kernels}.

(** A call that raises has dispatched no kernel and reserved nothing. *)
Lemma raise_dispatches_nothing (c : call) (w : World) (msg : string) :
  result c w = Raise msg ->
  dispatches (trace (final c w)) = dispatches (trace w)
  /\ reservations (trace (final c w)) = reservations (trace w).
Proof.
  intros Hr. destruct c as [a|a|a|a].
  - destruct (mha_fwd_raise a w msg Hr) as [-> _]. auto.
  - destruct (mha_bwd_raise a w msg Hr) as (-> & -> & _). auto.
  - destruct (mha_fwd_block_raise a w msg Hr) as [-> _]. auto.
  - destruct (mha_bwd_block_raise a w msg Hr) as (-> & _). auto.
Qed.

(** A call that returns was given a dropout probability below one. *)
Lemma ok_dropout_below_one (c : call) (w : World) (r : list Tensor) :
  result c w = Ok r -> f32_ltb (call_p_dropout c) f32_one = true.
Proof.
  intros Hr. destruct c as [a|a|a|a]; cbn [call_p_dropout].
  - apply (mha_fwd_ok a w r Hr).
  - apply (mha_bwd_ok a w r Hr).
  - apply (mha_fwd_block_ok a w r Hr).
  - apply (mha_bwd_block_ok a w r Hr).
Qed.

(** C6, as amended. Every call whose dropout probability [p_dropout] is
    not below one, that is whose keep probability [1 - p_dropout] is not
    positive, raises, and it does so before any kernel is dispatched. *)
Theorem C6_dropout_not_below_one_raises (c : call) (w : World) :
  f32_ltb (call_p_dropout c) f32_one = false ->
  exists msg, result c w = Raise msg
              /\ dispatches (trace (final c w)) = dispatches (trace w).
Proof.
  intros Hp. destruct (result c w) as [r|msg] eqn:Hr.
  - pose proof (ok_dropout_below_one c w r Hr) as Hlt. congruence.
  - exists msg. split; [ reflexivity | ]. by apply raise_dispatches_nothing in Hr as [? _].
Qed.

(** A block-sparse call that returns has one of the four head sizes. *)
Lemma ok_block_head_size (c : call) (w : World) (r : list Tensor) :
  is_block_sparse c = true -> result c w = Ok r ->
  In (head_size_of (call_q c)) [16; 32; 64; 128].
Proof.
  intros Hb Hr. destruct c as [a|a|a|a]; try discriminate Hb; cbn [call_q].
  - destruct (mha_fwd_block_ok a w r Hr) as (_ & Hh & _).
    cbn [In]. apply orb_prop in Hh as [Hh|Hh]; [ | lia ].
    apply orb_prop in Hh as [Hh|Hh]; [ | lia ].
    apply orb_prop in Hh as [Hh|Hh]; lia.
  - destruct (mha_bwd_block_ok a w r Hr) as (_ & Hh & _).
    cbn [In]. apply orb_prop in Hh as [Hh|Hh]; [ | lia ].
    apply orb_prop in Hh as [Hh|Hh]; [ | lia ].
    apply orb_prop in Hh as [Hh|Hh]; lia.
Qed.

(** C9. Every block-sparse forward or backward call whose head dimension
    is not 16, 32, 64 or 128 raises, with no launcher called (neither a
    configure pass nor a kernel) and nothing reserved on a generator. *)
Theorem C9_block_head_size_validated (c : call) (w : World) :
  is_block_sparse c = true ->
  ~ In (head_size_of (call_q c)) [16; 32; 64; 128] ->
  exists msg, result c w = Raise msg /\ trace (final c w) = trace w.
Proof.
  intros Hb Hh. destruct (result c w) as [r|msg] eqn:Hr.
  - destruct Hh. by apply (ok_block_head_size c w r).
  - exists msg. split; [ reflexivity | ].
    destruct c as [a|a|a|a]; try discriminate Hb.
    + apply (mha_fwd_block_raise a w msg Hr).
    + apply (mha_bwd_block_raise a w msg Hr).
Qed.

End Validation.

(** * The counter offset *)

Section CounterOffset.
Context `{KN : Kernels}.

Lemma to_int_id (z : Z) : fits_int z -> to_int z = z.
Proof. unfold fits_int, to_int, INT_MIN, INT_MAX. intros H. rewrite Z.mod_small; lia. Qed.

Lemma counter_offset_exact (b h : Z) :
  fits_int (b * h * 32) -> int_mul (int_mul b h) 32 = b * h * 32.
Proof.
  intros H. unfold int_mul.
  assert (fits_int (b * h)) by (unfold fits_int, INT_MIN, INT_MAX in *; lia).
  by rewrite (to_int_id (b * h)), to_int_id.
Qed.

(** C1, as amended. Every dropout-enabled call that returns reserves
    exactly one counter offset, on the generator it was given (or the
    default one): [batch_size * num_heads * 32] in [mha_fwd] and
    [mha_bwd] when that product fits a C [int], the constant 4 in
    [mha_bwd_block], and in [mha_fwd_block] what the configure pass of
    this call returned, which is the [elts_per_thread] of its launch. *)
Theorem C1_counter_offset (c : call) (w : World) (r : list Tensor) :
  result c w = Ok r ->
  is_dropout_of (call_p_dropout c) = true ->
  (is_block_sparse c = false ->
   fits_int (batch_size_of (call_cu_seqlens_q c) * num_heads_of (call_q c) * 32)) ->
  exists new off,
    trace (final c w) = trace w ++ new
    /\ reservations new = [(gen_ref (call_gen_ c), off)]
    /\ counter_offset_spec c new off.
Proof.
  intros Hr Hd Hfit.
  destruct c as [a|a|a|a];
    cbn [call_p_dropout call_cu_seqlens_q call_q call_gen_ counter_offset_spec
         is_block_sparse] in *.
  - destruct (mha_fwd_ok_trace a w r Hr) as (lp & st & Htr & _).
    rewrite Hd in Htr. do 2 eexists. split; [ exact Htr | ].
    split; [ reflexivity | ]. apply counter_offset_exact. by apply Hfit.
  - destruct (mha_bwd_ok_trace a w r Hr) as (p0 & st0 & p1 & st1 & Htr & _).
    rewrite Hd in Htr. do 2 eexists. split; [ exact Htr | ].
    split; [ reflexivity | ]. apply counter_offset_exact. by apply Hfit.
  - destruct (mha_fwd_block_ok_trace a w r Hr) as (lp0 & st0 & lp & st & Htr & He & _).
    rewrite Hd in Htr. do 2 eexists. split; [ exact Htr | ].
    split; [ reflexivity | ]. exists lp0, st0, lp, st. auto.
  - destruct (mha_bwd_block_ok_trace a w r Hr) as (p & st & Htr & _).
    rewrite Hd in Htr. do 2 eexists. split; [ exact Htr | ].
    split; reflexivity.
Qed.

End CounterOffset.

(** * Buffers prepared for the kernels *)

Section Buffers.
Context `{KN : Kernels}.

(** C5. When a forward call with [zero_tensors] set returns, the only
    kernel it dispatched is the last event of its trace, and that launch
    started from a store in which the output buffer holds zeros, the
    LogSumExp buffer (the first tensor returned, and the one the launch
    parameters point to) holds negative infinity and, if the probability
    matrix was requested, the probability buffer (the second tensor
    returned) holds zeros. *)
Theorem C5_zero_tensors_fill_before_launch (a : fwd_args) (w : World) (r : list Tensor) :
  result (fwd a) w = Ok r ->
  f_zero_tensors a = true ->
  is_Some (bufs w !! t_buf (f_out a)) ->
  exists pre k lp st softmax_lse rest,
    trace (final (fwd a) w) = trace w ++ pre ++ [EvFwd k false lp st]
    /\ dispatches pre = []
    /\ r = softmax_lse :: rest
    /\ o_ptr (lp_params lp) = data_ptr (f_out a)
    /\ softmax_lse_ptr (lp_params lp) = data_ptr softmax_lse
    /\ filled (f_out a) zero_cell st
    /\ filled softmax_lse neg_inf_cell st
    /\ (f_return_softmax a = true ->
        exists s, rest = [s] /\ s_ptr (lp_params lp) = data_ptr s
                  /\ filled s zero_cell st).
Proof.
  intros Hr Hz Hlive.
  pose proof (mha_fwd_ok a w r Hr) as X. cbv zeta in X.
  destruct X as (_ & _ & _ & _ & -> & ->).
  rewrite trace_fwd_launch_world, trace_dropout_reserve, bufs_dropout_reserve.
  rewrite Hz.
  destruct (f_return_softmax a); cbn [alloc_tensor alloc_world lp_params];
    autorewrite with world; rewrite <- app_assoc;
    do 6 eexists;
    (split; [ reflexivity | ]);
    (split; [ apply dispatches_dropout_reserve | ]);
    (split; [ reflexivity | ]);
    (split; [ destruct (is_dropout_of (f_p_dropout a)); reflexivity | ]);
    (split; [ destruct (is_dropout_of (f_p_dropout a)); reflexivity | ]);
    unfold filled.
  - split; [ | split ].
    + rewrite lookup_fill_world by (apply new_tensor_at_ne; live).
      rewrite lookup_fill_world by (apply new_tensor_at_ne; live).
      apply lookup_fill_world_eq.
    + rewrite lookup_fill_world
        by (apply new_tensor_at_ne; apply live_new_tensor_world).
      apply lookup_fill_world_eq.
    + intros _. eexists. split; [ reflexivity | ].
      split; [ destruct (is_dropout_of (f_p_dropout a)); reflexivity | ].
      apply lookup_fill_world_eq.
  - split; [ | split ].
    + rewrite lookup_fill_world by (apply new_tensor_at_ne; live).
      apply lookup_fill_world_eq.
    + apply lookup_fill_world_eq.
    + intros H. discriminate H.
Qed.

End Buffers.

Section Accumulator.
Context `{KN : Kernels}.

Lemma numel_new_tensor_at sizes dt w : numel (new_tensor_at sizes dt w) = prodZ sizes.
Proof. reflexivity. Qed.

Lemma filled_new_tensor_world sizes dt c w :
  filled (new_tensor_at sizes dt w) c (bufs (new_tensor_world sizes c w)).
Proof. unfold filled. rewrite numel_new_tensor_at. apply lookup_new_tensor_world_eq. Qed.

Lemma filled_fill_world t c w : filled t c (bufs (fill_world t c w)).
Proof. apply lookup_fill_world_eq. Qed.

Lemma contents_copy_world dst src w :
  bufs (copy_world dst src w) !! t_buf dst
  = Some (cast_cell (t_dtype dst) <$> contents src (bufs w)).
Proof. unfold copy_world. cbn [bufs set_bufs]. apply lookup_insert_eq. Qed.

Lemma bufs_bwd_launch_world k p w :
  bufs (bwd_launch_world k p w) = bwd_kernel k p (bufs w).
Proof. reflexivity. Qed.


End Accumulator.

(** * Tiling parameters *)

Section Tiling.
Context `{KN : Kernels}.

(** [((x + m - 1) / m) * m] rounds [x] up to a multiple of [m] when the
    sum does not overflow and is not negative. *)
Lemma round_multiple_rounds_up (x m : Z) :
  0 < m <= 256 -> - m < x <= INT_MAX - m ->
  rounds_up x m (round_multiple x m).
Proof.
  unfold INT_MAX. intros Hm Hx. unfold round_multiple, int_mul, int_div, int_sub, int_add.
  rewrite (to_int_id (x + m)) by (unfold fits_int, INT_MIN, INT_MAX; lia).
  rewrite (to_int_id (x + m - 1)) by (unfold fits_int, INT_MIN, INT_MAX; lia).
  rewrite Z.quot_div_nonneg by lia.
  pose proof (Z.div_mod (x + m - 1) m ltac:(lia)) as Hd.
  pose proof (Z.mod_pos_bound (x + m - 1) m ltac:(lia)) as Hr.
  assert (Hq : 0 <= (x + m - 1) / m) by (apply Z.div_pos; lia).
  rewrite (to_int_id ((x + m - 1) / m)) by (unfold fits_int, INT_MIN, INT_MAX; nia).
  rewrite to_int_id by (unfold fits_int, INT_MIN, INT_MAX; nia).
  split.
  - exists ((x + m - 1) / m). reflexivity.
  - nia.
Qed.

Lemma launched_params_dropout (c : bool) g off :
  flat_map launched_params (if c then [EvPhilox g off] else []) = [].
Proof. destruct c; reflexivity. Qed.

Lemma padded_max_seqlen_k_spec (x tile : Z) :
  tile = 128 \/ tile = 256 -> x <= INT_MAX - 256 ->
  if x <=? 128 then padded_max_seqlen_k x tile = 128
  else if x <=? 256 then padded_max_seqlen_k x tile = 256
  else rounds_up x tile (padded_max_seqlen_k x tile).
Proof.
  intros Ht Hx. unfold padded_max_seqlen_k.
  destruct (x <=? 128) eqn:H1; [ reflexivity | ].
  destruct (x <=? 256) eqn:H2; [ reflexivity | ].
  apply Z.leb_gt in H2. apply round_multiple_rounds_up; unfold INT_MAX in *; lia.
Qed.

Lemma bwd_blocksize_c_cases sm75 d :
  bwd_blocksize_c sm75 d = 128 \/ bwd_blocksize_c sm75 d = 256.
Proof. unfold bwd_blocksize_c. destruct (_ || _); auto. Qed.

Lemma fwd_blocksize_c_cases d : fwd_blocksize_c d = 128 \/ fwd_blocksize_c d = 256.
Proof. unfold fwd_blocksize_c. destruct (_ >? _); auto. Qed.

Lemma is_Some_opt_ptr_alloc (c : bool) sizes dt w :
  is_Some (if c then opt_ptr (alloc_tensor c sizes dt w) else None) <-> c = true.
Proof.
  destruct c; cbn [alloc_tensor opt_ptr data_ptr]; split; intros H;
    try reflexivity; try discriminate H; eauto.
  by apply is_Some_None in H.
Qed.

(** C2, amended. When a dense forward or backward call returns and the
    padding sums fit a C [int], every launcher call it made carries the
    same padded lengths [sq] and [sk]: [sq] is the raw maximal query
    length rounded up to a multiple of 16; [sk] is 128 when the raw
    maximal key length is at most 128, 256 when it is at most 256, and
    else the raw length rounded up to a multiple of the tile size. The
    tile size is 128 if the head dimension is over 64, or, for the
    backward call on an sm75 device, over 32; it is 256 otherwise. The
    first launcher call is given a temporary accumulator iff [sk]
    exceeds the tile size. *)
Theorem C2_tiling_parameters (c : call) (w : World) (r : list Tensor) :
  result c w = Ok r ->
  is_block_sparse c = false ->
  -16 < call_max_seqlen_q_ c <= INT_MAX - 16 ->
  call_max_seqlen_k_ c <= INT_MAX - 256 ->
  let d := head_size_of (call_q c) in
  let tile :=
    if (d >? 64) || (is_backward c && is_sm75 (device w) && (d >? 32))
    then 128 else 256 in
  exists sq sk p ps,
    flat_map launched_params (trace (final c w))
    = flat_map launched_params (trace w) ++ p :: ps
    /\ Forall (fun p' => params_seqlen_q p' = sq /\ params_seqlen_k p' = sk) (p :: ps)
    /\ rounds_up (call_max_seqlen_q_ c) 16 sq
    /\ (if call_max_seqlen_k_ c <=? 128 then sk = 128
        else if call_max_seqlen_k_ c <=? 256 then sk = 256
        else rounds_up (call_max_seqlen_k_ c) tile sk)
    /\ (is_Some (o_tmp_ptr p) <-> tile < sk).
Proof.
  intros Hr Hb Hq Hk d tile. subst d tile.
  destruct c as [a|a|a|a]; try discriminate Hb;
    cbn [call_max_seqlen_q_ call_max_seqlen_k_ call_q is_backward andb] in *.
  - pose proof (mha_fwd_ok a w r Hr) as X. cbv zeta in X.
    destruct X as (_ & _ & _ & _ & _ & ->).
    rewrite orb_false_r.
    change (if head_size_of (f_q a) >? 64 then 128 else 256)
      with (fwd_blocksize_c (head_size_of (f_q a))).
    match goal with
    | |- context [fwd_launch_world _ _ (if _ then reserve_world _ _ ?w4 else _)] =>
        set (W4 := w4)
    end.
    assert (T4 : trace W4 = trace w).
    { subst W4. destruct (f_zero_tensors a);
        [ destruct (alloc_tensor (f_return_softmax a) _ _ _) | ];
        autorewrite with world; reflexivity. }
    clearbody W4.
    exists (padded_max_seqlen_q (f_max_seqlen_q_ a)),
      (padded_max_seqlen_k (f_max_seqlen_k_ a) (fwd_blocksize_c (head_size_of (f_q a)))).
    do 2 eexists.
    split; [ | split; [ | split; [ | split ] ] ].
    + rewrite trace_fwd_launch_world, trace_dropout_reserve, T4.
      rewrite !flat_map_app, launched_params_dropout, app_nil_r. reflexivity.
    + cbn [launched_params lp_params]. repeat constructor.
      * destruct (is_dropout_of (f_p_dropout a)); reflexivity.
      * destruct (is_dropout_of (f_p_dropout a)); reflexivity.
    + apply round_multiple_rounds_up; unfold INT_MAX in *; lia.
    + apply padded_max_seqlen_k_spec; [ apply fwd_blocksize_c_cases | exact Hk ].
    + cbn [launched_params lp_params].
      replace (o_tmp_ptr (if is_dropout_of (f_p_dropout a) then _ else _))
        with (if padded_max_seqlen_k (f_max_seqlen_k_ a)
                   (fwd_blocksize_c (head_size_of (f_q a)))
                 >? fwd_blocksize_c (head_size_of (f_q a))
              then opt_ptr (alloc_tensor
                     (padded_max_seqlen_k (f_max_seqlen_k_ a)
                        (fwd_blocksize_c (head_size_of (f_q a)))
                      >? fwd_blocksize_c (head_size_of (f_q a)))
                     [total_of (f_q a); num_heads_of (f_q a); head_size_of (f_q a)]
                     kFloat w)
              else None)
        by (destruct (is_dropout_of (f_p_dropout a)); reflexivity).
      rewrite is_Some_opt_ptr_alloc, Z.gtb_ltb, Z.ltb_lt. reflexivity.
  - pose proof (mha_bwd_ok a w r Hr) as X. cbv zeta in X.
    destruct X as (_ & _ & _ & _ & _ & _ & _ & ->).
    change (if (head_size_of (b_q a) >? 64)
               || (is_sm75 (device w) && (head_size_of (b_q a) >? 32))
            then 128 else 256)
      with (bwd_blocksize_c (is_sm75 (device w)) (head_size_of (b_q a))).
    set (tile := bwd_blocksize_c (is_sm75 (device w)) (head_size_of (b_q a))).
    exists (padded_max_seqlen_q (b_max_seqlen_q_ a)),
      (padded_max_seqlen_k (b_max_seqlen_k_ a) tile).
    match goal with
    | |- context [bwd_configure_world ?k ?p ?w4] =>
        set (kn := k); set (p0 := p); set (W4 := w4)
    end.
    assert (T4 : trace W4 = trace w).
    { subst W4. destruct (b_zero_tensors a); autorewrite with world; reflexivity. }
    assert (Hsq : params_seqlen_q (fprop p0) = padded_max_seqlen_q (b_max_seqlen_q_ a))
      by reflexivity.
    assert (Hsk : params_seqlen_k (fprop p0) = padded_max_seqlen_k (b_max_seqlen_k_ a) tile)
      by reflexivity.
    assert (Ho : is_Some (o_tmp_ptr (fprop p0))
                 <-> tile < padded_max_seqlen_k (b_max_seqlen_k_ a) tile).
    { subst p0. rewrite fprop_dgrad_fields, o_tmp_ptr_fields.
      rewrite is_Some_opt_ptr_alloc, Z.gtb_ltb, Z.ltb_lt. reflexivity. }
    clearbody p0 W4.
    destruct (bwd_configure kn p0 >? 1);
      [ destruct (alloc_tensor _ _ _ _) as [t|] | ]; cbn [fst snd];
      exists (fprop p0); eexists;
      (split;
       [ autorewrite with world; rewrite trace_dropout_reserve;
         autorewrite with world; rewrite T4, !flat_map_app, launched_params_dropout;
         cbn [flat_map launched_params app]; rewrite <- !app_assoc; cbn [app];
         reflexivity | ]);
      (split;
       [ constructor; [ split; assumption | ];
         constructor; [ | constructor ];
         destruct (is_dropout_of (b_p_dropout a)); split;
         first [ exact Hsq | exact Hsk ] | ]);
      (split; [ apply round_multiple_rounds_up; unfold INT_MAX in *; lia | ]);
      (split; [ apply padded_max_seqlen_k_spec;
                [ apply bwd_blocksize_c_cases | exact Hk ] | exact Ho ]).
Qed.

End Tiling.

(** * The LogSumExp of the forward pass *)

Section LogSumExp.
Context `{KN : Kernels}.

Lemma slice_tensor_view t stop w :
  is_contiguous (slice_view t stop) = true -> slice_tensor t stop w = slice_view t stop.
Proof. unfold slice_tensor. intros ->. reflexivity. Qed.

Lemma slice_tensor_fresh t stop w :
  is_contiguous (slice_view t stop) = false ->
  t_buf (slice_tensor t stop w) = fresh (dom (bufs w)).
Proof. unfold slice_tensor. intros ->. reflexivity. Qed.

Lemma slice_world_fresh t stop w :
  is_contiguous (slice_view t stop) = false ->
  bufs (slice_world t stop w) !! fresh (dom (bufs w))
  = Some (slice_contents t stop (contents t (bufs w))).
Proof.
  unfold slice_world. intros ->. cbn [bufs set_bufs]. apply lookup_insert_eq.
Qed.

Lemma fresh_not_live (w : World) : bufs w !! fresh (dom (bufs w)) = None.
Proof. apply not_elem_of_dom. apply is_fresh. Qed.

Lemma not_output (i : nat) (a b c d : nat) (o : ptr) :
  a ≠ i -> b ≠ i -> c ≠ i -> d ≠ i -> o ≠ Some i ->
  Some i ∉ [Some a; Some b; Some c; Some d; o].
Proof.
  intros Ha Hb Hc Hd Ho Hin.
  repeat (apply elem_of_cons in Hin as [Hin|Hin]; [ congruence | ]).
  by apply elem_of_nil in Hin.
Qed.

Lemma data_ptr_ne (t : Tensor) (i : nat) : t_buf t ≠ i -> data_ptr t ≠ Some i.
Proof. unfold data_ptr. congruence. Qed.

Lemma bwd_kernel_frame k p st (i : nat) :
  bwd_kernels_write_outputs_only ->
  Some i ∉ dgrad_outputs p -> bwd_kernel k p st !! i = st !! i.
Proof. intros HK Hi. exact (proj1 (HK p st i Hi) k). Qed.

Lemma block_dgrad_kernel_frame p st (i : nat) :
  bwd_kernels_write_outputs_only ->
  Some i ∉ dgrad_outputs p -> block_dgrad_kernel p st !! i = st !! i.
Proof. intros HK Hi. exact (proj2 (HK p st i Hi)). Qed.

Lemma not_output_with_fprop p f (i : nat) :
  Some i ∉ dgrad_outputs p -> o_tmp_ptr f ≠ Some i ->
  Some i ∉ dgrad_outputs (with_fprop p f).
Proof.
  unfold dgrad_outputs. cbn [with_fprop dq_ptr dk_ptr dv_ptr dsoftmax_sum fprop].
  rewrite !not_elem_of_cons. intros (? & ? & ? & ? & ? & ?) ?.
  repeat split; try assumption. congruence.
Qed.

Lemma outputs_with_fprop p f :
  dgrad_outputs (with_fprop p f)
  = [dq_ptr p; dk_ptr p; dv_ptr p; dsoftmax_sum p; o_tmp_ptr f].
Proof. reflexivity. Qed.

Lemma outputs_configured k p : dgrad_outputs (configured k p) = dgrad_outputs p.
Proof. reflexivity. Qed.

Lemma outputs_dropout (c : bool) p ph :
  dgrad_outputs (if c then with_fprop p (with_philox_args (fprop p) ph) else p)
  = dgrad_outputs p.
Proof. destruct c; reflexivity. Qed.

Lemma softmax_lse_ptr_dropout (c : bool) p ph :
  softmax_lse_ptr (fprop (if c then with_fprop p (with_philox_args (fprop p) ph) else p))
  = softmax_lse_ptr (fprop p).
Proof. destruct c; reflexivity. Qed.

Lemma seqlen_q_dropout (c : bool) p ph :
  params_seqlen_q (fprop (if c then with_fprop p (with_philox_args (fprop p) ph) else p))
  = params_seqlen_q (fprop p).
Proof. destruct c; reflexivity. Qed.

Lemma bwd_launches_app l1 l2 : bwd_launches (l1 ++ l2) = bwd_launches l1 ++ bwd_launches l2.
Proof. apply flat_map_app. Qed.

Lemma bwd_launches_dropout (c : bool) g off :
  bwd_launches (if c then [EvPhilox g off] else []) = [].
Proof. destruct c; reflexivity. Qed.

(** A returning dense backward call, seen from a buffer [i] that exists
    once the LogSumExp has been cut and is none of [dq], [dk], [dv]: the
    buffer holds the same at both launcher calls and at the end. *)
Lemma mha_bwd_ok_frame (a : bwd_args) (w : World) (r : list Tensor) (i : nat) :
  result (bwd a) w = Ok r ->
  bwd_kernels_write_outputs_only ->
  let stop := padded_max_seqlen_q (b_max_seqlen_q_ a) in
  let w1 := slice_world (b_softmax_lse_ a) stop w in
  is_Some (bufs w1 !! i) ->
  t_buf (b_dq a) ≠ i -> t_buf (b_dk a) ≠ i -> t_buf (b_dv a) ≠ i ->
  bufs (final (bwd a) w) !! i = bufs w1 !! i
  /\ exists new, trace (final (bwd a) w) = trace w ++ new
       /\ Forall (fun l => params_seqlen_q (fprop (fst l)) = stop
                           /\ softmax_lse_ptr (fprop (fst l))
                              = data_ptr (slice_tensor (b_softmax_lse_ a) stop w)
                           /\ snd l !! i = bufs w1 !! i)
            (bwd_launches new).
Proof.
  intros Hr HK stop w1 Hi Hdq Hdk Hdv. subst stop w1.
  pose proof (mha_bwd_ok a w r Hr) as X. cbv zeta in X.
  destruct X as (_ & _ & _ & _ & _ & _ & _ & ->).
  match goal with
  | |- context [bwd_configure_world ?k ?p ?w4] =>
      set (kn := k); set (p0 := p); set (W4 := w4)
  end.
  assert (H4 : bufs W4 !! i = bufs (slice_world (b_softmax_lse_ a)
                                     (padded_max_seqlen_q (b_max_seqlen_q_ a)) w) !! i).
  { subst W4. destruct (b_zero_tensors a); frame. }
  assert (T4 : trace W4 = trace w).
  { subst W4. destruct (b_zero_tensors a); autorewrite with world; reflexivity. }
  assert (L4 : is_Some (bufs W4 !! i)) by (rewrite H4; exact Hi).
  match goal with
  | |- context [alloc_tensor ?c ?s ?d ?w2] => set (T0 := alloc_tensor c s d w2) in *
  end.
  assert (HT0 : forall t, T0 = Some t -> t_buf t ≠ i).
  { subst T0. unfold alloc_tensor. intros t Ht.
    destruct (_ >? _); [ | discriminate Ht ].
    injection Ht as <-. apply new_tensor_at_ne. live. }
  assert (HO : o_tmp_ptr (fprop p0) ≠ Some i).
  { subst p0. rewrite fprop_dgrad_fields, o_tmp_ptr_fields.
    destruct (_ >? _); [ | discriminate ].
    destruct T0 as [t|] eqn:ET; [ | discriminate ].
    cbn [opt_ptr]. apply data_ptr_ne. exact (HT0 t eq_refl). }
  assert (HP : Some i ∉ dgrad_outputs p0).
  { apply not_output; try assumption. apply new_tensor_at_ne. exact Hi. }
  assert (HL : softmax_lse_ptr (fprop p0)
               = data_ptr (slice_tensor (b_softmax_lse_ a)
                             (padded_max_seqlen_q (b_max_seqlen_q_ a)) w))
    by reflexivity.
  assert (HS : params_seqlen_q (fprop p0) = padded_max_seqlen_q (b_max_seqlen_q_ a))
    by reflexivity.
  clearbody p0 W4 T0.
  assert (F6 : forall t, T0 = Some t ->
               bufs (fill_world t zero_cell (bwd_configure_world kn p0 W4)) !! i
               = bufs W4 !! i).
  { intros t Ht. rewrite lookup_fill_world by exact (HT0 t Ht).
    apply (f_equal (.!! i)), bufs_bwd_configure_world. }
  assert (N6 : forall sizes,
               bufs (new_tensor_world sizes zero_cell (bwd_configure_world kn p0 W4)) !! i
               = bufs W4 !! i).
  { intros sizes. rewrite lookup_new_tensor_world by exact L4.
    apply (f_equal (.!! i)), bufs_bwd_configure_world. }
  assert (HN : forall sizes f,
               Some i ∉ dgrad_outputs
                 (with_fprop (configured kn p0)
                    (with_o_tmp_ptr f
                       (data_ptr (new_tensor_at sizes kFloat
                                    (bwd_configure_world kn p0 W4)))))).
  { intros sizes f. apply not_output_with_fprop; [ exact HP | ].
    cbn [with_o_tmp_ptr o_tmp_ptr]. apply data_ptr_ne, new_tensor_at_ne.
    exact L4. }
  destruct (bwd_configure kn p0 >? 1); [ destruct T0 as [t|] | ]; cbn [fst snd];
    (split;
     [ rewrite ?lookup_copy_world by assumption;
       rewrite bufs_bwd_launch_world;
       rewrite bwd_kernel_frame
         by first [ exact HK | rewrite outputs_dropout; first [ exact HP | apply HN ] ];
       rewrite bufs_dropout_reserve;
       rewrite ?(F6 t eq_refl), ?N6, ?bufs_bwd_configure_world; exact H4
     | eexists; split;
       [ autorewrite with world; rewrite trace_dropout_reserve;
         autorewrite with world; rewrite T4, <- !app_assoc; reflexivity
       | rewrite !bwd_launches_app, bwd_launches_dropout;
         cbn [bwd_launches flat_map app];
         repeat constructor; cbn [fst snd];
         rewrite ?seqlen_q_dropout, ?softmax_lse_ptr_dropout, ?bufs_dropout_reserve;
         rewrite ?(F6 t eq_refl), ?N6, ?bufs_bwd_configure_world;
         first [ exact HS | exact HL | exact H4 ] ] ]).
Qed.

Lemma bufs_block_dgrad_launch_world p w :
  bufs (block_dgrad_launch_world p w) = block_dgrad_kernel p (bufs w).
Proof. reflexivity. Qed.

(** The same for a returning block-sparse backward call. *)
Lemma mha_bwd_block_ok_frame (a : bwd_block_args) (w : World) (r : list Tensor) (i : nat) :
  result (bwd_block a) w = Ok r ->
  bwd_kernels_write_outputs_only ->
  let stop := padded_max_seqlen_q (bb_max_seqlen_q_ a) in
  let w1 := slice_world (bb_softmax_lse_ a) stop w in
  is_Some (bufs w1 !! i) ->
  t_buf (bb_dq a) ≠ i -> t_buf (bb_dk a) ≠ i -> t_buf (bb_dv a) ≠ i ->
  bufs (final (bwd_block a) w) !! i = bufs w1 !! i
  /\ exists new, trace (final (bwd_block a) w) = trace w ++ new
       /\ Forall (fun l => params_seqlen_q (fprop (fst l)) = stop
                           /\ softmax_lse_ptr (fprop (fst l))
                              = data_ptr (slice_tensor (bb_softmax_lse_ a) stop w)
                           /\ snd l !! i = bufs w1 !! i)
            (bwd_launches new).
Proof.
  intros Hr HK stop w1 Hi Hdq Hdk Hdv. subst stop w1.
  pose proof (mha_bwd_block_ok a w r Hr) as X. cbv zeta in X.
  destruct X as (_ & _ & _ & _ & _ & _ & ->).
  match goal with
  | |- context [block_dgrad_launch_world
                  (if _ then with_fprop ?p _ else _) (if _ then _ else ?w3)] =>
      set (p0 := p); set (W3 := w3)
  end.
  assert (H3 : bufs W3 !! i = bufs (slice_world (bb_softmax_lse_ a)
                                     (padded_max_seqlen_q (bb_max_seqlen_q_ a)) w) !! i).
  { subst W3. frame. }
  assert (T3 : trace W3 = trace w).
  { subst W3. autorewrite with world. reflexivity. }
  assert (HP : Some i ∉ dgrad_outputs p0).
  { subst p0. apply not_output_with_fprop.
    - apply not_output; try assumption.
      + apply new_tensor_at_ne. exact Hi.
      + rewrite fprop_dgrad_fields, o_tmp_ptr_fields.
        destruct (_ >? _); [ | discriminate ].
        cbn [alloc_tensor opt_ptr]. apply data_ptr_ne, new_tensor_at_ne. live.
    - cbn [with_blockmask o_tmp_ptr].
      rewrite fprop_dgrad_fields, o_tmp_ptr_fields.
      destruct (_ >? _); [ | discriminate ].
      cbn [alloc_tensor opt_ptr]. apply data_ptr_ne, new_tensor_at_ne. live. }
  assert (HL : softmax_lse_ptr (fprop p0)
               = data_ptr (slice_tensor (bb_softmax_lse_ a)
                             (padded_max_seqlen_q (bb_max_seqlen_q_ a)) w))
    by reflexivity.
  assert (HS : params_seqlen_q (fprop p0) = padded_max_seqlen_q (bb_max_seqlen_q_ a))
    by reflexivity.
  clearbody p0 W3.
  split.
  - rewrite bufs_block_dgrad_launch_world.
    rewrite block_dgrad_kernel_frame
      by first [ exact HK | rewrite outputs_dropout; exact HP ].
    rewrite bufs_dropout_reserve. exact H3.
  - eexists. split.
    + autorewrite with world. rewrite trace_dropout_reserve.
      rewrite T3, <- !app_assoc. reflexivity.
    + rewrite !bwd_launches_app, bwd_launches_dropout.
      cbn [bwd_launches flat_map app].
      repeat constructor; cbn [fst snd].
      * rewrite seqlen_q_dropout. exact HS.
      * rewrite softmax_lse_ptr_dropout. exact HL.
      * rewrite bufs_dropout_reserve. exact H3.
Qed.

End LogSumExp.

Section LogSumExpClaim.
Context `{KN : Kernels}.

(** The first [keep] elements of each of [rows] rows of [len]. *)
Lemma chunks_take_lookup (len keep : nat) :
  (0 < len)%nat -> (keep <= len)%nat ->
  forall (rows fuel : nat) (l : list cell),
    length l = (rows * len)%nat -> (rows <= fuel)%nat ->
    length (concat (take keep <$> chunks fuel len l)) = (rows * keep)%nat
    /\ forall r k : nat,
         (r < rows)%nat -> (k < keep)%nat ->
         concat (take keep <$> chunks fuel len l) !! (r * keep + k)%nat
         = l !! (r * len + k)%nat.
Proof.
  intros Hlen Hkeep rows. induction rows as [|rows IH]; intros fuel l Hl Hfuel.
  - destruct l; [ | discriminate Hl ].
    destruct fuel; cbn; (split; [ reflexivity | intros r k Hr; lia ]).
  - destruct fuel as [|fuel]; [ lia | ].
    destruct l as [|x l']; [ cbn in Hl; lia | ].
    set (l := x :: l') in *.
    change (chunks (S fuel) len l) with (take len l :: chunks fuel len (drop len l)).
    rewrite fmap_cons. cbn [concat].
    assert (Hll : (len <= length l)%nat) by (rewrite Hl; cbn; lia).
    assert (Ht : take keep (take len l) = take keep l)
      by (rewrite take_take; f_equal; lia).
    assert (Hk : length (take keep l) = keep) by (apply length_take_le; lia).
    destruct (IH fuel (drop len l)) as [IHl IHe].
    { rewrite length_drop, Hl. cbn. lia. }
    { lia. }
    rewrite Ht. split.
    + rewrite length_app, Hk, IHl. cbn. lia.
    + intros r k Hr Hk'. destruct r as [|r].
      * cbn [Nat.mul Nat.add]. rewrite lookup_app_l by lia.
        by apply lookup_take_lt.
      * rewrite lookup_app_r by (rewrite Hk; cbn; lia).
        rewrite Hk. replace (S r * keep + k - keep)%nat with (r * keep + k)%nat
          by (cbn; lia).
        rewrite IHe by lia. rewrite lookup_drop. f_equal. cbn. lia.
Qed.

Lemma take_rows_lookup (rows len keep : Z) (l : list cell) :
  0 <= rows -> 0 < len -> 0 <= keep <= len ->
  length l = Z.to_nat (rows * len) ->
  length (take_rows len keep l) = Z.to_nat (rows * keep)
  /\ forall r k : Z,
       0 <= r < rows -> 0 <= k < keep ->
       take_rows len keep l !! Z.to_nat (r * keep + k)
       = l !! Z.to_nat (r * len + k).
Proof.
  intros Hrows Hlen Hkeep Hl. unfold take_rows.
  destruct (len <=? 0) eqn:E; [ apply Z.leb_le in E; lia | clear E ].
  destruct (chunks_take_lookup (Z.to_nat len) (Z.to_nat keep) ltac:(lia) ltac:(lia)
              (Z.to_nat rows) (length l) l) as [Hlen' Hel].
  { rewrite Hl. apply Z2Nat.inj_mul; lia. }
  { rewrite Hl, Z2Nat.inj_mul by lia.
    assert (1 <= Z.to_nat len)%nat by lia. nia. }
  split.
  - rewrite Hlen'. symmetry. apply Z2Nat.inj_mul; lia.
  - intros r k Hr Hk.
    replace (Z.to_nat (r * keep + k))
      with (Z.to_nat r * Z.to_nat keep + Z.to_nat k)%nat
      by (rewrite Z2Nat.inj_add, Z2Nat.inj_mul by nia; reflexivity).
    replace (Z.to_nat (r * len + k))
      with (Z.to_nat r * Z.to_nat len + Z.to_nat k)%nat
      by (rewrite Z2Nat.inj_add, Z2Nat.inj_mul by nia; reflexivity).
    apply Hel; lia.
Qed.

(** The view the indexing makes, for a cut at a position that is not
    negative. *)
Lemma slice_view_cut (t : Tensor) (stop : Z) :
  (3 <= length (t_sizes t))%nat -> 0 <= stop ->
  slice_view t stop = lse_cut t (Z.min (size_at t 2) stop).
Proof.
  intros H3 Hs. unfold slice_view, lse_cut, slice_sizes, size_at.
  destruct (t_sizes t) as [|s0 [|s1 [|s2 inner]]]; cbn in H3; try lia.
  cbn [nth]. unfold slice_stop.
  destruct (stop <? 0) eqn:E; [ apply Z.ltb_lt in E; lia | ]. reflexivity.
Qed.

Lemma slice_contents_rows (t : Tensor) (stop : Z) (l : list cell) :
  (3 <= length (t_sizes t))%nat -> 0 <= stop ->
  Forall (Z.le 0) (t_sizes t) ->
  length l = Z.to_nat (numel t) ->
  is_contiguous (lse_cut t (Z.min (size_at t 2) stop)) = false ->
  let n := Z.min (size_at t 2) stop in
  let rows := size_at t 0 * size_at t 1 in
  let entry := prodZ (drop 3 (t_sizes t)) in
  length (slice_contents t stop l) = Z.to_nat (rows * (n * entry))
  /\ forall r k : Z,
       0 <= r < rows -> 0 <= k < n * entry ->
       slice_contents t stop l !! Z.to_nat (r * (n * entry) + k)
       = l !! Z.to_nat (r * (size_at t 2 * entry) + k).
Proof.
  intros H3 Hs Hpos Hl Hc. cbv zeta.
  unfold slice_contents, slice_stop.
  destruct (stop <? 0) eqn:E; [ apply Z.ltb_lt in E; lia | clear E ].
  revert Hl Hc. unfold is_contiguous, lse_cut, numel, size_at. cbn [t_sizes t_strides].
  destruct (t_sizes t) as [|s0 [|s1 [|s2 inner]]] eqn:Es; cbn in H3; try lia.
  change (<[2%nat := Z.min (nth 2 (s0 :: s1 :: s2 :: inner) 0) stop]>
            (s0 :: s1 :: s2 :: inner))
    with (s0 :: s1 :: Z.min s2 stop :: inner).
  change (drop 3 (s0 :: s1 :: s2 :: inner)) with inner.
  cbn [nth prodZ fold_right].
  change (fold_right Z.mul 1 inner) with (prodZ inner).
  rewrite !Forall_cons in Hpos. destruct Hpos as (P0 & P1 & P2 & Pin).
  assert (Pe : 0 <= prodZ inner).
  { clear -Pin. induction Pin as [|x l Hx _ IH]; cbn; [ lia | ].
    change (fold_right Z.mul 1 l) with (prodZ l). nia. }
  intros Hl.
  destruct (_ =? 0) eqn:E0; [ intros Hc; discriminate Hc | intros _ ].
  apply Z.eqb_neq in E0.
  set (m := Z.min s2 stop) in *.
  assert (Hm : 0 <= m <= s2) by (subst m; lia). clearbody m.
  set (e := prodZ inner) in *. clearbody e.
  assert (Q0 : 0 < s0)
    by (destruct (Z.eq_dec s0 0) as [->|]; [ exfalso; apply E0; ring | lia ]).
  assert (Q1 : 0 < s1)
    by (destruct (Z.eq_dec s1 0) as [->|]; [ exfalso; apply E0; ring | lia ]).
  assert (Q2 : 0 < m)
    by (destruct (Z.eq_dec m 0) as [->|]; [ exfalso; apply E0; ring | lia ]).
  assert (Q3 : 0 < e)
    by (destruct (Z.eq_dec e 0) as [->|]; [ exfalso; apply E0; ring | lia ]).
  apply take_rows_lookup.
  - nia.
  - nia.
  - split; [ nia | ]. apply Z.mul_le_mono_nonneg_r; lia.
  - rewrite Hl. f_equal. ring.
Qed.

(** From the frame of a returning backward call to the view its
    launchers are given of the caller's LogSumExp. *)
Lemma lse_view_of_frame (lse_ : Tensor) (stop : Z) (w : World)
    (dq dk dv : Tensor) (final_bufs : Store) (tr : list Event) :
  (3 <= length (t_sizes lse_))%nat -> 0 <= stop ->
  Forall (Z.le 0) (t_sizes lse_) ->
  length (contents lse_ (bufs w)) = Z.to_nat (numel lse_) ->
  is_Some (bufs w !! t_buf lse_) ->
  is_Some (bufs w !! t_buf dq) -> is_Some (bufs w !! t_buf dk) ->
  is_Some (bufs w !! t_buf dv) ->
  t_buf dq ≠ t_buf lse_ -> t_buf dk ≠ t_buf lse_ -> t_buf dv ≠ t_buf lse_ ->
  (forall i : nat,
     is_Some (bufs (slice_world lse_ stop w) !! i) ->
     t_buf dq ≠ i -> t_buf dk ≠ i -> t_buf dv ≠ i ->
     final_bufs !! i = bufs (slice_world lse_ stop w) !! i
     /\ exists new, tr = trace w ++ new
          /\ Forall (fun l => params_seqlen_q (fprop (fst l)) = stop
                              /\ softmax_lse_ptr (fprop (fst l))
                                 = data_ptr (slice_tensor lse_ stop w)
                              /\ snd l !! i = bufs (slice_world lse_ stop w) !! i)
               (bwd_launches new)) ->
  final_bufs !! t_buf lse_ = bufs w !! t_buf lse_
  /\ exists new, tr = trace w ++ new
       /\ Forall (lse_view lse_ stop w) (bwd_launches new).
Proof.
  intros H3 Hs Hpos Hlen Hl Lq Lk Lv Hq Hk Hv F.
  assert (Hl1 : bufs (slice_world lse_ stop w) !! t_buf lse_ = bufs w !! t_buf lse_)
    by (apply lookup_slice_world; exact Hl).
  assert (Hl' : is_Some (bufs (slice_world lse_ stop w) !! t_buf lse_))
    by (rewrite Hl1; exact Hl).
  destruct (F (t_buf lse_) Hl' Hq Hk Hv) as (Hfin & new & Htr & Hall).
  split; [ rewrite Hfin; exact Hl1 | ].
  exists new. split; [ exact Htr | ].
  pose proof (slice_view_cut lse_ stop H3 Hs) as Hcut.
  unfold lse_view. cbv zeta.
  destruct (is_contiguous (lse_cut lse_ (Z.min (size_at lse_ 2) stop))) eqn:Hw.
  - rewrite <- Hcut in Hw.
    eapply Forall_impl; [ exact Hall | ].
    intros [p st]. cbn [fst snd]. intros (Hsq & Hp & Hst).
    rewrite (slice_tensor_view _ _ _ Hw) in Hp.
    split; [ exact Hsq | ]. split; [ exact Hp | rewrite Hst; exact Hl1 ].
  - destruct (slice_contents_rows lse_ stop (contents lse_ (bufs w)) H3 Hs Hpos Hlen Hw)
      as [Clen Cel].
    rewrite <- Hcut in Hw.
    assert (Hf : is_Some (bufs (slice_world lse_ stop w) !! fresh (dom (bufs w))))
      by (rewrite (slice_world_fresh _ _ _ Hw); eauto).
    destruct (F (fresh (dom (bufs w))) Hf) as (_ & new' & Htr' & Hall').
    { intros E. symmetry in E. revert E. by apply fresh_live_ne. }
    { intros E. symmetry in E. revert E. by apply fresh_live_ne. }
    { intros E. symmetry in E. revert E. by apply fresh_live_ne. }
    rewrite Htr in Htr'. apply app_inv_head in Htr'. subst new'.
    eapply Forall_impl; [ exact Hall' | ].
    intros [p st]. cbn [fst snd]. intros (Hsq & Hp & Hst).
    split; [ exact Hsq | ].
    exists (fresh (dom (bufs w))), (slice_contents lse_ stop (contents lse_ (bufs w))).
    split; [ | split; [ | split; [ | split ] ] ].
    + rewrite Hp. unfold data_ptr. by rewrite (slice_tensor_fresh _ _ _ Hw).
    + apply fresh_not_live.
    + rewrite Hst. by apply slice_world_fresh.
    + exact Clen.
    + exact Cel.
Qed.


End LogSumExpClaim.
(** * Rounding in [SpecFloat] *)

Section FloatRounding.

Lemma floor_to_Z_finite (m : positive) (e : Z) :
  floor_to_Z (S754_finite false m e) = Some (floorZ (Zpos m) e).
Proof. reflexivity. Qed.

Lemma digits2_pos_bounds (p : positive) :
  2 ^ (Zpos (digits2_pos p) - 1) <= Zpos p < 2 ^ Zpos (digits2_pos p).
Proof.
  induction p as [p IH|p IH|]; cbn [digits2_pos].
  - rewrite Pos2Z.inj_succ.
    replace (Z.succ (Zpos (digits2_pos p)) - 1) with (Z.succ (Zpos (digits2_pos p) - 1))
      by lia.
    rewrite !Z.pow_succ_r by lia. rewrite (Pos2Z.inj_xI p).
    revert IH. generalize (2 ^ (Zpos (digits2_pos p) - 1)).
    generalize (2 ^ Zpos (digits2_pos p)). intros; lia.
  - rewrite Pos2Z.inj_succ.
    replace (Z.succ (Zpos (digits2_pos p)) - 1) with (Z.succ (Zpos (digits2_pos p) - 1))
      by lia.
    rewrite !Z.pow_succ_r by lia. rewrite (Pos2Z.inj_xO p).
    revert IH. generalize (2 ^ (Zpos (digits2_pos p) - 1)).
    generalize (2 ^ Zpos (digits2_pos p)). intros; lia.
  - cbn. lia.
Qed.

Lemma digits2_pos_unique (p : positive) (k : Z) :
  2 ^ (k - 1) <= Zpos p < 2 ^ k -> Zpos (digits2_pos p) = k.
Proof.
  intros [Hl Hu]. pose proof (digits2_pos_bounds p) as [Bl Bu].
  set (d := Zpos (digits2_pos p)) in *.
  assert (Hd : 0 < d) by (subst d; lia).
  destruct (Z.lt_trichotomy d k) as [Hlt|[Heq|Hgt]]; [ | exact Heq | ]; exfalso.
  - assert (2 ^ d <= 2 ^ (k - 1)) by (apply Z.pow_le_mono_r; lia). lia.
  - assert (2 ^ k <= 2 ^ (d - 1)) by (apply Z.pow_le_mono_r; lia). lia.
Qed.

Lemma shr_1_nonneg (m : Z) (r s : bool) :
  0 <= m ->
  shr_1 {| shr_m := m; shr_r := r; shr_s := s |}
  = {| shr_m := m / 2; shr_r := Z.odd m; shr_s := r || s |}.
Proof.
  intros Hm. rewrite <- Z.div2_div. destruct m as [|[p|p|]|p]; try lia; reflexivity.
Qed.

Lemma iter_pos_nat {A} (f : A -> A) (p : positive) (x : A) :
  SpecFloat.iter_pos f p x = Nat.iter (Pos.to_nat p) f x.
Proof.
  revert x. induction p as [p IH|p IH|]; intros x; cbn [SpecFloat.iter_pos].
  - rewrite !IH, Pos2Nat.inj_xI, <- Nat.iter_succ_r, <- Nat.iter_add.
    f_equal. lia.
  - rewrite !IH, Pos2Nat.inj_xO, <- Nat.iter_add. f_equal. lia.
  - reflexivity.
Qed.

(** [n + 1] halvings of [M]: the quotient, the last bit shifted out, and
    whether any bit before it was set. *)
Lemma shr_iter (M : Z) (n : nat) :
  0 <= M ->
  Nat.iter (S n) shr_1 {| shr_m := M; shr_r := false; shr_s := false |}
  = {| shr_m := M / 2 ^ Z.of_nat (S n);
       shr_r := Z.odd (M / 2 ^ Z.of_nat n);
       shr_s := negb (M mod 2 ^ Z.of_nat n =? 0) |}.
Proof.
  intros HM. induction n as [|n IH].
  - cbn [Nat.iter nat_rect]. rewrite shr_1_nonneg by exact HM.
    change (2 ^ Z.of_nat 1) with 2. change (2 ^ Z.of_nat 0) with 1.
    rewrite Z.div_1_r, Z.mod_1_r. reflexivity.
  - rewrite Nat.iter_succ, IH.
    assert (Hp : 0 < 2 ^ Z.of_nat n) by (apply Z.pow_pos_nonneg; lia).
    assert (Hp' : 0 < 2 ^ Z.of_nat (S n)) by (apply Z.pow_pos_nonneg; lia).
    rewrite shr_1_nonneg by (apply Z.div_pos; lia).
    f_equal.
    + rewrite Z.div_div by lia. f_equal.
      rewrite (Nat2Z.inj_succ (S n)), Z.pow_succ_r by lia. lia.
    + assert (E : 2 ^ Z.of_nat (S n) = 2 ^ Z.of_nat n * 2)
        by (rewrite Nat2Z.inj_succ, Z.pow_succ_r by lia; lia).
      rewrite E, Z.rem_mul_r by lia.
      pose proof (Z.mod_pos_bound M (2 ^ Z.of_nat n) Hp) as B1.
      rewrite Zmod_odd.
      destruct (Z.odd (M / 2 ^ Z.of_nat n)); cbn [orb].
      * symmetry. apply negb_true_iff, Z.eqb_neq. lia.
      * rewrite Z.mul_0_r, Z.add_0_r. reflexivity.
Qed.

Lemma round_nearest_even_cases (m : Z) (r s : bool) :
  let m' := round_nearest_even m
              (loc_of_shr_record {| shr_m := m; shr_r := r; shr_s := s |}) in
  m' = m \/ (m' = m + 1 /\ r = true).
Proof.
  destruct r, s; cbn; try (left; reflexivity); try (right; split; reflexivity).
  destruct (Z.even m); [ left | right ]; auto.
Qed.

Lemma floorZ_double (m e : Z) : floorZ (2 * m) e = floorZ m (e + 1).
Proof.
  unfold floorZ. destruct (0 <=? e) eqn:He.
  - apply Z.leb_le in He. replace (0 <=? e + 1) with true by (symmetry; apply Z.leb_le; lia).
    rewrite Z.pow_add_r by lia. change (2 ^ 1) with 2. lia.
  - apply Z.leb_gt in He. destruct (0 <=? e + 1) eqn:He'.
    + apply Z.leb_le in He'. assert (e = -1) by lia. subst e.
      change (2 ^ (- -1)) with 2. change (2 ^ (-1 + 1)) with 1.
      rewrite Z.mul_comm, Z.div_mul by lia. lia.
    + apply Z.leb_gt in He'.
      replace (- e) with (Z.succ (- (e + 1))) by lia.
      rewrite Z.pow_succ_r by lia.
      rewrite Z.div_mul_cancel_l; [ reflexivity | | lia ].
      apply Z.pow_nonzero; lia.
Qed.

Lemma floorZ_shift (m e k : Z) : 0 <= k -> floorZ (m * 2 ^ k) (e - k) = floorZ m e.
Proof.
  intros Hk. revert e. pattern k. apply natlike_ind; [ | | exact Hk ].
  - intros e. rewrite Z.mul_1_r, Z.sub_0_r. reflexivity.
  - intros x Hx IH e. rewrite Z.pow_succ_r by lia.
    replace (m * (2 * 2 ^ x)) with (2 * (m * 2 ^ x)) by lia.
    rewrite floorZ_double. replace (e - Z.succ x + 1) with (e - x) by lia. apply IH.
Qed.

End FloatRounding.

Section DoubleRounding.

Lemma shr_fexp_double (m : positive) (e : Z) (l : location) :
  shr_fexp 53 1024 (Zpos m) e l
  = shr (shr_record_of_loc (Zpos m) l) e
      (Z.max (Zpos (digits2_pos m) + e - 53) (-1074) - e).
Proof. reflexivity. Qed.

(** A 53-bit mantissa in the normal range is a [double] as it stands. *)
Lemma binary_round_aux_double_exact (P : positive) (E : Z) :
  Zpos (digits2_pos P) = 53 -> -1074 <= E <= 971 ->
  binary_round_aux 53 1024 false (Zpos P) E loc_Exact = S754_finite false P E.
Proof.
  intros Hd HE. unfold binary_round_aux.
  rewrite shr_fexp_double, Hd.
  replace (Z.max (53 + E - 53) (-1074) - E) with 0 by lia.
  cbn [shr shr_record_of_loc shr_m loc_of_shr_record round_nearest_even].
  rewrite shr_fexp_double, Hd.
  replace (Z.max (53 + E - 53) (-1074) - E) with 0 by lia.
  cbn [shr shr_record_of_loc shr_m].
  replace (E <=? 1024 - 53) with true by (symmetry; apply Z.leb_le; lia).
  reflexivity.
Qed.

Lemma odd_div_pow2 (M : Z) (n : nat) :
  M mod 2 ^ Z.of_nat (S n) = 0 -> Z.odd (M / 2 ^ Z.of_nat n) = false.
Proof.
  intros H0.
  assert (Hp : 0 < 2 ^ Z.of_nat n) by (apply Z.pow_pos_nonneg; lia).
  assert (E : 2 ^ Z.of_nat (S n) = 2 ^ Z.of_nat n * 2)
    by (rewrite Nat2Z.inj_succ, Z.pow_succ_r by lia; lia).
  rewrite E, Z.rem_mul_r in H0 by lia.
  pose proof (Z.mod_pos_bound M (2 ^ Z.of_nat n) Hp) as B1.
  rewrite Zmod_odd in H0.
  destruct (Z.odd (M / 2 ^ Z.of_nat n)); [ lia | reflexivity ].
Qed.

(** Rounding a positive mantissa of 53 bits or more to [double], away
    from the subnormal range and from overflow: the result is the
    mantissa cut to 53 bits, or that plus one if bits were lost. *)
Lemma binary_round_aux_double (P : positive) (E : Z) :
  let n := Zpos (digits2_pos P) - 53 in
  0 <= n -> -1074 <= E + n -> E + n < 971 ->
  exists (m' : positive) (e' mr : Z),
    binary_round_aux 53 1024 false (Zpos P) E loc_Exact = S754_finite false m' e'
    /\ floorZ (Zpos m') e' = floorZ mr (E + n)
    /\ (mr = Zpos P / 2 ^ n \/ (mr = Zpos P / 2 ^ n + 1 /\ Zpos P mod 2 ^ n <> 0)).
Proof.
  intros n Hn H1 H2.
  pose proof (digits2_pos_bounds P) as [Bl Bu].
  destruct n as [|q|q] eqn:Hq; [ | | lia ].
  - exists P, E, (Zpos P).
    rewrite binary_round_aux_double_exact by lia.
    rewrite Z.add_0_r, Z.div_1_r. auto.
  - assert (Hd : Zpos (digits2_pos P) = 53 + Zpos q) by lia.
    destruct (Pos2Nat.is_succ q) as [n' Hn'].
    assert (Hq' : Z.of_nat (S n') = Zpos q) by (rewrite <- Hn'; apply positive_nat_Z).
    unfold binary_round_aux.
    rewrite shr_fexp_double, Hd.
    replace (Z.max (53 + Zpos q + E - 53) (-1074) - E) with (Zpos q) by lia.
    cbn [shr shr_record_of_loc].
    rewrite iter_pos_nat, Hn', shr_iter by lia.
    rewrite Hq'.
    cbn [shr_m].
    set (mn := Zpos P / 2 ^ Zpos q).
    assert (Hpq : 0 < 2 ^ Zpos q) by (apply Z.pow_pos_nonneg; lia).
    assert (Bmn : 2 ^ 52 <= mn < 2 ^ 53).
    { rewrite Hd in Bl, Bu.
      replace (53 + Zpos q - 1) with (52 + Zpos q) in Bl by lia.
      rewrite Z.pow_add_r in Bl, Bu by lia.
      subst mn. split.
      - apply Z.div_le_lower_bound; lia.
      - apply Z.div_lt_upper_bound; lia. }
    pose proof (round_nearest_even_cases mn (Z.odd (Zpos P / 2 ^ Z.of_nat n'))
                  (negb (Zpos P mod 2 ^ Z.of_nat n' =? 0))) as Hr.
    cbv zeta in Hr.
    set (mr := round_nearest_even mn _) in *.
    assert (Hmr : mr = mn \/ (mr = mn + 1 /\ Zpos P mod 2 ^ Zpos q <> 0)).
    { destruct Hr as [Hr|[Hr Ho]]; [ left; exact Hr | right ].
      split; [ exact Hr | ]. intros H0. rewrite <- Hq' in H0.
      apply odd_div_pow2 in H0. congruence. }
    clearbody mr. clear Hr.
    assert (Bmr : 2 ^ 52 <= mr <= 2 ^ 53) by lia.
    destruct mr as [|pm|pm]; [ lia | | lia ].
    rewrite shr_fexp_double.
    destruct (Z.eq_dec (Zpos pm) (2 ^ 53)) as [Hc|Hc].
    + assert (Hpm : pm = 9007199254740992%positive) by (injection Hc as ->; reflexivity).
      subst pm.
      exists 4503599627370496%positive, (E + Zpos q + 1), (2 ^ 53).
      split; [ | split ].
      * change (Zpos (digits2_pos 9007199254740992)) with 54.
        replace (Z.max (54 + (E + Zpos q) - 53) (-1074) - (E + Zpos q)) with 1 by lia.
        cbn [shr shr_record_of_loc SpecFloat.iter_pos].
        rewrite shr_1_nonneg by lia. cbn [shr_m].
        change (9007199254740992 / 2) with 4503599627370496.
        replace (E + Zpos q + 1 <=? 1024 - 53) with true
          by (symmetry; apply Z.leb_le; lia).
        reflexivity.
      * change (2 ^ 53) with (2 * 4503599627370496).
        rewrite floorZ_double. reflexivity.
      * exact Hmr.
    + assert (Hdm : Zpos (digits2_pos pm) = 53)
        by (apply digits2_pos_unique; change (53 - 1) with 52; lia).
      exists pm, (E + Zpos q), (Zpos pm).
      split; [ | split ].
      * rewrite Hdm.
        replace (Z.max (53 + (E + Zpos q) - 53) (-1074) - (E + Zpos q)) with 0 by lia.
        cbn [shr shr_record_of_loc shr_m].
        replace (E + Zpos q <=? 1024 - 53) with true
          by (symmetry; apply Z.leb_le; lia).
        reflexivity.
      * reflexivity.
      * exact Hmr.
Qed.

End DoubleRounding.

Section Thresholds.

Lemma bounded_float (m : positive) (e : Z) :
  bounded 24 128 m e = true -> Zpos (digits2_pos m) <= 24 /\ -149 <= e <= 104.
Proof.
  unfold bounded, canonical_mantissa, fexp, emin. intros H.
  apply andb_prop in H as [H1 H2]. apply Z.eqb_eq in H1. apply Z.leb_le in H2. lia.
Qed.

(** The conversion of a [float] to [double] is exact: the mantissa is
    shifted up to 53 bits. *)
Lemma float_to_double_finite (m : positive) (e : Z) :
  bounded 24 128 m e = true ->
  exists mz : positive,
    float_to_double (S754_finite false m e)
    = S754_finite false mz (e + Zpos (digits2_pos m) - 53)
    /\ Zpos mz = Zpos m * 2 ^ (53 - Zpos (digits2_pos m))
    /\ Zpos (digits2_pos mz) = 53.
Proof.
  intros Hb. apply bounded_float in Hb as [Hd He].
  pose proof (digits2_pos_bounds m) as [Bl Bu].
  set (d := Zpos (digits2_pos m)) in *.
  assert (Hd0 : 0 < d) by (subst d; lia).
  unfold float_to_double, binary_round.
  change (fexp 53 1024 (Zpos (digits2_pos m) + e)) with (Z.max (d + e - 53) (-1074)).
  replace (Z.max (d + e - 53) (-1074)) with (d + e - 53) by lia.
  unfold shl_align.
  destruct (d + e - 53 - e) as [|q|q] eqn:Hq; [ lia | lia | ].
  assert (Hq' : Zpos q = 53 - d) by lia.
  assert (Hmz : Zpos (Pos.iter xO m q) = Zpos m * 2 ^ (53 - d)).
  { change (Pos.iter xO m q) with (Zpower.shift_pos q m).
    rewrite Zpower.shift_pos_correct. rewrite <- Hq'.
    change (Z.pow_pos 2 q) with (2 ^ Zpos q). lia. }
  assert (Hp : 0 < 2 ^ (53 - d)) by (apply Z.pow_pos_nonneg; lia).
  assert (Hdz : Zpos (digits2_pos (Pos.iter xO m q)) = 53).
  { apply digits2_pos_unique. rewrite Hmz. change (53 - 1) with 52.
    assert (E1 : 2 ^ 52 = 2 ^ (d - 1) * 2 ^ (53 - d))
      by (rewrite <- Z.pow_add_r by lia; f_equal; lia).
    assert (E2 : 2 ^ 53 = 2 ^ d * 2 ^ (53 - d))
      by (rewrite <- Z.pow_add_r by lia; f_equal; lia).
    rewrite E1, E2.
    split; [ apply Z.mul_le_mono_nonneg_r | apply Z.mul_lt_mono_pos_r ]; lia. }
  exists (Pos.iter xO m q).
  rewrite binary_round_aux_double_exact by lia.
  replace (e + d - 53) with (d + e - 53) by lia. auto.
Qed.

(** The floor of the [double] product of a [float] below one with a
    constant [K * 2^j] of 53 bits is the floor of the exact product, as
    long as rounding the product up could not reach the next integer. *)
Lemma scaled_floor (m : positive) (e : Z) (C : positive) (K j : Z) :
  bounded 24 128 m e = true -> e < 0 -> Zpos m < 2 ^ (- e) ->
  Zpos (digits2_pos C) = 53 -> Zpos C = K * 2 ^ j -> 0 <= j <= 52 -> 0 < K ->
  (forall k : Z, 0 < k -> 2 ^ (52 + k) <= Zpos m * K < 2 ^ (53 + k) ->
     e + k < 0
     /\ (Zpos m * K / 2 ^ k + 1) / 2 ^ (- e - k) = Zpos m * K / 2 ^ (- e)) ->
  floor_to_Z (f64_mul (float_to_double (S754_finite false m e)) (S754_finite false C (- j)))
  = Some (Zpos m * K / 2 ^ (- e)).
Proof.
  intros Hb He Hm HdC HC Hj HK Hsafe.
  destruct (float_to_double_finite m e Hb) as (mz & -> & Hmz & Hdz).
  pose proof (bounded_float m e Hb) as [Hd Hebound].
  pose proof (digits2_pos_bounds mz) as Bz. rewrite Hdz in Bz.
  pose proof (digits2_pos_bounds C) as BC. rewrite HdC in BC.
  change (53 - 1) with 52 in Bz, BC.
  set (d := Zpos (digits2_pos m)) in *.
  assert (Hd0 : 0 < d) by (subst d; lia).
  set (X := Zpos m * K) in *.
  set (sh := 53 - d + j).
  unfold f64_mul, SFmul. cbn [xorb].
  set (P := (mz * C)%positive).
  assert (HP : Zpos P = X * 2 ^ sh).
  { subst P X sh. rewrite Pos2Z.inj_mul, Hmz, HC, Z.pow_add_r by lia. ring. }
  replace (e + d - 53 + - j) with (e - sh) by (subst sh; lia).
  pose proof (digits2_pos_bounds P) as [Pl Pu].
  set (dP := Zpos (digits2_pos P)) in *.
  assert (BP : 2 ^ 104 <= Zpos P < 2 ^ 106).
  { subst P. rewrite Pos2Z.inj_mul.
    change (2 ^ 104) with (2 ^ 52 * 2 ^ 52). change (2 ^ 106) with (2 ^ 53 * 2 ^ 53).
    nia. }
  assert (HdP : 105 <= dP <= 106).
  { split.
    - assert (104 < dP); [ | lia ]. apply (Z.pow_lt_mono_r_iff 2); lia.
    - assert (dP - 1 < 106); [ | lia ]. apply (Z.pow_lt_mono_r_iff 2); lia. }
  destruct (binary_round_aux_double P (e - sh)) as (m' & e' & mr & -> & Hfl & Hmr);
    fold dP; try (subst sh; lia).
  fold dP in Hfl, Hmr.
  rewrite floor_to_Z_finite, Hfl. f_equal.
  set (n := dP - 53) in *.
  assert (Hsh : 0 <= sh) by (subst sh; lia).
  assert (HX : 0 < X) by (subst X; lia).
  destruct (Z_le_gt_dec n sh) as [Hle|Hgt].
  - assert (Hdiv : Zpos P = X * 2 ^ (sh - n) * 2 ^ n).
    { rewrite HP, <- Z.mul_assoc, <- Z.pow_add_r by lia. do 2 f_equal. lia. }
    assert (Hpn : 0 < 2 ^ n) by (apply Z.pow_pos_nonneg; lia).
    assert (Hq : Zpos P / 2 ^ n = X * 2 ^ (sh - n))
      by (rewrite Hdiv; apply Z.div_mul; lia).
    assert (Hr : Zpos P mod 2 ^ n = 0)
      by (rewrite Hdiv; apply Z.mod_mul; lia).
    destruct Hmr as [->|[_ Hne]]; [ | contradiction ].
    rewrite Hq. replace (e - sh + n) with (e - (sh - n)) by lia.
    rewrite floorZ_shift by lia.
    unfold floorZ. replace (0 <=? e) with false by (symmetry; apply Z.leb_gt; lia).
    reflexivity.
  - set (k := n - sh).
    assert (Hk : 0 < k) by (subst k; lia).
    assert (Hpk : 0 < 2 ^ k) by (apply Z.pow_pos_nonneg; lia).
    assert (Hps : 0 < 2 ^ sh) by (apply Z.pow_pos_nonneg; lia).
    assert (Hn : 2 ^ n = 2 ^ k * 2 ^ sh)
      by (rewrite <- Z.pow_add_r by lia; f_equal; subst k; lia).
    assert (Hq : Zpos P / 2 ^ n = X / 2 ^ k)
      by (rewrite HP, Hn; apply Z.div_mul_cancel_r; lia).
    assert (BX : 2 ^ (52 + k) <= X < 2 ^ (53 + k)).
    { replace (dP - 1) with (52 + k + sh) in Pl by (subst k n; lia).
      replace dP with (53 + k + sh) in Pu by (subst k n; lia).
      rewrite HP in Pl, Pu. rewrite Z.pow_add_r in Pl, Pu by lia.
      split; nia. }
    destruct (Hsafe k Hk BX) as [Hek Hup].
    replace (e - sh + n) with (e + k) by (subst k; lia).
    unfold floorZ. replace (0 <=? e + k) with false by (symmetry; apply Z.leb_gt; lia).
    replace (- (e + k)) with (- e - k) by lia.
    destruct Hmr as [->|[-> _]]; rewrite Hq.
    + rewrite Z.div_div by (try apply Z.pow_pos_nonneg; lia).
      rewrite <- Z.pow_add_r by lia. do 2 f_equal. lia.
    + exact Hup.
Qed.

End Thresholds.

Section ThresholdClaim.
Context `{RT : Runtime}.

(** Adding one to [Y] does not change [Y / B] unless [Y + 1] is a
    multiple of [B]. *)
Lemma div_succ_same (Y B : Z) :
  0 < B -> (Y + 1) mod B <> 0 -> (Y + 1) / B = Y / B.
Proof.
  intros HB Hne.
  pose proof (Z.div_mod (Y + 1) B ltac:(lia)) as E1.
  pose proof (Z.mod_pos_bound (Y + 1) B HB) as B1.
  apply (Z.div_unique Y B ((Y + 1) / B) ((Y + 1) mod B - 1)); lia.
Qed.

(** For the multiplier [2^32 - 1]: where the product has more than 53
    bits, rounding it up cannot reach the next integer. *)
Lemma round_up_safe_32 (m : positive) (e k : Z) :
  Zpos (digits2_pos m) <= 24 -> e < 0 -> Zpos m < 2 ^ (- e) ->
  0 < k -> 2 ^ (52 + k) <= Zpos m * 4294967295 < 2 ^ (53 + k) ->
  e + k < 0
  /\ (Zpos m * 4294967295 / 2 ^ k + 1) / 2 ^ (- e - k)
     = Zpos m * 4294967295 / 2 ^ (- e).
Proof.
  intros Hd He Hm Hk [Xl Xu].
  pose proof (digits2_pos_bounds m) as [_ Bu].
  assert (Hm24 : Zpos m < 2 ^ 24).
  { eapply Z.lt_le_trans; [ exact Bu | ]. apply Z.pow_le_mono_r; lia. }
  assert (Hk3 : k <= 3).
  { assert (52 + k < 56); [ | lia ]. apply (Z.pow_lt_mono_r_iff 2); [ lia | lia | ].
    eapply Z.le_lt_trans; [ exact Xl | ].
    change (2 ^ 56) with (2 ^ 24 * 4294967296). nia. }
  assert (Hm21 : 2 ^ 21 < Zpos m).
  { assert (2 ^ 53 <= Zpos m * 4294967295).
    { eapply Z.le_trans; [ | exact Xl ]. apply Z.pow_le_mono_r; lia. }
    change (2 ^ 53) with (2 ^ 21 * 4294967296) in H. nia. }
  set (a := - e) in *.
  assert (Ha : 22 <= a).
  { assert (21 < a); [ | lia ]. apply (Z.pow_lt_mono_r_iff 2); lia. }
  split; [ lia | ].
  set (X := Zpos m * 4294967295) in *.
  replace (- e - k) with (a - k) by lia.
  assert (Hpk : 0 < 2 ^ k) by (apply Z.pow_pos_nonneg; lia).
  assert (Hpb : 0 < 2 ^ (a - k)) by (apply Z.pow_pos_nonneg; lia).
  assert (Hpa : 2 ^ a = 2 ^ k * 2 ^ (a - k))
    by (rewrite <- Z.pow_add_r by lia; f_equal; lia).
  rewrite Hpa, <- Z.div_div by lia.
  apply div_succ_same; [ exact Hpb | ].
  intros H0. apply Z.mod_divide in H0; [ | lia ]. destruct H0 as [t Ht].
  pose proof (Z.div_mod X (2 ^ k) ltac:(lia)) as EX.
  pose proof (Z.mod_pos_bound X (2 ^ k) Hpk) as BX.
  set (s := X mod 2 ^ k) in *. set (Y := X / 2 ^ k) in *.
  assert (Hk8 : 2 ^ k <= 8).
  { change 8 with (2 ^ 3). apply Z.pow_le_mono_r; lia. }
  (* t * 2^a - X = 2^k - s, with X = m * 2^32 - m *)
  assert (Hdelta : Zpos m - (2 ^ k - s) = Zpos m * 4294967296 - t * 2 ^ a).
  { rewrite Hpa. subst X. nia. }
  assert (Hpos : 0 < Zpos m - (2 ^ k - s)) by (change (2 ^ 21) with 2097152 in Hm21; lia).
  destruct (Z_le_gt_dec a 32) as [Ha32|Ha32].
  - assert (E32 : 4294967296 = 2 ^ a * 2 ^ (32 - a))
      by (rewrite <- Z.pow_add_r by lia; replace (a + (32 - a)) with 32 by lia; reflexivity).
    assert (Hpa' : 0 < 2 ^ a) by (apply Z.pow_pos_nonneg; lia).
    assert (Hz : Zpos m - (2 ^ k - s) = 2 ^ a * (Zpos m * 2 ^ (32 - a) - t))
      by (rewrite Hdelta, E32; ring).
    set (z := Zpos m * 2 ^ (32 - a) - t) in *.
    assert (z <= 0 \/ 1 <= z) as [Hz0|Hz1] by lia; nia.
  - assert (Ea : 2 ^ a = 4294967296 * 2 ^ (a - 32))
      by (change 4294967296 with (2 ^ 32); rewrite <- Z.pow_add_r by lia; f_equal; lia).
    assert (Hz : Zpos m - (2 ^ k - s) = 4294967296 * (Zpos m - t * 2 ^ (a - 32)))
      by (rewrite Hdelta, Ea; ring).
    set (z := Zpos m - t * 2 ^ (a - 32)) in *.
    change (2 ^ 24) with 16777216 in Hm24.
    assert (z <= 0 \/ 1 <= z) as [Hz0|Hz1] by lia; nia.
Qed.

Lemma dropout_in_uint_floor (m : positive) (e : Z) :
  bounded 24 128 m e = true -> e < 0 -> Zpos m < 2 ^ (- e) ->
  dropout_in_uint (S754_finite false m e) = Zpos m * 4294967295 / 2 ^ (- e).
Proof.
  intros Hb He Hm. unfold dropout_in_uint.
  change f64_4294967295 with (S754_finite false 9007199252643840 (Z.opp 21)).
  rewrite (scaled_floor m e 9007199252643840 4294967295 21 Hb He Hm);
    [ | reflexivity | reflexivity | lia | lia | ].
  - unfold to_uint32. apply Z.mod_small.
    assert (Hp : 0 < 2 ^ (- e)) by (apply Z.pow_pos_nonneg; lia).
    split; [ apply Z.div_pos; lia | ].
    apply Z.div_lt_upper_bound; [ exact Hp | ]. nia.
  - intros k Hk HX. apply round_up_safe_32; try assumption.
    apply (bounded_float m e Hb).
Qed.

Lemma dropout_in_uint16_t_floor (m : positive) (e : Z) :
  bounded 24 128 m e = true -> e < 0 -> Zpos m < 2 ^ (- e) ->
  dropout_in_uint16_t (S754_finite false m e) = Zpos m * 65535 / 2 ^ (- e).
Proof.
  intros Hb He Hm. unfold dropout_in_uint16_t.
  change f64_65535 with (S754_finite false 9007061815787520 (Z.opp 37)).
  rewrite (scaled_floor m e 9007061815787520 65535 37 Hb He Hm);
    [ | reflexivity | reflexivity | lia | lia | ].
  - unfold to_uint16. apply Z.mod_small.
    assert (Hp : 0 < 2 ^ (- e)) by (apply Z.pow_pos_nonneg; lia).
    split; [ apply Z.div_pos; lia | ].
    apply Z.div_lt_upper_bound; [ exact Hp | ]. nia.
  - intros k Hk [HX _]. exfalso.
    pose proof (bounded_float m e Hb) as [Hd _].
    pose proof (digits2_pos_bounds m) as [_ Bu].
    assert (Hm24 : Zpos m < 2 ^ 24).
    { eapply Z.lt_le_trans; [ exact Bu | ]. apply Z.pow_le_mono_r; lia. }
    assert (2 ^ 53 <= 2 ^ (52 + k)) by (apply Z.pow_le_mono_r; lia).
    change (2 ^ 24) with 16777216 in Hm24.
    change (2 ^ 53) with 9007199254740992 in H. lia.
Qed.

(** C3, amended. The thresholds that [set_params_fprop] stores for a
    keep probability [m * 2^e] strictly between 0 and 1 (a [float]) are
    [floor (keep * (2^32 - 1))] and [floor (keep * (2^16 - 1))]: the
    multipliers are [4294967295.0] and [65535.0], not [2^32] and [2^16],
    and the rounding of the [double] product does not change the floor. *)
Theorem C3_dropout_thresholds (b seqlen_q seqlen_k h d : Z) (q k v out : Tensor)
    (cu_seqlens_q_d cu_seqlens_k_d o_tmp_d s_d softmax_lse_d : ptr)
    (p_dropout softmax_scale : float) (is_causal : bool) (num_splits : Z)
    (m : positive) (e : Z) :
  let params :=
    fprop_fields b seqlen_q seqlen_k h d q k v out cu_seqlens_q_d cu_seqlens_k_d
      o_tmp_d s_d softmax_lse_d p_dropout softmax_scale is_causal num_splits in
  params_p_dropout params = S754_finite false m e ->
  bounded 24 128 m e = true -> e < 0 -> Zpos m < 2 ^ (- e) ->
  p_dropout_in_uint params = Zpos m * (2 ^ 32 - 1) / 2 ^ (- e)
  /\ p_dropout_in_uint16_t params = Zpos m * (2 ^ 16 - 1) / 2 ^ (- e).
Proof.
  intros params Hkeep Hb He Hm. subst params.
  unfold fprop_fields in *.
  cbn [params_p_dropout p_dropout_in_uint p_dropout_in_uint16_t] in *.
  rewrite Hkeep. split.
  - apply dropout_in_uint_floor; assumption.
  - apply dropout_in_uint16_t_floor; assumption.
Qed.

End ThresholdClaim.

(** * Concrete calls *)

(** The dense forward call without dropout leaves the generator alone. *)
Lemma C10_witness :
  SFeqb (call_p_dropout (ex_fwd 8 16 16 f32_zero true true)) f64_zero = true
  /\ gens (final (ex_fwd 8 16 16 f32_zero true true) (ex_world 8 0 8))
     = gens (ex_world 8 0 8)
  /\ reservations (trace (final (ex_fwd 8 16 16 f32_zero true true) (ex_world 8 0 8)))
     = reservations (trace (ex_world 8 0 8)).
Proof.
  split; [ reflexivity | ].
  apply (C10_no_dropout_leaves_generator (ex_fwd 8 16 16 f32_zero true true)
           (ex_world 8 0 8)).
  reflexivity.
Defined.

(** A dropout probability of one is rejected. *)
Lemma C6_witness :
  f32_ltb (call_p_dropout (ex_bwd 8 16 16 f32_one false 1)) f32_one = false
  /\ exists msg,
       result (ex_bwd 8 16 16 f32_one false 1) (ex_world 8 0 8) = Raise msg
       /\ dispatches (trace (final (ex_bwd 8 16 16 f32_one false 1) (ex_world 8 0 8)))
          = dispatches (trace (ex_world 8 0 8)).
Proof.
  split; [ reflexivity | ].
  apply (C6_dropout_not_below_one_raises (ex_bwd 8 16 16 f32_one false 1)
           (ex_world 8 0 8)).
  reflexivity.
Defined.

(** C6 as stated fails: with [p_dropout = 0] the keep probability is
    [1.f - 0.f = 1.f], which is not below one, and [mha_fwd] accepts the
    call and dispatches its kernel. *)
Lemma C6_counterexample :
  f32_sub f32_one (call_p_dropout (ex_fwd 8 16 16 f32_zero false false)) = f32_one
  /\ f32_ltb (f32_sub f32_one (call_p_dropout (ex_fwd 8 16 16 f32_zero false false)))
       f32_one = false
  /\ (exists r, result (ex_fwd 8 16 16 f32_zero false false) (ex_world 8 0 8) = Ok r)
  /\ dispatches (trace (final (ex_fwd 8 16 16 f32_zero false false) (ex_world 8 0 8)))
     = [fmha_fwd_hdim32]
  /\ (params_p_dropout <$>
        flat_map launched_params
          (trace (final (ex_fwd 8 16 16 f32_zero false false) (ex_world 8 0 8))))
     = [f32_one].
Proof.
  split; [ reflexivity | ]. split; [ reflexivity | ].
  split; [ eexists; vm_compute; reflexivity | ].
  split; vm_compute; reflexivity.
Qed.

(** A block-sparse call with head dimension 8 is rejected. *)
Lemma C9_witness :
  is_block_sparse (ex_fwd_block 8 f32_zero) = true
  /\ ~ In (head_size_of (call_q (ex_fwd_block 8 f32_zero))) [16; 32; 64; 128]
  /\ exists msg,
       result (ex_fwd_block 8 f32_zero) (ex_world 8 0 8) = Raise msg
       /\ trace (final (ex_fwd_block 8 f32_zero) (ex_world 8 0 8))
          = trace (ex_world 8 0 8).
Proof.
  assert (Hh : ~ In (head_size_of (call_q (ex_fwd_block 8 f32_zero))) [16; 32; 64; 128])
    by (vm_compute; intros [H|[H|[H|[H|[]]]]]; discriminate H).
  split; [ reflexivity | ]. split; [ exact Hh | ].
  apply (C9_block_head_size_validated (ex_fwd_block 8 f32_zero) (ex_world 8 0 8)).
  - reflexivity.
  - exact Hh.
Defined.

(** The dense backward call reserves [1 * 1 * 32]. *)
Lemma C1_witness :
  let c := ex_bwd 8 16 16 f32_half false 1 in
  let w := ex_world 8 0 8 in
  (exists r, result c w = Ok r)
  /\ is_dropout_of (call_p_dropout c) = true
  /\ (is_block_sparse c = false ->
      fits_int (batch_size_of (call_cu_seqlens_q c) * num_heads_of (call_q c) * 32))
  /\ exists new off,
       trace (final c w) = trace w ++ new
       /\ reservations new = [(gen_ref (call_gen_ c), off)]
       /\ counter_offset_spec c new off.
Proof.
  intros c w.
  assert (F : is_block_sparse c = false ->
              fits_int (batch_size_of (call_cu_seqlens_q c) * num_heads_of (call_q c) * 32))
    by (intros _; vm_compute; split; discriminate).
  split; [ eexists; vm_compute; reflexivity | ]. split; [ reflexivity | ].
  split; [ exact F | ].
  eapply (C1_counter_offset c w).
  - vm_compute. reflexivity.
  - reflexivity.
  - exact F.
Defined.

(** C1 as stated fails for the block-sparse backward: with one sequence
    and one head the claim asks for an offset of 32, and [mha_bwd_block]
    reserves 4. *)
Lemma C1_counterexample :
  (exists r, result (ex_bwd_block 16 f32_half) (ex_world 8 0 16) = Ok r)
  /\ is_dropout_of (call_p_dropout (ex_bwd_block 16 f32_half)) = true
  /\ batch_size_of (call_cu_seqlens_q (ex_bwd_block 16 f32_half))
     * num_heads_of (call_q (ex_bwd_block 16 f32_half)) * 32 = 32
  /\ reservations (trace (final (ex_bwd_block 16 f32_half) (ex_world 8 0 16)))
     = [(None, 4)].
Proof.
  split; [ eexists; vm_compute; reflexivity | ].
  repeat split; vm_compute; reflexivity.
Qed.

(** The stand-in kernels keep the contract on device memory. *)
Lemma lookup_overwrite (p : ptr) (st : Store) (i : nat) :
  p ≠ Some i -> overwrite p st !! i = st !! i.
Proof.
  destruct p as [b|]; cbn [overwrite]; [ | reflexivity ].
  intros Hne. apply lookup_alter_ne. congruence.
Qed.

Lemma ex_kernels_write_outputs_only : bwd_kernels_write_outputs_only (KN := ex_kernels).
Proof.
  intros p st i Hi. unfold dgrad_outputs in Hi.
  rewrite !not_elem_of_cons in Hi. destruct Hi as (H1 & H2 & H3 & H4 & H5 & _).
  assert (E : ex_bwd_kernel p st !! i = st !! i).
  { unfold ex_bwd_kernel. rewrite !lookup_overwrite by congruence. reflexivity. }
  split; [ intros k | ]; exact E.
Qed.

(** C7 fails in the code: a dense forward call with [zero_tensors] set
    and a dropout probability of one passes every check of [mha_fwd],
    zero-fills the caller's [out] (buffer 3, which held [0.5]
    everywhere), and is then rejected by [set_params_fprop]. No kernel
    was dispatched, but the caller's buffer has changed. *)
Theorem C7_zero_fill_precedes_dropout_check :
  result (ex_fwd 8 16 16 f32_one true false) (ex_world 8 0 8) = Raise "p_dropout < 1.f"
  /\ dispatches (trace (final (ex_fwd 8 16 16 f32_one true false) (ex_world 8 0 8))) = []
  /\ bufs (ex_world 8 0 8) !! t_buf (ex_qkv kFloat16 8 3)
     = Some (replicate 16 half_cell)
  /\ bufs (final (ex_fwd 8 16 16 f32_one true false) (ex_world 8 0 8))
       !! t_buf (ex_qkv kFloat16 8 3)
     = Some (replicate 16 zero_cell).
Proof. repeat split; vm_compute; reflexivity. Qed.

(** C2 as stated fails for the backward call on an sm75 device: with a
    head dimension of 64 the claim's tile is 256 and the padded key
    length for 300 would be 512; [mha_bwd] tiles by 128 and pads to
    384. *)
Lemma C2_counterexample :
  (exists r, result (ex_bwd 64 16 300 f32_zero false 1) (ex_world 7 5 64) = Ok r)
  /\ head_size_of (call_q (ex_bwd 64 16 300 f32_zero false 1)) = 64
  /\ call_max_seqlen_k_ (ex_bwd 64 16 300 f32_zero false 1) = 300
  /\ launched_seqlens
       (trace (final (ex_bwd 64 16 300 f32_zero false 1) (ex_world 7 5 64)))
     = [(16, 384); (16, 384)]
  /\ ~ rounds_up 300 (if 64 >? 64 then 128 else 256) 384.
Proof.
  split; [ eexists; vm_compute; reflexivity | ].
  split; [ reflexivity | ]. split; [ reflexivity | ].
  split; [ vm_compute; reflexivity | ].
  intros [[z Hz] _]. cbn in Hz. lia.
Qed.

Lemma C2_witness :
    (exists r, result (ex_bwd 64 16 300 f32_zero false 1) (ex_world 7 5 64) = Ok r)
    /\ is_block_sparse (ex_bwd 64 16 300 f32_zero false 1) = false
    /\ -16 < call_max_seqlen_q_ (ex_bwd 64 16 300 f32_zero false 1) <= INT_MAX - 16
    /\ call_max_seqlen_k_ (ex_bwd 64 16 300 f32_zero false 1) <= INT_MAX - 256
    /\ exists sq sk p ps,
         flat_map launched_params
           (trace (final (ex_bwd 64 16 300 f32_zero false 1) (ex_world 7 5 64)))
         = flat_map launched_params (trace (ex_world 7 5 64)) ++ p :: ps
         /\ Forall (fun p' => params_seqlen_q p' = sq /\ params_seqlen_k p' = sk) (p :: ps)
         /\ rounds_up 16 16 sq
         /\ rounds_up 300 128 sk
         /\ (is_Some (o_tmp_ptr p) <-> 128 < sk).
Proof.
  split; [ eexists; vm_compute; reflexivity | ].
  split; [ reflexivity | ].
  split; [ vm_compute; split; [ reflexivity | discriminate ] | ].
  split; [ vm_compute; discriminate | ].
  eapply (C2_tiling_parameters (ex_bwd 64 16 300 f32_zero false 1) (ex_world 7 5 64)).
  - vm_compute. reflexivity.
  - reflexivity.
  - vm_compute. split; [ reflexivity | discriminate ].
  - vm_compute. discriminate.
Defined.

(** C3 as stated fails: for the keep probability 0.5 the claim's
    thresholds are [floor (0.5 * 2^32) = 2^31] and [2^15]; the call is
    launched with [2^31 - 1] and [2^15 - 1]. *)
Lemma C3_counterexample :
  (params_p_dropout <$>
     flat_map launched_params
       (trace (final (ex_fwd 8 16 16 f32_half true true) (ex_world 8 0 8))))
  = [S754_finite false 8388608 (-24)]
  /\ launched_thresholds
       (trace (final (ex_fwd 8 16 16 f32_half true true) (ex_world 8 0 8)))
     = [(2147483647, 32767)]
  /\ 8388608 * 2 ^ 32 / 2 ^ 24 = 2147483648
  /\ 8388608 * 2 ^ 16 / 2 ^ 24 = 32768.
Proof. repeat split; vm_compute; reflexivity. Qed.

Lemma C3_witness :
  let params :=
    fprop_fields 1 16 128 1 8 (ex_qkv kFloat16 8 0) (ex_qkv kFloat16 8 1)
      (ex_qkv kFloat16 8 2) (ex_qkv kFloat16 8 3) (Some 9%nat) (Some 10%nat)
      None None (Some 12%nat) f32_half f32_one false 1 in
  params_p_dropout params = S754_finite false 8388608 (-24)
  /\ bounded 24 128 8388608 (-24) = true
  /\ -24 < 0
  /\ Zpos 8388608 < 2 ^ (- -24)
  /\ p_dropout_in_uint params = Zpos 8388608 * (2 ^ 32 - 1) / 2 ^ (- -24)
  /\ p_dropout_in_uint16_t params = Zpos 8388608 * (2 ^ 16 - 1) / 2 ^ (- -24).
Proof.
  intros params.
  split; [ reflexivity | ]. split; [ reflexivity | ].
  split; [ lia | ]. split; [ reflexivity | ].
  apply (C3_dropout_thresholds 1 16 128 1 8 (ex_qkv kFloat16 8 0) (ex_qkv kFloat16 8 1)
           (ex_qkv kFloat16 8 2) (ex_qkv kFloat16 8 3) (Some 9%nat) (Some 10%nat)
           None None (Some 12%nat) f32_half f32_one false 1 8388608 (-24)).
  - reflexivity.
  - reflexivity.
  - lia.
  - reflexivity.
Defined.


Lemma C5_witness :
  exists r,
    result (ex_fwd 8 16 16 f32_half true true) (ex_world 8 0 8) = Ok r
    /\ is_Some (bufs (ex_world 8 0 8) !! t_buf (ex_qkv kFloat16 8 3))
    /\ exists pre k lp st softmax_lse rest,
         trace (final (ex_fwd 8 16 16 f32_half true true) (ex_world 8 0 8))
         = trace (ex_world 8 0 8) ++ pre ++ [EvFwd k false lp st]
         /\ dispatches pre = []
         /\ r = softmax_lse :: rest
         /\ o_ptr (lp_params lp) = data_ptr (ex_qkv kFloat16 8 3)
         /\ softmax_lse_ptr (lp_params lp) = data_ptr softmax_lse
         /\ filled (ex_qkv kFloat16 8 3) zero_cell st
         /\ filled softmax_lse neg_inf_cell st
         /\ (true = true ->
             exists s, rest = [s] /\ s_ptr (lp_params lp) = data_ptr s
                       /\ filled s zero_cell st).
Proof.
  assert (L : is_Some (bufs (ex_world 8 0 8) !! t_buf (ex_qkv kFloat16 8 3)))
    by (exists (replicate 16 half_cell); vm_compute; reflexivity).
  eexists. split; [ vm_compute; reflexivity | ]. split; [ exact L | ].
  apply (C5_zero_tensors_fill_before_launch
           {| f_q := ex_qkv kFloat16 8 0; f_k := ex_qkv kFloat16 8 1;
              f_v := ex_qkv kFloat16 8 2; f_out := ex_qkv kFloat16 8 3;
              f_cu_seqlens_q := ex_cu_seqlens 9; f_cu_seqlens_k := ex_cu_seqlens 10;
              f_max_seqlen_q_ := 16; f_max_seqlen_k_ := 16;
              f_p_dropout := f32_half; f_softmax_scale := f32_one;
              f_zero_tensors := true; f_is_causal := false;
              f_return_softmax := true; f_num_splits := 1; f_gen_ := None |}
           (ex_world 8 0 8)).
  - vm_compute. reflexivity.
  - reflexivity.
  - exact L.
Defined.

(** * The preconditions of an accepted call *)

Section Checks.
Context `{KN : Kernels}.

(** Every check [mha_fwd] makes before its first allocation holds when
    the call returns. *)
Lemma mha_fwd_checks (a : fwd_args) (w : World) (r : list Tensor) :
  result (fwd a) w = Ok r ->
  let dprops := device w in
  let q := f_q a in
  let k := f_k a in
  let v := f_v a in
  let out := f_out a in
  let cu_seqlens_q := f_cu_seqlens_q a in
  let cu_seqlens_k := f_cu_seqlens_k a in
  let max_seqlen_q_ := f_max_seqlen_q_ a in
  let max_seqlen_k_ := f_max_seqlen_k_ a in
  let p_dropout := f_p_dropout a in
  let is_dropout := is_dropout_of p_dropout in
  let q_dtype := t_dtype q in
  let batch_size := batch_size_of cu_seqlens_q in
  let total_q := total_of q in
  let num_heads := num_heads_of q in
  let head_size := head_size_of q in
  let total_k := total_of k in
  let blocksize_c := fwd_blocksize_c head_size in
  let max_seqlen_k := padded_max_seqlen_k max_seqlen_k_ blocksize_c in
  let max_seqlen_q := padded_max_seqlen_q max_seqlen_q_ in
  let loop := max_seqlen_k >? blocksize_c in
  (is_sm90 dprops || is_sm8x dprops || is_sm75 dprops) = true
  /\ (ScalarType_eqb q_dtype kFloat16 || ((is_sm8x dprops || is_sm90 dprops) &&
       ScalarType_eqb q_dtype kBFloat16)) = true
  /\ (ScalarType_eqb (t_dtype k) q_dtype) = true
  /\ (ScalarType_eqb (t_dtype v) q_dtype) = true
  /\ (ScalarType_eqb (t_dtype out) q_dtype) = true
  /\ (ScalarType_eqb (t_dtype cu_seqlens_q) kInt32) = true
  /\ (ScalarType_eqb (t_dtype cu_seqlens_k) kInt32) = true
  /\ (t_is_cuda q) = true
  /\ (t_is_cuda k) = true
  /\ (t_is_cuda v) = true
  /\ (t_is_cuda out) = true
  /\ (t_is_cuda cu_seqlens_q) = true
  /\ (t_is_cuda cu_seqlens_k) = true
  /\ (stride_m1_is_1 q) = true
  /\ (stride_m1_is_1 k) = true
  /\ (stride_m1_is_1 v) = true
  /\ (stride_m1_is_1 out) = true
  /\ (is_contiguous cu_seqlens_q) = true
  /\ (is_contiguous cu_seqlens_k) = true
  /\ (batch_size >? 0) = true
  /\ ((int_rem head_size 8 =? 0) && (head_size <=? 128)) = true
  /\ (shape_is q [total_q; num_heads; head_size]) = true
  /\ (shape_is k [total_k; num_heads; head_size]) = true
  /\ (shape_is v [total_k; num_heads; head_size]) = true
  /\ (shape_is out [total_q; num_heads; head_size]) = true
  /\ (shape_is cu_seqlens_q [int_add batch_size 1]) = true
  /\ (shape_is cu_seqlens_k [int_add batch_size 1]) = true.
Proof.
  unfold result. destruct (run (fwd a) w) as [w' o] eqn:H.
  cbn [snd]. intros ->.
  cbn [run] in H. unfold mha_fwd in H.
  repeat step_ok H.
  cbv zeta. repeat apply conj; assumption.
Qed.

(** Every check [mha_bwd] makes before its first allocation holds when
    the call returns. *)
Lemma mha_bwd_checks (a : bwd_args) (w : World) (r : list Tensor) :
  result (bwd a) w = Ok r ->
  let dprops := device w in
  let dout := b_dout a in
  let q := b_q a in
  let k := b_k a in
  let v := b_v a in
  let out := b_out a in
  let softmax_lse_ := b_softmax_lse_ a in
  let dq := b_dq a in
  let dk := b_dk a in
  let dv := b_dv a in
  let cu_seqlens_q := b_cu_seqlens_q a in
  let cu_seqlens_k := b_cu_seqlens_k a in
  let max_seqlen_q_ := b_max_seqlen_q_ a in
  let max_seqlen_k_ := b_max_seqlen_k_ a in
  let p_dropout := b_p_dropout a in
  let is_dropout := is_dropout_of p_dropout in
  let q_dtype := t_dtype q in
  let batch_size := batch_size_of cu_seqlens_q in
  let total_q := total_of q in
  let num_heads := num_heads_of q in
  let head_size := head_size_of q in
  let total_k := total_of k in
  let blocksize_c := bwd_blocksize_c (is_sm75 dprops) head_size in
  let max_seqlen_k := padded_max_seqlen_k max_seqlen_k_ blocksize_c in
  let max_seqlen_q := padded_max_seqlen_q max_seqlen_q_ in
  let loop := max_seqlen_k >? blocksize_c in
  (is_sm90 dprops || is_sm8x dprops || is_sm75 dprops) = true
  /\ (ScalarType_eqb q_dtype kFloat16 || ((is_sm8x dprops || is_sm90 dprops) &&
       ScalarType_eqb q_dtype kBFloat16)) = true
  /\ (ScalarType_eqb (t_dtype k) q_dtype) = true
  /\ (ScalarType_eqb (t_dtype v) q_dtype) = true
  /\ (ScalarType_eqb (t_dtype out) q_dtype) = true
  /\ (ScalarType_eqb (t_dtype dout) q_dtype) = true
  /\ (ScalarType_eqb (t_dtype dq) q_dtype) = true
  /\ (ScalarType_eqb (t_dtype dk) q_dtype) = true
  /\ (ScalarType_eqb (t_dtype dv) q_dtype) = true
  /\ (ScalarType_eqb (t_dtype cu_seqlens_q) kInt32) = true
  /\ (ScalarType_eqb (t_dtype cu_seqlens_k) kInt32) = true
  /\ (t_is_cuda q) = true
  /\ (t_is_cuda k) = true
  /\ (t_is_cuda v) = true
  /\ (t_is_cuda out) = true
  /\ (t_is_cuda dout) = true
  /\ (t_is_cuda softmax_lse_) = true
  /\ (t_is_cuda cu_seqlens_q) = true
  /\ (t_is_cuda cu_seqlens_k) = true
  /\ (stride_m1_is_1 q) = true
  /\ (stride_m1_is_1 k) = true
  /\ (stride_m1_is_1 v) = true
  /\ (is_contiguous out) = true
  /\ (is_contiguous dout) = true
  /\ (stride_m1_is_1 dq) = true
  /\ (stride_m1_is_1 dk) = true
  /\ (stride_m1_is_1 dv) = true
  /\ (is_contiguous cu_seqlens_q) = true
  /\ (is_contiguous cu_seqlens_k) = true
  /\ (batch_size >? 0) = true
  /\ ((int_rem head_size 8 =? 0) && (head_size <=? 128)) = true
  /\ (negb (head_size >? 64) || (is_sm80 dprops || is_sm90 dprops)) = true
  /\ (shape_is q [total_q; num_heads; head_size]) = true
  /\ (shape_is k [total_k; num_heads; head_size]) = true
  /\ (shape_is v [total_k; num_heads; head_size]) = true
  /\ (shape_is out [total_q; num_heads; head_size]) = true
  /\ (shape_is dout [total_q; num_heads; head_size]) = true
  /\ (shape_is dq [total_q; num_heads; head_size]) = true
  /\ (shape_is dk [total_k; num_heads; head_size]) = true
  /\ (shape_is dv [total_k; num_heads; head_size]) = true
  /\ (shape_is cu_seqlens_q [int_add batch_size 1]) = true
  /\ (shape_is cu_seqlens_k [int_add batch_size 1]) = true.
Proof.
  unfold result. destruct (run (bwd a) w) as [w' o] eqn:H.
  cbn [snd]. intros ->.
  cbn [run] in H. unfold mha_bwd in H. cbv zeta in H.
  repeat step_ok H.
  cbv zeta. repeat apply conj; assumption.
Qed.

(** Every check [mha_fwd_block] makes before its first allocation holds when
    the call returns. *)
Lemma mha_fwd_block_checks (a : fwd_block_args) (w : World) (r : list Tensor) :
  result (fwd_block a) w = Ok r ->
  let dprops := device w in
  let q := fb_q a in
  let k := fb_k a in
  let v := fb_v a in
  let cu_seqlens_q := fb_cu_seqlens_q a in
  let cu_seqlens_k := fb_cu_seqlens_k a in
  let blockmask := fb_blockmask a in
  let max_seqlen_q_ := fb_max_seqlen_q_ a in
  let max_seqlen_k_ := fb_max_seqlen_k_ a in
  let p_dropout := fb_p_dropout a in
  let is_dropout := is_dropout_of p_dropout in
  let batch_size := batch_size_of cu_seqlens_q in
  let total_q := total_of q in
  let num_heads := num_heads_of q in
  let head_size := head_size_of q in
  let total_k := total_of k in
  let max_seqlen_k := block_max_seqlen_k max_seqlen_k_ in
  let max_seqlen_q := padded_max_seqlen_q max_seqlen_q_ in
  let loop := max_seqlen_k >? 256 in
  (is_sm8x dprops || is_sm90 dprops) = true
  /\ (ScalarType_eqb (t_dtype q) kFloat16) = true
  /\ (ScalarType_eqb (t_dtype k) kFloat16) = true
  /\ (ScalarType_eqb (t_dtype v) kFloat16) = true
  /\ (ScalarType_eqb (t_dtype cu_seqlens_q) kInt32) = true
  /\ (ScalarType_eqb (t_dtype cu_seqlens_k) kInt32) = true
  /\ (ScalarType_eqb (t_dtype blockmask) kInt32) = true
  /\ (t_is_cuda q) = true
  /\ (t_is_cuda k) = true
  /\ (t_is_cuda v) = true
  /\ (t_is_cuda cu_seqlens_q) = true
  /\ (t_is_cuda cu_seqlens_k) = true
  /\ (t_is_cuda blockmask) = true
  /\ (stride_m1_is_1 q) = true
  /\ (stride_m1_is_1 k) = true
  /\ (stride_m1_is_1 v) = true
  /\ (is_contiguous cu_seqlens_k) = true
  /\ (is_contiguous cu_seqlens_k) = true
  /\ (is_contiguous blockmask) = true
  /\ (batch_size >? 0) = true
  /\ ((head_size =? 16) || (head_size =? 32) || (head_size =? 64) || (head_size =?
       128)) = true
  /\ (shape_is q [total_q; num_heads; head_size]) = true
  /\ (shape_is k [total_k; num_heads; head_size]) = true
  /\ (shape_is v [total_k; num_heads; head_size]) = true
  /\ (shape_is cu_seqlens_q [int_add batch_size 1]) = true
  /\ (shape_is cu_seqlens_k [int_add batch_size 1]) = true
  /\ (shape_is blockmask [int_div max_seqlen_k 256; int_div max_seqlen_q 16]) = true.
Proof.
  unfold result. destruct (run (fwd_block a) w) as [w' o] eqn:H.
  cbn [snd]. intros ->.
  cbn [run] in H. unfold mha_fwd_block in H. cbv zeta in H.
  repeat step_ok H. cbv iota in H. repeat step_ok H. cbv iota in H.
  repeat step_ok H.
  cbv zeta. repeat apply conj; assumption.
Qed.

(** Every check [mha_bwd_block] makes before its first allocation holds when
    the call returns. *)
Lemma mha_bwd_block_checks (a : bwd_block_args) (w : World) (r : list Tensor) :
  result (bwd_block a) w = Ok r ->
  let dprops := device w in
  let dout := bb_dout a in
  let q := bb_q a in
  let k := bb_k a in
  let v := bb_v a in
  let out := bb_out a in
  let softmax_lse_ := bb_softmax_lse_ a in
  let dq := bb_dq a in
  let dk := bb_dk a in
  let dv := bb_dv a in
  let cu_seqlens_q := bb_cu_seqlens_q a in
  let cu_seqlens_k := bb_cu_seqlens_k a in
  let blockmask := bb_blockmask a in
  let max_seqlen_q_ := bb_max_seqlen_q_ a in
  let max_seqlen_k_ := bb_max_seqlen_k_ a in
  let p_dropout := bb_p_dropout a in
  let is_dropout := is_dropout_of p_dropout in
  let batch_size := batch_size_of cu_seqlens_q in
  let total_q := total_of q in
  let num_heads := num_heads_of q in
  let head_size := head_size_of q in
  let total_k := total_of k in
  let max_seqlen_k := block_max_seqlen_k max_seqlen_k_ in
  let max_seqlen_q := padded_max_seqlen_q max_seqlen_q_ in
  let loop := max_seqlen_k >? 256 in
  (is_sm8x dprops || is_sm90 dprops) = true
  /\ (ScalarType_eqb (t_dtype q) kFloat16) = true
  /\ (ScalarType_eqb (t_dtype k) kFloat16) = true
  /\ (ScalarType_eqb (t_dtype v) kFloat16) = true
  /\ (ScalarType_eqb (t_dtype out) kFloat16) = true
  /\ (ScalarType_eqb (t_dtype dout) kFloat16) = true
  /\ (ScalarType_eqb (t_dtype dq) kFloat16) = true
  /\ (ScalarType_eqb (t_dtype dk) kFloat16) = true
  /\ (ScalarType_eqb (t_dtype dv) kFloat16) = true
  /\ (ScalarType_eqb (t_dtype cu_seqlens_q) kInt32) = true
  /\ (ScalarType_eqb (t_dtype cu_seqlens_k) kInt32) = true
  /\ (ScalarType_eqb (t_dtype blockmask) kInt32) = true
  /\ (t_is_cuda q) = true
  /\ (t_is_cuda k) = true
  /\ (t_is_cuda v) = true
  /\ (t_is_cuda out) = true
  /\ (t_is_cuda dout) = true
  /\ (t_is_cuda softmax_lse_) = true
  /\ (t_is_cuda cu_seqlens_q) = true
  /\ (t_is_cuda cu_seqlens_k) = true
  /\ (t_is_cuda blockmask) = true
  /\ (stride_m1_is_1 q) = true
  /\ (stride_m1_is_1 k) = true
  /\ (stride_m1_is_1 v) = true
  /\ (is_contiguous out) = true
  /\ (is_contiguous dout) = true
  /\ (stride_m1_is_1 dq) = true
  /\ (stride_m1_is_1 dk) = true
  /\ (stride_m1_is_1 dv) = true
  /\ (is_contiguous cu_seqlens_q) = true
  /\ (is_contiguous cu_seqlens_k) = true
  /\ (is_contiguous blockmask) = true
  /\ (batch_size >? 0) = true
  /\ ((head_size =? 16) || (head_size =? 32) || (head_size =? 64) || (head_size =?
       128)) = true
  /\ (negb (head_size =? 128) || (is_sm80 dprops || is_sm90 dprops)) = true
  /\ (shape_is q [total_q; num_heads; head_size]) = true
  /\ (shape_is k [total_k; num_heads; head_size]) = true
  /\ (shape_is v [total_k; num_heads; head_size]) = true
  /\ (shape_is out [total_q; num_heads; head_size]) = true
  /\ (shape_is dout [total_q; num_heads; head_size]) = true
  /\ (shape_is dq [total_q; num_heads; head_size]) = true
  /\ (shape_is dk [total_k; num_heads; head_size]) = true
  /\ (shape_is dv [total_k; num_heads; head_size]) = true
  /\ (shape_is cu_seqlens_q [int_add batch_size 1]) = true
  /\ (shape_is cu_seqlens_k [int_add batch_size 1]) = true
  /\ (shape_is blockmask [int_div max_seqlen_k 256; int_div max_seqlen_q 16]) = true.
Proof.
  unfold result. destruct (run (bwd_block a) w) as [w' o] eqn:H.
  cbn [snd]. intros ->.
  cbn [run] in H. unfold mha_bwd_block in H. cbv zeta in H.
  repeat step_ok H.
  cbv zeta. repeat apply conj; assumption.
Qed.

End Checks.

Section CheckReading.
Context `{KN : Kernels}.

Lemma ScalarType_eqb_eq (a b : ScalarType) : ScalarType_eqb a b = true -> a = b.
Proof. destruct a, b; cbn; intros H; try discriminate H; reflexivity. Qed.

Lemma shape_is_eq (t : Tensor) (l : list Z) : shape_is t l = true -> t_sizes t = l.
Proof. unfold shape_is. apply bool_decide_eq_true_1. Qed.

Lemma stride_m1_is_1_eq (t : Tensor) :
  stride_m1_is_1 t = true -> last_stride t = Some 1.
Proof.
  unfold stride_m1_is_1. destruct (last_stride t) as [s|]; [ | discriminate ].
  intros H. apply Z.eqb_eq in H. by subst.
Qed.

Lemma to_int_range (z : Z) : fits_int (to_int z).
Proof.
  unfold fits_int, to_int, INT_MIN, INT_MAX.
  pose proof (Z.mod_pos_bound (z + 2147483648) 4294967296 ltac:(lia)). lia.
Qed.

End CheckReading.

(** After the conjunction of checks has been broken up: close a goal
    that is one of them, up to the reading of a boolean test. *)
Ltac by_check :=
  first
    [ assumption
    | apply ScalarType_eqb_eq; assumption
    | apply shape_is_eq; assumption
    | apply stride_m1_is_1_eq; assumption ].

Ltac split_checks X :=
  cbv zeta in X;
  repeat match type of X with _ /\ _ => let H := fresh "Hc" in destruct X as [H X] end.

Section Preconditions.
Context `{KN : Kernels}.

(** X8. In a call that returns, every data tensor has the element type
    of [q], which is [kFloat16] or, for the dense calls on an sm8x or
    sm90 device only, [kBFloat16]; the sequence offsets and the block
    mask are [kInt32]. *)
Theorem X8_accepted_element_types (c : call) (w : World) (r : list Tensor) :
  result c w = Ok r ->
  Forall (fun t => t_dtype t = t_dtype (call_q c)) (call_data_tensors c)
  /\ Forall (fun t => t_dtype t = kInt32) (call_index_tensors c)
  /\ (t_dtype (call_q c) = kFloat16
      \/ (t_dtype (call_q c) = kBFloat16
          /\ is_block_sparse c = false
          /\ is_sm8x (device w) || is_sm90 (device w) = true)).
Proof.
  intros Hr. destruct c as [a|a|a|a];
    cbn [call_data_tensors call_index_tensors call_q is_block_sparse].
  - pose proof (mha_fwd_checks a w r Hr) as X. split_checks X.
    split; [ repeat constructor; by_check | ].
    split; [ repeat constructor; by_check | ].
    apply orb_prop in Hc0 as [Hq|Hq].
    + left. by_check.
    + right. apply andb_prop in Hq as [Hdev Hq]. split; [ by_check | auto ].
  - pose proof (mha_bwd_checks a w r Hr) as X. split_checks X.
    split; [ repeat constructor; by_check | ].
    split; [ repeat constructor; by_check | ].
    apply orb_prop in Hc0 as [Hq|Hq].
    + left. by_check.
    + right. apply andb_prop in Hq as [Hdev Hq]. split; [ by_check | auto ].
  - pose proof (mha_fwd_block_checks a w r Hr) as X. split_checks X.
    assert (Hq : t_dtype (fb_q a) = kFloat16) by by_check.
    split; [ rewrite Hq; repeat constructor; by_check | ].
    split; [ repeat constructor; by_check | ]. left. exact Hq.
  - pose proof (mha_bwd_block_checks a w r Hr) as X. split_checks X.
    assert (Hq : t_dtype (bb_q a) = kFloat16) by by_check.
    split; [ rewrite Hq; repeat constructor; by_check | ].
    split; [ repeat constructor; by_check | ]. left. exact Hq.
Qed.

(** X9. In a call that returns, [q] is three-dimensional with sizes
    that fit a C [int]; [out], [dout] and [dq] have the shape of [q];
    [k], [v], [dk] and [dv] have the shape of [k], whose last two sizes
    are those of [q]; the batch size (the number of sequence offsets
    minus one) is positive and both [cu_seqlens] tensors are
    one-dimensional of length [batch_size + 1]. *)
Theorem X9_accepted_shapes (c : call) (w : World) (r : list Tensor) :
  result c w = Ok r ->
  exists total_q total_k num_heads head_size : Z,
    t_sizes (call_q c) = [total_q; num_heads; head_size]
    /\ fits_int total_q /\ fits_int num_heads /\ fits_int head_size
    /\ fits_int total_k
    /\ Forall (fun t => t_sizes t = [total_q; num_heads; head_size]) (call_q_shaped c)
    /\ Forall (fun t => t_sizes t = [total_k; num_heads; head_size]) (call_k_shaped c)
    /\ 0 < batch_size_of (call_cu_seqlens_q c)
    /\ t_sizes (call_cu_seqlens_q c) = [int_add (batch_size_of (call_cu_seqlens_q c)) 1]
    /\ t_sizes (call_cu_seqlens_k c) = [int_add (batch_size_of (call_cu_seqlens_q c)) 1].
Proof.
  intros Hr.
  exists (total_of (call_q c)), (total_of (call_k c)),
    (num_heads_of (call_q c)), (head_size_of (call_q c)).
  assert (Hfit : fits_int (total_of (call_q c)) /\ fits_int (num_heads_of (call_q c))
                 /\ fits_int (head_size_of (call_q c)) /\ fits_int (total_of (call_k c)))
    by (repeat split; apply to_int_range).
  destruct Hfit as (F1 & F2 & F3 & F4).
  destruct c as [a|a|a|a];
    cbn [call_q call_k call_q_shaped call_k_shaped call_cu_seqlens_q call_cu_seqlens_k]
      in *.
  - pose proof (mha_fwd_checks a w r Hr) as X. split_checks X.
    repeat (split; [ first [ assumption | by_check | repeat constructor; by_check
                           | by apply Z.gtb_lt ] | ]).
    by_check.
  - pose proof (mha_bwd_checks a w r Hr) as X. split_checks X.
    repeat (split; [ first [ assumption | by_check | repeat constructor; by_check
                           | by apply Z.gtb_lt ] | ]).
    by_check.
  - pose proof (mha_fwd_block_checks a w r Hr) as X. split_checks X.
    repeat (split; [ first [ assumption | by_check | repeat constructor; by_check
                           | by apply Z.gtb_lt ] | ]).
    by_check.
  - pose proof (mha_bwd_block_checks a w r Hr) as X. split_checks X.
    repeat (split; [ first [ assumption | by_check | repeat constructor; by_check
                           | by apply Z.gtb_lt ] | ]).
    by_check.
Qed.

(** X10. In a call that returns, the tensors the entry point tests with
    [is_cuda()] are on the device, those it tests with [stride(-1) == 1]
    have a unit last stride and those it tests with [is_contiguous()]
    are contiguous. The lists differ between the entry points: the
    backward calls do not test the residency of [dq], [dk] and [dv], and
    the block-sparse forward call tests the contiguity of
    [cu_seqlens_k] but not of [cu_seqlens_q]. *)
Theorem X10_accepted_layout (c : call) (w : World) (r : list Tensor) :
  result c w = Ok r ->
  Forall (fun t => t_is_cuda t = true) (call_cuda_checked c)
  /\ Forall (fun t => last_stride t = Some 1) (call_unit_stride c)
  /\ Forall (fun t => is_contiguous t = true) (call_contiguous c).
Proof.
  intros Hr. destruct c as [a|a|a|a];
    cbn [call_cuda_checked call_unit_stride call_contiguous].
  - pose proof (mha_fwd_checks a w r Hr) as X. split_checks X.
    repeat split; repeat constructor; by_check.
  - pose proof (mha_bwd_checks a w r Hr) as X. split_checks X.
    repeat split; repeat constructor; by_check.
  - pose proof (mha_fwd_block_checks a w r Hr) as X. split_checks X.
    repeat split; repeat constructor; by_check.
  - pose proof (mha_bwd_block_checks a w r Hr) as X. split_checks X.
    repeat split; repeat constructor; by_check.
Qed.

End Preconditions.

Section DispatchTheorems.
Context `{KN : Kernels}.

Lemma dispatches_dropout_list (c : bool) g off :
  dispatches (if c then [EvPhilox g off] else []) = [].
Proof. destruct c; reflexivity. Qed.

(** X1. A dense forward call that returns has dispatched exactly one
    kernel, chosen by [run_fmha_fwd] from the head dimension [d]:
    [fmha_fwd_hdim32] for [d <= 32], [fmha_fwd_hdim64] for
    [32 < d <= 64], [fmha_fwd_hdim128] for [64 < d]; [d] is a multiple
    of 8 and at most 128. *)
Theorem X1_fwd_dispatch_by_head_size (a : fwd_args) (w : World) (r : list Tensor) :
  result (fwd a) w = Ok r ->
  exists k,
    dispatches (trace (final (fwd a) w)) = dispatches (trace w) ++ [k]
    /\ int_rem (head_size_of (f_q a)) 8 = 0
    /\ head_size_of (f_q a) <= 128
    /\ (head_size_of (f_q a) <= 32 -> k = fmha_fwd_hdim32)
    /\ (32 < head_size_of (f_q a) <= 64 -> k = fmha_fwd_hdim64)
    /\ (64 < head_size_of (f_q a) -> k = fmha_fwd_hdim128).
Proof.
  intros Hr.
  destruct (mha_fwd_ok_trace a w r Hr) as (lp & st & -> & _).
  pose proof (mha_fwd_ok a w r Hr) as X. cbv zeta in X.
  destruct X as (_ & Hd & _). apply andb_prop in Hd as [H8 Hd].
  apply Z.eqb_eq in H8. apply Z.leb_le in Hd.
  exists (fwd_kernel_for (head_size_of (f_q a))).
  split; [ | split; [ exact H8 | split; [ exact Hd | apply fwd_kernel_for_cases ] ] ].
  rewrite !dispatches_app, dispatches_dropout_list. reflexivity.
Qed.

(** X2. A dense backward call that returns has run the configure pass
    and then dispatched exactly one kernel, both through the launcher
    [run_fmha_bwd] chooses from the head dimension [d]:
    [fmha_bwd_hdim32] for [d <= 32], [fmha_bwd_hdim64] for
    [32 < d <= 64], [fmha_bwd_hdim128] for [64 < d <= 128]; [d] is a
    multiple of 8, and a head dimension over 64 is accepted on sm80 and
    sm90 devices only. *)
Theorem X2_bwd_dispatch_by_head_size (a : bwd_args) (w : World) (r : list Tensor) :
  result (bwd a) w = Ok r ->
  exists k p0 st0 res p1 st1,
    trace (final (bwd a) w)
    = trace w ++ [EvBwd k true p0 st0] ++ res ++ [EvBwd k false p1 st1]
    /\ dispatches res = []
    /\ dispatches (trace (final (bwd a) w)) = dispatches (trace w) ++ [k]
    /\ int_rem (head_size_of (b_q a)) 8 = 0
    /\ head_size_of (b_q a) <= 128
    /\ (head_size_of (b_q a) <= 32 -> k = fmha_bwd_hdim32)
    /\ (32 < head_size_of (b_q a) <= 64 -> k = fmha_bwd_hdim64)
    /\ (64 < head_size_of (b_q a) ->
        k = fmha_bwd_hdim128 /\ is_sm80 (device w) || is_sm90 (device w) = true).
Proof.
  intros Hr.
  destruct (mha_bwd_ok_trace a w r Hr) as (p0 & st0 & p1 & st1 & Htr & _).
  pose proof (mha_bwd_ok a w r Hr) as X. cbv zeta in X.
  destruct X as (_ & Hd & Hsm & _). apply andb_prop in Hd as [H8 Hd].
  apply Z.eqb_eq in H8. apply Z.leb_le in Hd.
  pose proof (bwd_kernel_for_cases (head_size_of (b_q a))) as (K1 & K2 & K3).
  exists (bwd_kernel_for (head_size_of (b_q a))), p0, st0. do 3 eexists.
  split; [ exact Htr | ].
  split; [ apply dispatches_dropout_list | ].
  split; [ rewrite Htr, !dispatches_app, dispatches_dropout_list; reflexivity | ].
  split; [ exact H8 | ].
  split; [ exact Hd | ]. split; [ exact K1 | ]. split; [ exact K2 | ].
  intros H64. split; [ exact (K3 H64) | ].
  apply orb_prop in Hsm as [Hsm|Hsm]; [ | exact Hsm ].
  apply negb_true_iff in Hsm. rewrite Z.gtb_ltb in Hsm. apply Z.ltb_ge in Hsm. lia.
Qed.

(** X3. A block-sparse call that returns has dispatched exactly one
    kernel, whatever the head dimension: [fmha_block_fp16_sm80] for the
    forward call (after its configure pass) and
    [fmha_block_dgrad_fp16_sm80] for the backward call; and the backward
    call accepts a head dimension of 128 on sm80 and sm90 devices
    only. *)
Theorem X3_block_dispatch (c : call) (w : World) (r : list Tensor) :
  is_block_sparse c = true ->
  result c w = Ok r ->
  dispatches (trace (final c w))
  = dispatches (trace w)
      ++ [if is_backward c then fmha_block_dgrad_fp16_sm80 else fmha_block_fp16_sm80]
  /\ (is_backward c = true -> head_size_of (call_q c) = 128 ->
      is_sm80 (device w) || is_sm90 (device w) = true).
Proof.
  intros Hb Hr. destruct c as [a|a|a|a]; try discriminate Hb;
    cbn [is_backward call_q].
  - split; [ | discriminate ].
    destruct (mha_fwd_block_ok_trace a w r Hr) as (lp0 & st0 & lp & st & -> & _).
    rewrite !dispatches_app, dispatches_dropout_list. reflexivity.
  - split.
    + destruct (mha_bwd_block_ok_trace a w r Hr) as (p & st & -> & _).
      rewrite !dispatches_app, dispatches_dropout_list. reflexivity.
    + intros _ Hd. pose proof (mha_bwd_block_checks a w r Hr) as X. split_checks X.
      match goal with
      | H : negb (_ =? 128) || _ = true |- _ =>
          rewrite Hd in H; apply orb_prop in H as [H|H]; [ discriminate H | exact H ]
      end.
Qed.

(** X4. On a device the entry point does not support (anything but
    sm75, sm8x and sm90 for the dense calls; anything but sm8x and sm90
    for the block-sparse calls, so sm75 too) every call raises at its
    first check and leaves the world exactly as it was. *)
Theorem X4_unsupported_device_rejected (c : call) (w : World) :
  (if is_block_sparse c
   then is_sm8x (device w) || is_sm90 (device w)
   else is_sm90 (device w) || is_sm8x (device w) || is_sm75 (device w)) = false ->
  exists msg, result c w = Raise msg /\ final c w = w.
Proof.
  intros Hdev. unfold result, final.
  destruct c as [a|a|a|a]; cbn [is_block_sparse] in Hdev; cbn [run];
    [ unfold mha_fwd | unfold mha_bwd | unfold mha_fwd_block | unfold mha_bwd_block ];
    rewrite getprops_bind, check_bind, Hdev; eexists; split; reflexivity.
Qed.

End DispatchTheorems.

(** * The random generators *)

Section Generators.
Context `{KN : Kernels}.

(** X5. A call that raises has dispatched no kernel and has reserved
    nothing: the kernels dispatched, the log of reservations and the
    generators are as before. (The dense backward call may have run
    its configure pass: the generator is looked up after it.) *)
Theorem X5_raise_leaves_generators (c : call) (w : World) (msg : string) :
  result c w = Raise msg ->
  dispatches (trace (final c w)) = dispatches (trace w)
  /\ reservations (trace (final c w)) = reservations (trace w)
  /\ gens (final c w) = gens w.
Proof.
  intros Hr. destruct c as [a|a|a|a].
  - destruct (mha_fwd_raise a w msg Hr) as [-> ->]. auto.
  - destruct (mha_bwd_raise a w msg Hr) as (-> & -> & -> & _). auto.
  - destruct (mha_fwd_block_raise a w msg Hr) as [-> ->]. auto.
  - destruct (mha_bwd_block_raise a w msg Hr) as (-> & -> & _). auto.
Qed.

(** What a returning call does to the generators and gives its kernel. *)
Lemma ok_generator (c : call) (w : World) (r : list Tensor) :
  result c w = Ok r ->
  exists p,
    last (flat_map launched_params (trace (final c w))) = Some p
    /\ (is_dropout_of (call_p_dropout c) = false ->
        philox_args p = None /\ gens (final c w) = gens w)
    /\ (is_dropout_of (call_p_dropout c) = true ->
        exists off,
          reservations (trace (final c w))
          = reservations (trace w) ++ [(gen_ref (call_gen_ c), off)]
          /\ philox_args p
             = Some (fst (philox_cuda_state off (gens w (gen_ref (call_gen_ c)))))
          /\ gens (final c w) (gen_ref (call_gen_ c))
             = snd (philox_cuda_state off (gens w (gen_ref (call_gen_ c))))
          /\ forall g', g' <> gen_ref (call_gen_ c) -> gens (final c w) g' = gens w g').
Proof.
  intros Hr.
  assert (Hnd : is_dropout_of (call_p_dropout c) = false -> gens (final c w) = gens w)
    by (intros Hd; apply (no_dropout_no_reservation c w Hd)).
  destruct c as [a|a|a|a]; cbn [call_p_dropout call_gen_] in *.
  - destruct (mha_fwd_ok_trace a w r Hr) as (lp & st & Htr & Hn & Hy).
    exists (lp_params lp). rewrite Htr.
    split; [ rewrite !flat_map_app, launched_params_dropout;
             cbn [flat_map launched_params app]; rewrite last_app; reflexivity | ].
    split; [ auto | ]. intros Hd. destruct (Hy Hd) as (Hp & Hg & Hf).
    eexists. split; [ | eauto ]. rewrite Hd.
    by rewrite !reservations_app.
  - destruct (mha_bwd_ok_trace a w r Hr) as (p0 & st0 & p1 & st1 & Htr & _ & Hn & Hy).
    exists (fprop p1). rewrite Htr.
    split; [ rewrite !flat_map_app, launched_params_dropout;
             cbn [flat_map launched_params app]; rewrite last_app; reflexivity | ].
    split; [ auto | ]. intros Hd. destruct (Hy Hd) as (Hp & Hg & Hf).
    eexists. split; [ | eauto ]. rewrite Hd.
    by rewrite !reservations_app.
  - destruct (mha_fwd_block_ok_trace a w r Hr)
      as (lp0 & st0 & lp & st & Htr & _ & Hn & Hy).
    exists (lp_params lp). rewrite Htr.
    split; [ rewrite !flat_map_app, launched_params_dropout;
             cbn [flat_map launched_params app]; rewrite last_app; reflexivity | ].
    split; [ auto | ]. intros Hd. destruct (Hy Hd) as (Hp & Hg & Hf).
    eexists. split; [ | eauto ]. rewrite Hd.
    by rewrite !reservations_app.
  - destruct (mha_bwd_block_ok_trace a w r Hr) as (p & st & Htr & Hn & Hy).
    exists (fprop p). rewrite Htr.
    split; [ rewrite !flat_map_app, launched_params_dropout;
             cbn [flat_map launched_params app]; rewrite last_app; reflexivity | ].
    split; [ auto | ]. intros Hd. destruct (Hy Hd) as (Hp & Hg & Hf).
    eexists. split; [ | eauto ]. rewrite Hd.
    by rewrite !reservations_app.
Qed.

(** X6. No call, returning or raising, touches a generator other than
    the one it was given (or the default generator when it was given
    none). *)
Theorem X6_other_generators_untouched (c : call) (w : World) (g' : GenRef) :
  g' <> gen_ref (call_gen_ c) -> gens (final c w) g' = gens w g'.
Proof.
  intros Hg. destruct (result c w) as [r|msg] eqn:Hr.
  - destruct (ok_generator c w r Hr) as (p & _ & Hn & Hy).
    destruct (is_dropout_of (call_p_dropout c)) eqn:Hd.
    + destruct (Hy eq_refl) as (off & _ & _ & _ & Hf). by apply Hf.
    + destruct (Hn eq_refl) as [_ ->]. reflexivity.
  - destruct c as [a|a|a|a].
    + by destruct (mha_fwd_raise a w msg Hr) as [_ ->].
    + by destruct (mha_bwd_raise a w msg Hr) as (_ & _ & -> & _).
    + by destruct (mha_fwd_block_raise a w msg Hr) as [_ ->].
    + by destruct (mha_bwd_block_raise a w msg Hr) as (_ & -> & _).
Qed.

(** X7. A dropout-enabled call that returns has advanced its generator
    exactly once, by [philox_cuda_state] with the offset it reserved, and
    its kernel is launched with the Philox state that reservation
    returned, that is the state of the generator before the call. *)
Theorem X7_dropout_philox_state (c : call) (w : World) (r : list Tensor) :
  result c w = Ok r ->
  is_dropout_of (call_p_dropout c) = true ->
  exists off p,
    reservations (trace (final c w))
    = reservations (trace w) ++ [(gen_ref (call_gen_ c), off)]
    /\ last (flat_map launched_params (trace (final c w))) = Some p
    /\ philox_args p
       = Some (fst (philox_cuda_state off (gens w (gen_ref (call_gen_ c)))))
    /\ gens (final c w) (gen_ref (call_gen_ c))
       = snd (philox_cuda_state off (gens w (gen_ref (call_gen_ c)))).
Proof.
  intros Hr Hd. destruct (ok_generator c w r Hr) as (p & Hl & _ & Hy).
  destruct (Hy Hd) as (off & Hres & Hp & Hg & _).
  exists off, p. auto.
Qed.

End Generators.

(** * Buffers of a call that raises *)

Section RaiseFrame.
Context `{KN : Kernels}.

Ltac zero_step_fwd H :=
  lazymatch type of H with
  | bind (if _ then bind (zero_ ?o) (fun _ => bind (fill_ ?l ?c)
            (fun _ => match ?s with Some _ => _ | None => _ end)) else ret tt) _ _ = _ =>
      rewrite (bind_when _ _
                 (fun w0 => match s with
                            | Some s0 => fill_world s0 zero_cell | None => fun w => w end
                              (fill_world l c (fill_world o zero_cell w0))))
        in H by (intros; destruct s; reflexivity)
  end.

Ltac copy_step_bwd H :=
  lazymatch type of H with
  | bind (if _ then match ?t with Some _ => copy_ ?dq _ | None => ret tt end
          else ret tt) _ _ = _ =>
      rewrite (bind_when _ _
                 (fun w0 => match t with Some t0 => copy_world dq t0 w0 | None => w0 end))
        in H by (intros; destruct t; reflexivity)
  end.

(** The branch in which a step raises: the world reached is framed. *)
Ltac close_frame :=
  subst;
  repeat first
    [ progress autorewrite with world
    | match goal with
      | |- context [bufs (if ?c then _ else _)] => destruct c
      | |- context [match alloc_tensor ?c _ _ _ with Some _ => _ | None => _ end] =>
          unfold alloc_tensor; destruct c
      end ];
  intros; frame.

(** A dense forward call that raises has changed no buffer of the
    caller other than [out]. *)
Lemma mha_fwd_raise_bufs (a : fwd_args) (w : World) (msg : string) :
  result (fwd a) w = Raise msg ->
  forall i : nat,
    is_Some (bufs w !! i) -> t_buf (f_out a) ≠ i ->
    bufs (final (fwd a) w) !! i = bufs w !! i.
Proof.
  unfold result, final. destruct (run (fwd a) w) as [w' o] eqn:H.
  cbn [fst snd]. intros ->.
  cbn [run] in H. unfold mha_fwd in H.
  repeat step_any H close_frame. zero_step_fwd H.
  repeat step_any H close_frame.
  rewrite run_fmha_fwd_bind in H.
  match type of H with (if ?c then _ else _) = _ => destruct c end;
    repeat step_any H close_frame; discriminate H.
Qed.

(** Without [zero_tensors] it has changed none. *)
Lemma mha_fwd_raise_bufs_no_zero (a : fwd_args) (w : World) (msg : string) :
  f_zero_tensors a = false ->
  result (fwd a) w = Raise msg ->
  forall i : nat,
    is_Some (bufs w !! i) -> bufs (final (fwd a) w) !! i = bufs w !! i.
Proof.
  intros Hz.
  unfold result, final. destruct (run (fwd a) w) as [w' o] eqn:H.
  cbn [fst snd]. intros ->.
  cbn [run] in H. unfold mha_fwd in H. rewrite Hz in H.
  repeat step_any H close_frame. cbv iota in H.
  repeat step_any H close_frame.
  rewrite run_fmha_fwd_bind in H.
  match type of H with (if ?c then _ else _) = _ => destruct c end;
    repeat step_any H close_frame; discriminate H.
Qed.

Lemma mha_bwd_raise_bufs_no_zero (a : bwd_args) (w : World) (msg : string) :
  b_zero_tensors a = false ->
  result (bwd a) w = Raise msg ->
  forall i : nat,
    is_Some (bufs w !! i) -> bufs (final (bwd a) w) !! i = bufs w !! i.
Proof.
  intros Hz.
  unfold result, final. destruct (run (bwd a) w) as [w' o] eqn:H.
  cbn [fst snd]. intros ->.
  cbn [run] in H. unfold mha_bwd in H. cbv zeta in H. rewrite Hz in H.
  repeat step_any H close_frame. cbv iota in H. repeat step_any H close_frame.
  assert (Hle : (head_size_of (b_q a) <=? 128) = true)
    by (match goal with Hc : _ && (_ <=? 128) = true |- _ =>
          apply andb_prop in Hc as [_ Hc]; exact Hc end).
  rewrite run_fmha_bwd_bind_le in H by exact Hle.
  cbv iota in H.
  repeat step_any H close_frame.
  match type of H with
  | bind (run_fmha_bwd ?p3 false) _ _ = _ =>
      assert (Ed : params_d (fprop p3) = head_size_of (b_q a))
        by (repeat match goal with
                   | |- context [if ?c then _ else _] => destruct c
                   | |- context [match ?o with Some _ => _ | None => _ end] => destruct o
                   end; reflexivity)
  end.
  rewrite run_fmha_bwd_bind_le in H by (rewrite Ed; exact Hle).
  cbv iota in H. copy_step_bwd H. repeat step_any H close_frame.
  discriminate H.
Qed.

Lemma mha_fwd_block_raise_bufs (a : fwd_block_args) (w : World) (msg : string) :
  result (fwd_block a) w = Raise msg ->
  forall i : nat,
    is_Some (bufs w !! i) -> bufs (final (fwd_block a) w) !! i = bufs w !! i.
Proof.
  unfold result, final. destruct (run (fwd_block a) w) as [w' o] eqn:H.
  cbn [fst snd]. intros ->.
  cbn [run] in H. unfold mha_fwd_block in H. cbv zeta in H.
  repeat step_any H close_frame. cbv iota in H.
  repeat step_any H close_frame. cbv iota in H.
  repeat step_any H close_frame.
  discriminate H.
Qed.

(** X11. A call that raises has changed no buffer of the caller, apart
    from those the [zero_tensors] block of a dense call fills: [out] in
    [mha_fwd], and [dq], [dk], [dv] in [mha_bwd]. A block-sparse call
    that raises, and a dense call without [zero_tensors], leave every
    buffer as it was. *)
Theorem X11_raise_changes_only_zeroed (c : call) (w : World) (msg : string) (i : nat) :
  result c w = Raise msg ->
  is_Some (bufs w !! i) ->
  i ∉ (t_buf <$> call_zeroed c) ->
  bufs (final c w) !! i = bufs w !! i.
Proof.
  intros Hr Hi Hz. destruct c as [a|a|a|a]; cbn [call_zeroed] in Hz.
  - destruct (f_zero_tensors a) eqn:Ez.
    + apply (mha_fwd_raise_bufs a w msg Hr i Hi).
      intros E. apply Hz. rewrite <- E. cbn. left.
    + by apply (mha_fwd_raise_bufs_no_zero a w msg Ez Hr).
  - destruct (b_zero_tensors a) eqn:Ez.
    + cbn in Hz. rewrite !not_elem_of_cons in Hz. destruct Hz as (H1 & H2 & H3 & _).
      destruct (mha_bwd_raise a w msg Hr) as (_ & _ & _ & F).
      apply F; [ exact Hi | | | ]; congruence.
    + by apply (mha_bwd_raise_bufs_no_zero a w msg Ez Hr).
  - by apply (mha_fwd_block_raise_bufs a w msg Hr).
  - by apply (mha_bwd_block_raise a w msg Hr).
Qed.

End RaiseFrame.

(** * What the kernels are given and what a call returns *)

Section OkFrame.
Context `{KN : Kernels}.

Lemma snapshots_app l1 l2 : snapshots (l1 ++ l2) = snapshots l1 ++ snapshots l2.
Proof. apply flat_map_app. Qed.

Lemma snapshots_dropout (c : bool) g off :
  snapshots (if c then [EvPhilox g off] else []) = [].
Proof. destruct c; reflexivity. Qed.

Lemma fresh_not_in (w w' : World) :
  (forall i : nat, is_Some (bufs w !! i) -> is_Some (bufs w' !! i)) ->
  bufs w !! fresh (dom (bufs w')) = None.
Proof.
  intros Hsub. destruct (bufs w !! fresh (dom (bufs w'))) as [l|] eqn:E; [ | reflexivity ].
  exfalso. apply (fresh_live_ne (bufs w') (fresh (dom (bufs w')))); [ | reflexivity ].
  apply Hsub. eauto.
Qed.

Lemma mha_fwd_ok_snapshots (a : fwd_args) (w : World) (r : list Tensor) (i : nat) :
  result (fwd a) w = Ok r ->
  is_Some (bufs w !! i) ->
  (f_zero_tensors a = true -> t_buf (f_out a) ≠ i) ->
  exists new,
    trace (final (fwd a) w) = trace w ++ new
    /\ Forall (fun st => st !! i = bufs w !! i) (snapshots new).
Proof.
  intros Hr Hi Hz.
  pose proof (mha_fwd_ok a w r Hr) as X. cbv zeta in X.
  destruct X as (_ & _ & _ & _ & _ & ->).
  match goal with
  | |- context [fwd_launch_world _ _ (if _ then reserve_world _ _ ?w4 else _)] =>
      set (W4 := w4)
  end.
  assert (T4 : trace W4 = trace w).
  { subst W4. destruct (f_zero_tensors a);
      [ destruct (alloc_tensor (f_return_softmax a) _ _ _) | ];
      autorewrite with world; reflexivity. }
  assert (B4 : bufs W4 !! i = bufs w !! i).
  { subst W4. destruct (f_zero_tensors a).
    - specialize (Hz eq_refl). unfold alloc_tensor.
      destruct (f_return_softmax a); cbn [alloc_world]; frame.
    - frame. }
  clearbody W4.
  eexists. split.
  - rewrite trace_fwd_launch_world, trace_dropout_reserve, T4, <- app_assoc.
    reflexivity.
  - rewrite snapshots_app, snapshots_dropout. cbn [snapshots flat_map app].
    repeat constructor. rewrite bufs_dropout_reserve. exact B4.
Qed.

Lemma mha_bwd_ok_snapshots (a : bwd_args) (w : World) (r : list Tensor) (i : nat) :
  result (bwd a) w = Ok r ->
  is_Some (bufs w !! i) ->
  (b_zero_tensors a = true ->
   t_buf (b_dq a) ≠ i /\ t_buf (b_dk a) ≠ i /\ t_buf (b_dv a) ≠ i) ->
  exists new,
    trace (final (bwd a) w) = trace w ++ new
    /\ Forall (fun st => st !! i = bufs w !! i) (snapshots new).
Proof.
  intros Hr Hi Hz.
  pose proof (mha_bwd_ok a w r Hr) as X. cbv zeta in X.
  destruct X as (_ & _ & _ & _ & _ & _ & _ & ->).
  match goal with
  | |- context [bwd_configure_world ?k ?p ?w4] =>
      set (kn := k); set (p0 := p); set (W4 := w4)
  end.
  assert (T4 : trace W4 = trace w)
    by (subst W4; destruct (b_zero_tensors a); autorewrite with world; reflexivity).
  assert (B4 : bufs W4 !! i = bufs w !! i).
  { subst W4. destruct (b_zero_tensors a).
    - destruct (Hz eq_refl) as (H1 & H2 & H3). frame.
    - frame. }
  assert (L4 : is_Some (bufs W4 !! i)) by (rewrite B4; exact Hi).
  match goal with
  | |- context [alloc_tensor ?c ?s ?d ?w2] => set (T0 := alloc_tensor c s d w2) in *
  end.
  assert (HT0 : forall t, T0 = Some t -> t_buf t ≠ i).
  { subst T0. unfold alloc_tensor. intros t Ht.
    destruct (_ >? _); [ | discriminate Ht ].
    injection Ht as <-. apply new_tensor_at_ne. live. }
  clearbody p0 W4 T0.
  assert (F6 : forall t, T0 = Some t ->
               bufs (fill_world t zero_cell (bwd_configure_world kn p0 W4)) !! i
               = bufs W4 !! i).
  { intros t Ht. rewrite lookup_fill_world by exact (HT0 t Ht).
    apply (f_equal (.!! i)), bufs_bwd_configure_world. }
  assert (N6 : forall sizes,
               bufs (new_tensor_world sizes zero_cell (bwd_configure_world kn p0 W4)) !! i
               = bufs W4 !! i).
  { intros sizes. rewrite lookup_new_tensor_world by exact L4.
    apply (f_equal (.!! i)), bufs_bwd_configure_world. }
  destruct (bwd_configure kn p0 >? 1); [ destruct T0 as [t|] | ]; cbn [fst snd];
    (eexists; split;
     [ autorewrite with world; rewrite trace_dropout_reserve;
       autorewrite with world; rewrite T4, <- !app_assoc; reflexivity
     | rewrite !snapshots_app, snapshots_dropout;
       cbn [snapshots flat_map app];
       repeat constructor;
       rewrite ?bufs_dropout_reserve;
       rewrite ?(F6 t eq_refl), ?N6, ?bufs_bwd_configure_world; exact B4 ]).
Qed.

Lemma mha_fwd_block_ok_snapshots (a : fwd_block_args) (w : World) (r : list Tensor)
    (i : nat) :
  result (fwd_block a) w = Ok r ->
  is_Some (bufs w !! i) ->
  exists new,
    trace (final (fwd_block a) w) = trace w ++ new
    /\ Forall (fun st => st !! i = bufs w !! i) (snapshots new).
Proof.
  intros Hr Hi.
  pose proof (mha_fwd_block_ok a w r Hr) as X. cbv zeta in X.
  destruct X as (_ & _ & _ & _ & _ & ->).
  match goal with
  | |- context [block_fwd_configure_world ?l ?w4] => set (lp0 := l); set (W4 := w4)
  end.
  assert (T4 : trace W4 = trace w) by (subst W4; autorewrite with world; reflexivity).
  assert (B4 : bufs W4 !! i = bufs w !! i) by (subst W4; frame).
  clearbody lp0 W4.
  eexists. split.
  - autorewrite with world. rewrite trace_dropout_reserve.
    autorewrite with world. rewrite T4, <- !app_assoc. reflexivity.
  - rewrite !snapshots_app, snapshots_dropout. cbn [snapshots flat_map app].
    repeat constructor; rewrite ?bufs_dropout_reserve, ?bufs_block_fwd_configure_world;
      exact B4.
Qed.

Lemma mha_bwd_block_ok_snapshots (a : bwd_block_args) (w : World) (r : list Tensor)
    (i : nat) :
  result (bwd_block a) w = Ok r ->
  is_Some (bufs w !! i) ->
  exists new,
    trace (final (bwd_block a) w) = trace w ++ new
    /\ Forall (fun st => st !! i = bufs w !! i) (snapshots new).
Proof.
  intros Hr Hi.
  pose proof (mha_bwd_block_ok a w r Hr) as X. cbv zeta in X.
  destruct X as (_ & _ & _ & _ & _ & _ & ->).
  match goal with
  | |- context [block_dgrad_launch_world _ (if _ then reserve_world _ _ ?w3 else _)] =>
      set (W3 := w3)
  end.
  assert (T3 : trace W3 = trace w) by (subst W3; autorewrite with world; reflexivity).
  assert (B3 : bufs W3 !! i = bufs w !! i) by (subst W3; frame).
  clearbody W3.
  eexists. split.
  - autorewrite with world. rewrite trace_dropout_reserve, T3, <- !app_assoc.
    reflexivity.
  - rewrite !snapshots_app, snapshots_dropout. cbn [snapshots flat_map app].
    repeat constructor. rewrite bufs_dropout_reserve. exact B3.
Qed.

(** X12. In a call that returns, every launcher call (configure passes
    and the kernel launch) starts from a device memory in which each
    buffer of the caller holds what the caller left in it, apart from
    the buffers the [zero_tensors] block fills: the host code never
    writes to an input before its kernel runs. *)
Theorem X12_inputs_reach_kernel_unmodified (c : call) (w : World) (r : list Tensor)
    (i : nat) :
  result c w = Ok r ->
  is_Some (bufs w !! i) ->
  i ∉ (t_buf <$> call_zeroed c) ->
  exists new,
    trace (final c w) = trace w ++ new
    /\ snapshots new <> []
    /\ Forall (fun st => st !! i = bufs w !! i) (snapshots new).
Proof.
  intros Hr Hi Hz.
  assert (Hne : forall new, trace (final c w) = trace w ++ new -> snapshots new <> []).
  { intros new Hn Hs.
    assert (Hd : dispatches new = []).
    { clear -Hs. induction new as [|e new IH]; [ reflexivity | ].
      destruct e; cbn in Hs; try discriminate Hs. cbn. by apply IH. }
    assert (Hall : dispatches (trace (final c w)) = dispatches (trace w))
      by (rewrite Hn, dispatches_app, Hd; apply app_nil_r).
    destruct c as [a|a|a|a].
    - destruct (mha_fwd_ok_trace a w r Hr) as (lp & st & Htr & _).
      rewrite Htr, !dispatches_app in Hall. cbn [dispatches flat_map app] in Hall.
      apply (f_equal length) in Hall. rewrite !length_app in Hall. cbn in Hall. lia.
    - destruct (mha_bwd_ok_trace a w r Hr) as (p0 & st0 & p1 & st1 & Htr & _).
      rewrite Htr, !dispatches_app in Hall. cbn [dispatches flat_map app] in Hall.
      apply (f_equal length) in Hall. rewrite !length_app in Hall. cbn in Hall. lia.
    - destruct (mha_fwd_block_ok_trace a w r Hr) as (lp0 & st0 & lp & st & Htr & _).
      rewrite Htr, !dispatches_app in Hall. cbn [dispatches flat_map app] in Hall.
      apply (f_equal length) in Hall. rewrite !length_app in Hall. cbn in Hall. lia.
    - destruct (mha_bwd_block_ok_trace a w r Hr) as (p & st & Htr & _).
      rewrite Htr, !dispatches_app in Hall. cbn [dispatches flat_map app] in Hall.
      apply (f_equal length) in Hall. rewrite !length_app in Hall. cbn in Hall. lia. }
  assert (Hex : exists new, trace (final c w) = trace w ++ new
                /\ Forall (fun st => st !! i = bufs w !! i) (snapshots new)).
  { destruct c as [a|a|a|a]; cbn [call_zeroed] in Hz.
    - apply (mha_fwd_ok_snapshots a w r i Hr Hi).
      intros Ez. rewrite Ez in Hz. intros E. apply Hz. rewrite <- E. cbn. left.
    - apply (mha_bwd_ok_snapshots a w r i Hr Hi).
      intros Ez. rewrite Ez in Hz. cbn in Hz. rewrite !not_elem_of_cons in Hz.
      destruct Hz as (H1 & H2 & H3 & _). repeat split; congruence.
    - apply (mha_fwd_block_ok_snapshots a w r i Hr Hi).
    - apply (mha_bwd_block_ok_snapshots a w r i Hr Hi). }
  destruct Hex as (new & Hn & Hall). exists new. split; [ exact Hn | ].
  split; [ by apply Hne | exact Hall ].
Qed.

End OkFrame.

(** * The tensors a call returns *)

Section Returns.
Context `{KN : Kernels}.

Lemma live_alloc_world c sizes init w i :
  is_Some (bufs w !! i) -> is_Some (bufs (alloc_world c sizes init w) !! i).
Proof. intros Hi. by rewrite lookup_alloc_world. Qed.

Lemma live_after_new_tensor sizes init w i :
  is_Some (bufs w !! i) -> is_Some (bufs (new_tensor_world sizes init w) !! i).
Proof. intros Hi. by rewrite lookup_new_tensor_world. Qed.

Lemma live_slice_world t stop w i :
  is_Some (bufs w !! i) -> is_Some (bufs (slice_world t stop w) !! i).
Proof. intros Hi. by rewrite lookup_slice_world. Qed.

(** X13. A dense forward call that returns gives back the LogSumExp
    tensor, a [float] tensor of shape (batch, heads, padded query
    length) in a buffer that did not exist before the call, followed by
    the probability matrix exactly when [return_softmax] is set: a
    tensor of [q]'s element type and shape (batch, heads, padded query
    length, padded key length) in another new buffer. These are the
    buffers the kernel launch, the last event of the call, was given for
    the LogSumExp and the probabilities; without [return_softmax] it was
    given no buffer for the probabilities. *)
Theorem X13_fwd_returns (a : fwd_args) (w : World) (r : list Tensor) :
  result (fwd a) w = Ok r ->
  let b := batch_size_of (f_cu_seqlens_q a) in
  let h := num_heads_of (f_q a) in
  let sq := padded_max_seqlen_q (f_max_seqlen_q_ a) in
  let sk := padded_max_seqlen_k (f_max_seqlen_k_ a)
              (fwd_blocksize_c (head_size_of (f_q a))) in
  exists softmax_lse rest k lp st,
    r = softmax_lse :: rest
    /\ t_dtype softmax_lse = kFloat
    /\ t_sizes softmax_lse = [b; h; sq]
    /\ bufs w !! t_buf softmax_lse = None
    /\ last (trace (final (fwd a) w)) = Some (EvFwd k false lp st)
    /\ softmax_lse_ptr (lp_params lp) = data_ptr softmax_lse
    /\ (f_return_softmax a = false -> rest = [] /\ s_ptr (lp_params lp) = None)
    /\ (f_return_softmax a = true ->
        exists s, rest = [s]
                  /\ s_ptr (lp_params lp) = data_ptr s
                  /\ t_dtype s = t_dtype (f_q a)
                  /\ t_sizes s = [b; h; sq; sk]
                  /\ bufs w !! t_buf s = None
                  /\ t_buf s <> t_buf softmax_lse).
Proof.
  intros Hr. cbv zeta.
  pose proof (mha_fwd_ok a w r Hr) as X. cbv zeta in X.
  destruct X as (_ & _ & _ & _ & -> & ->).
  do 5 eexists. split; [ reflexivity | ].
  split; [ reflexivity | ]. split; [ reflexivity | ].
  split; [ | split; [ | split; [ | split ] ] ].
  - cbn [new_tensor_at t_buf]. apply fresh_not_in. intros i Hi.
    by apply live_alloc_world.
  - rewrite trace_fwd_launch_world. apply last_snoc.
  - cbn [lp_params]. destruct (is_dropout_of (f_p_dropout a)); reflexivity.
  - intros ->. split; [ reflexivity | ].
    cbn [lp_params]. destruct (is_dropout_of (f_p_dropout a)); reflexivity.
  - intros ->. cbn [alloc_tensor]. eexists. split; [ reflexivity | ].
    split; [ cbn [lp_params]; destruct (is_dropout_of (f_p_dropout a)); reflexivity | ].
    split; [ reflexivity | ]. split; [ reflexivity | ]. split.
    + cbn [new_tensor_at t_buf]. apply fresh_not_in. intros i Hi.
      by apply live_after_new_tensor, live_alloc_world.
    + apply new_tensor_at_ne. apply live_new_tensor_world.
Qed.

(** X14. A block-sparse forward call that returns gives back, first, an
    output tensor it allocated itself: [q]'s element type, shape (total
    query rows, heads, head size), in a buffer that did not exist before
    the call. The kernel launch is given that buffer as its output, and
    it holds zeros when the launch starts; so does the probability
    matrix when it was requested. The LogSumExp tensor comes second, in
    the buffer the launch was given for it. *)
Theorem X14_fwd_block_output_allocated_zeroed (a : fwd_block_args) (w : World)
    (r : list Tensor) :
  result (fwd_block a) w = Ok r ->
  exists o softmax_lse rest pre lp st,
    r = o :: softmax_lse :: rest
    /\ t_dtype o = t_dtype (fb_q a)
    /\ t_sizes o = [total_of (fb_q a); num_heads_of (fb_q a); head_size_of (fb_q a)]
    /\ bufs w !! t_buf o = None
    /\ t_dtype softmax_lse = kFloat
    /\ t_sizes softmax_lse
       = [batch_size_of (fb_cu_seqlens_q a); num_heads_of (fb_q a);
          padded_max_seqlen_q (fb_max_seqlen_q_ a)]
    /\ trace (final (fwd_block a) w)
       = trace w ++ pre ++ [EvFwd fmha_block_fp16_sm80 false lp st]
    /\ o_ptr (lp_params lp) = data_ptr o
    /\ softmax_lse_ptr (lp_params lp) = data_ptr softmax_lse
    /\ filled o zero_cell st
    /\ (fb_return_softmax a = false -> rest = [] /\ s_ptr (lp_params lp) = None)
    /\ (fb_return_softmax a = true ->
        exists s, rest = [s] /\ s_ptr (lp_params lp) = data_ptr s
                  /\ filled s zero_cell st).
Proof.
  intros Hr.
  pose proof (mha_fwd_block_ok a w r Hr) as X. cbv zeta in X.
  destruct X as (_ & _ & _ & _ & -> & ->).
  match goal with
  | |- context [block_fwd_configure_world ?l ?w4] => set (lp0 := l); set (W4 := w4)
  end.
  assert (T4 : trace W4 = trace w) by (subst W4; autorewrite with world; reflexivity).
  set (osz := [total_of (fb_q a); num_heads_of (fb_q a); head_size_of (fb_q a)]) in *.
  set (o := new_tensor_at osz (t_dtype (fb_q a)) w) in *.
  assert (Ho : bufs W4 !! t_buf o = Some (replicate (Z.to_nat (numel o)) zero_cell)).
  { subst W4.
    assert (L1 : is_Some (bufs (new_tensor_world osz zero_cell w) !! t_buf o))
      by apply live_new_tensor_world.
    rewrite lookup_alloc_world, lookup_new_tensor_world, lookup_alloc_world;
      [ apply lookup_new_tensor_world_eq | exact L1 | by apply live_alloc_world
      | by apply live_after_new_tensor, live_alloc_world ]. }
  assert (Hs : fb_return_softmax a = true ->
               forall s, alloc_tensor (fb_return_softmax a)
                           [batch_size_of (fb_cu_seqlens_q a); num_heads_of (fb_q a);
                            padded_max_seqlen_q (fb_max_seqlen_q_ a);
                            block_max_seqlen_k (fb_max_seqlen_k_ a)]
                           (t_dtype (fb_q a))
                           (new_tensor_world
                              [batch_size_of (fb_cu_seqlens_q a); num_heads_of (fb_q a);
                               padded_max_seqlen_q (fb_max_seqlen_q_ a)] Indet
                              (alloc_world (block_max_seqlen_k (fb_max_seqlen_k_ a) >? 256)
                                 osz Indet (new_tensor_world osz zero_cell w))) = Some s ->
               bufs W4 !! t_buf s = Some (replicate (Z.to_nat (numel s)) zero_cell)).
  { intros E s. subst W4. rewrite E. cbn [alloc_tensor alloc_world].
    intros [= <-]. apply lookup_new_tensor_world_eq. }
  assert (Hp : o_ptr (lp_params lp0) = data_ptr o) by reflexivity.
  assert (Hl : softmax_lse_ptr (lp_params lp0)
               = data_ptr (new_tensor_at
                             [batch_size_of (fb_cu_seqlens_q a); num_heads_of (fb_q a);
                              padded_max_seqlen_q (fb_max_seqlen_q_ a)] kFloat
                             (alloc_world (block_max_seqlen_k (fb_max_seqlen_k_ a) >? 256)
                                osz Indet (new_tensor_world osz zero_cell w))))
    by reflexivity.
  assert (Hsp : s_ptr (lp_params lp0)
                = if fb_return_softmax a
                  then opt_ptr (alloc_tensor (fb_return_softmax a)
                           [batch_size_of (fb_cu_seqlens_q a); num_heads_of (fb_q a);
                            padded_max_seqlen_q (fb_max_seqlen_q_ a);
                            block_max_seqlen_k (fb_max_seqlen_k_ a)]
                           (t_dtype (fb_q a))
                           (new_tensor_world
                              [batch_size_of (fb_cu_seqlens_q a); num_heads_of (fb_q a);
                               padded_max_seqlen_q (fb_max_seqlen_q_ a)] Indet
                              (alloc_world (block_max_seqlen_k (fb_max_seqlen_k_ a) >? 256)
                                 osz Indet (new_tensor_world osz zero_cell w))))
                  else None) by reflexivity.
  clearbody lp0 W4.
  eexists _, _, _,
    ([EvFwd fmha_block_fp16_sm80 true lp0 (bufs W4)]
     ++ (if is_dropout_of (fb_p_dropout a)
         then [EvPhilox (gen_ref (fb_gen_ a)) (block_fwd_configure lp0)] else [])), _, _.
  split; [ reflexivity | ]. split; [ reflexivity | ]. split; [ reflexivity | ].
  split; [ apply fresh_not_in; intros i Hi; exact Hi | ].
  split; [ reflexivity | ]. split; [ reflexivity | ].
  split.
  { autorewrite with world. rewrite trace_dropout_reserve.
    autorewrite with world. rewrite T4, <- !app_assoc. reflexivity. }
  split.
  { destruct (is_dropout_of (fb_p_dropout a)); exact Hp. }
  split.
  { destruct (is_dropout_of (fb_p_dropout a)); exact Hl. }
  split.
  { unfold filled. rewrite bufs_dropout_reserve, bufs_block_fwd_configure_world.
    exact Ho. }
  split.
  { intros E. rewrite E in Hsp |- *. split; [ reflexivity | ].
    destruct (is_dropout_of (fb_p_dropout a)); exact Hsp. }
  intros E. specialize (Hs E). rewrite E in Hs, Hsp |- *. cbn [alloc_tensor] in *.
  eexists. split; [ reflexivity | ]. split.
  - destruct (is_dropout_of (fb_p_dropout a)); exact Hsp.
  - unfold filled. rewrite bufs_dropout_reserve, bufs_block_fwd_configure_world.
    apply Hs. reflexivity.
Qed.

(** X15. A backward call (dense or block-sparse) that returns gives back
    the caller's own [dq], [dk] and [dv] tensors, in that order, followed
    by [softmax_d]: a [float] tensor of shape (batch, heads, padded
    query length) in a buffer that did not exist before the call. *)
Theorem X15_bwd_returns (c : call) (w : World) (r : list Tensor) :
  result c w = Ok r ->
  is_backward c = true ->
  exists softmax_d,
    r = call_grads c ++ [softmax_d]
    /\ t_dtype softmax_d = kFloat
    /\ t_sizes softmax_d
       = [batch_size_of (call_cu_seqlens_q c); num_heads_of (call_q c);
          padded_max_seqlen_q (call_max_seqlen_q_ c)]
    /\ bufs w !! t_buf softmax_d = None.
Proof.
  intros Hr Hb. destruct c as [a|a|a|a]; try discriminate Hb;
    cbn [call_grads call_cu_seqlens_q call_q call_max_seqlen_q_].
  - pose proof (mha_bwd_ok a w r Hr) as X. cbv zeta in X.
    destruct X as (_ & _ & _ & _ & _ & _ & -> & _).
    eexists. split; [ reflexivity | ].
    split; [ reflexivity | ]. split; [ reflexivity | ].
    cbn [new_tensor_at t_buf]. apply fresh_not_in. intros i Hi.
    by apply live_slice_world.
  - pose proof (mha_bwd_block_ok a w r Hr) as X. cbv zeta in X.
    destruct X as (_ & _ & _ & _ & _ & -> & _).
    eexists. split; [ reflexivity | ].
    split; [ reflexivity | ]. split; [ reflexivity | ].
    cbn [new_tensor_at t_buf]. apply fresh_not_in. intros i Hi.
    by apply live_slice_world.
Qed.

(** X16. When a dense backward call with [zero_tensors] set returns, and
    the caller's [dq], [dk] and [dv] are three different existing
    buffers, then at both calls of the launcher (the configure pass and
    the kernel launch) the three gradient buffers and the [softmax_d]
    buffer (the last tensor returned) hold zeros. *)
Theorem X16_bwd_zero_tensors (a : bwd_args) (w : World) (r : list Tensor) :
  result (bwd a) w = Ok r ->
  b_zero_tensors a = true ->
  Forall (fun t => is_Some (bufs w !! t_buf t)) [b_dq a; b_dk a; b_dv a] ->
  NoDup [t_buf (b_dq a); t_buf (b_dk a); t_buf (b_dv a)] ->
  exists new softmax_d,
    trace (final (bwd a) w) = trace w ++ new
    /\ last r = Some softmax_d
    /\ length (snapshots new) = 2%nat
    /\ Forall (fun st => Forall (fun t => filled t zero_cell st)
                           [b_dq a; b_dk a; b_dv a; softmax_d])
         (snapshots new).
Proof.
  intros Hr Hz Hlive Hnd.
  rewrite !Forall_cons in Hlive. destruct Hlive as (Lq & Lk & Lv & _).
  rewrite !NoDup_cons in Hnd. destruct Hnd as (Nq & Nk & _).
  repeat rewrite not_elem_of_cons in Nq. repeat rewrite not_elem_of_cons in Nk.
  destruct Nq as (Nqk & Nqv & _). destruct Nk as (Nkv & _).
  pose proof (mha_bwd_ok a w r Hr) as X. cbv zeta in X.
  destruct X as (_ & _ & _ & _ & _ & _ & -> & ->).
  match goal with
  | |- context [fill_world ?t zero_cell (fill_world (b_dv a) _ _)] => set (sd := t) in *
  end.
  match goal with
  | |- context [alloc_world ?c ?s Indet ?w2] =>
      set (lp := c) in *; set (tsz := s) in *; set (W2 := w2) in *
  end.
  match goal with
  | |- context [bwd_configure_world ?k ?p ?w4] =>
      set (kn := k); set (p0 := p); set (W4 := w4)
  end.
  assert (T4 : trace W4 = trace w)
    by (subst W4 W2; rewrite Hz; autorewrite with world; reflexivity).
  assert (LW2 : forall i, is_Some (bufs w !! i) -> is_Some (bufs W2 !! i)).
  { intros i Hi. subst W2. by apply live_after_new_tensor, live_slice_world. }
  assert (Lsd : is_Some (bufs W2 !! t_buf sd)).
  { subst W2 sd. apply live_new_tensor_world. }
  assert (Nsd : forall i, is_Some (bufs w !! i) -> t_buf sd ≠ i).
  { intros i Hi. subst sd. apply new_tensor_at_ne. by apply live_slice_world. }
  assert (F4 : Forall (fun t => filled t zero_cell (bufs W4))
                 [b_dq a; b_dk a; b_dv a; sd]).
  { pose proof (Nsd _ Lq). pose proof (Nsd _ Lk). pose proof (Nsd _ Lv).
    subst W4. rewrite Hz. unfold filled. repeat constructor.
    - rewrite !lookup_fill_world by congruence. apply lookup_fill_world_eq.
    - rewrite !lookup_fill_world by congruence. apply lookup_fill_world_eq.
    - rewrite !lookup_fill_world by congruence. apply lookup_fill_world_eq.
    - apply lookup_fill_world_eq. }
  assert (L4 : Forall (fun t => is_Some (bufs W4 !! t_buf t))
                 [b_dq a; b_dk a; b_dv a; sd]).
  { eapply Forall_impl; [ exact F4 | ]. intros t Ht. unfold filled in Ht.
    rewrite Ht. eauto. }
  match goal with
  | |- context [alloc_tensor lp tsz ?d W2] => set (T0 := alloc_tensor lp tsz d W2) in *
  end.
  assert (HT0 : forall t, T0 = Some t ->
                Forall (fun t' => t_buf t ≠ t_buf t') [b_dq a; b_dk a; b_dv a; sd]).
  { subst T0. unfold alloc_tensor. intros t Ht.
    destruct lp; [ | discriminate Ht ]. injection Ht as <-.
    repeat constructor; apply new_tensor_at_ne; first [ by apply LW2 | exact Lsd ]. }
  clearbody p0 W4 T0.
  assert (F5 : Forall (fun t => filled t zero_cell (bufs (bwd_configure_world kn p0 W4)))
                 [b_dq a; b_dk a; b_dv a; sd])
    by (rewrite bufs_bwd_configure_world; exact F4).
  assert (F6 : forall t, T0 = Some t ->
               Forall (fun t' => filled t' zero_cell
                          (bufs (fill_world t zero_cell (bwd_configure_world kn p0 W4))))
                 [b_dq a; b_dk a; b_dv a; sd]).
  { intros t Ht. specialize (HT0 t Ht).
    apply Forall_forall. intros t' Hin. unfold filled.
    rewrite lookup_fill_world by exact (proj1 (Forall_forall _ _) HT0 t' Hin).
    rewrite bufs_bwd_configure_world.
    exact (proj1 (Forall_forall _ _) F4 t' Hin). }
  assert (N6 : forall sizes,
               Forall (fun t' => filled t' zero_cell
                          (bufs (new_tensor_world sizes zero_cell
                                   (bwd_configure_world kn p0 W4))))
                 [b_dq a; b_dk a; b_dv a; sd]).
  { intros sizes.
    apply Forall_forall. intros t' Hin. unfold filled.
    rewrite lookup_new_tensor_world
      by (rewrite bufs_bwd_configure_world;
          exact (proj1 (Forall_forall _ _) L4 t' Hin)).
    rewrite bufs_bwd_configure_world.
    exact (proj1 (Forall_forall _ _) F4 t' Hin). }
  destruct (bwd_configure kn p0 >? 1); [ destruct T0 as [t|] | ]; cbn [fst snd];
    (eexists; exists sd; split;
     [ autorewrite with world; rewrite trace_dropout_reserve;
       autorewrite with world; rewrite T4, <- !app_assoc; reflexivity
     | split; [ reflexivity | ];
       rewrite !snapshots_app, snapshots_dropout;
       cbn [snapshots flat_map app];
       split; [ reflexivity | ];
       (apply Forall_cons_2; [ | apply Forall_cons_2; [ | apply Forall_nil_2 ] ]);
       rewrite ?bufs_dropout_reserve;
       first [ exact F4 | exact F5 | exact (F6 t eq_refl) | apply N6 ] ]).
Qed.

End Returns.

(** * What the launchers are given *)

Section LaunchInputs.
Context `{KN : Kernels}.

Lemma block_max_seqlen_k_spec (x : Z) :
  -256 < x <= INT_MAX - 256 ->
  0 < block_max_seqlen_k x <= INT_MAX
  /\ if x <=? 256 then block_max_seqlen_k x = 256
     else rounds_up x 256 (block_max_seqlen_k x).
Proof.
  intros Hx.
  pose proof (round_multiple_rounds_up x 256 ltac:(lia) ltac:(unfold INT_MAX in *; lia))
    as [[q Hq] Hr].
  unfold block_max_seqlen_k. cbv zeta. unfold INT_MAX in *.
  destruct (x <=? 256) eqn:E1; [ apply Z.leb_le in E1 | apply Z.leb_gt in E1 ].
  - destruct (round_multiple x 256 <=? 256) eqn:E2; [ lia | ].
    apply Z.leb_gt in E2. lia.
  - destruct (round_multiple x 256 <=? 256) eqn:E2;
      [ apply Z.leb_le in E2; lia | ].
    apply Z.leb_gt in E2. split; [ lia | ].
    split; [ exists q; exact Hq | lia ].
Qed.

Lemma int_div_nonneg (x m : Z) : 0 <= x <= INT_MAX -> 0 < m -> int_div x m = x / m.
Proof.
  intros Hx Hm. unfold int_div. rewrite Z.quot_div_nonneg by lia.
  apply to_int_id. unfold fits_int, INT_MIN, INT_MAX in *.
  pose proof (Z.div_pos x m ltac:(lia) Hm).
  pose proof (Z.div_le_upper_bound x m x Hm ltac:(nia)). lia.
Qed.

(** X17. When a block-sparse call returns and the padding sums fit a C
    [int], every launcher call it made carries the same padded lengths
    [sq] and [sk] and the caller's block mask: [sq] is the raw maximal
    query length rounded up to a multiple of 16, [sk] is 256 when the
    raw maximal key length is at most 256 and else the raw length
    rounded up to a multiple of 256, and the block mask the call
    accepted has shape ([sk] / 256, [sq] / 16). The first launcher call
    is given a temporary accumulator iff [sk] exceeds 256. *)
Theorem X17_block_tiling (c : call) (w : World) (r : list Tensor) (bm : Tensor) :
  result c w = Ok r ->
  call_blockmask c = Some bm ->
  -16 < call_max_seqlen_q_ c <= INT_MAX - 16 ->
  -256 < call_max_seqlen_k_ c <= INT_MAX - 256 ->
  exists sq sk p ps,
    flat_map launched_params (trace (final c w))
    = flat_map launched_params (trace w) ++ p :: ps
    /\ Forall (fun p' => params_seqlen_q p' = sq /\ params_seqlen_k p' = sk
                         /\ blockmask p' = data_ptr bm) (p :: ps)
    /\ rounds_up (call_max_seqlen_q_ c) 16 sq
    /\ (if call_max_seqlen_k_ c <=? 256 then sk = 256
        else rounds_up (call_max_seqlen_k_ c) 256 sk)
    /\ t_sizes bm = [sk / 256; sq / 16]
    /\ (is_Some (o_tmp_ptr p) <-> 256 < sk).
Proof.
  intros Hr Hbm Hq Hk.
  assert (Rq : rounds_up (call_max_seqlen_q_ c) 16
                 (padded_max_seqlen_q (call_max_seqlen_q_ c)))
    by (apply round_multiple_rounds_up; unfold INT_MAX in *; lia).
  destruct (block_max_seqlen_k_spec (call_max_seqlen_k_ c) Hk) as [Bk Rk].
  assert (Dq : int_div (padded_max_seqlen_q (call_max_seqlen_q_ c)) 16
               = padded_max_seqlen_q (call_max_seqlen_q_ c) / 16).
  { apply int_div_nonneg; [ | lia ]. destruct Rq as [[q0 Hq0] Hr0].
    unfold INT_MAX in *. lia. }
  assert (Dk : int_div (block_max_seqlen_k (call_max_seqlen_k_ c)) 256
               = block_max_seqlen_k (call_max_seqlen_k_ c) / 256)
    by (apply int_div_nonneg; lia).
  exists (padded_max_seqlen_q (call_max_seqlen_q_ c)),
    (block_max_seqlen_k (call_max_seqlen_k_ c)).
  destruct c as [a|a|a|a]; try discriminate Hbm;
    cbn [call_blockmask call_max_seqlen_q_ call_max_seqlen_k_] in *;
    injection Hbm as <-.
  - assert (Hshape : t_sizes (fb_blockmask a)
                     = [block_max_seqlen_k (fb_max_seqlen_k_ a) / 256;
                        padded_max_seqlen_q (fb_max_seqlen_q_ a) / 16]).
    { rewrite <- Dq, <- Dk.
      pose proof (mha_fwd_block_checks a w r Hr) as X. split_checks X.
      by_check. }
    pose proof (mha_fwd_block_ok a w r Hr) as X. cbv zeta in X.
    destruct X as (_ & _ & _ & _ & _ & ->).
    match goal with
    | |- context [block_fwd_configure_world ?l ?w4] => set (lp0 := l); set (W4 := w4)
    end.
    assert (T4 : trace W4 = trace w) by (subst W4; autorewrite with world; reflexivity).
    assert (H0 : params_seqlen_q (lp_params lp0)
                 = padded_max_seqlen_q (fb_max_seqlen_q_ a)
                 /\ params_seqlen_k (lp_params lp0)
                    = block_max_seqlen_k (fb_max_seqlen_k_ a)
                 /\ blockmask (lp_params lp0) = data_ptr (fb_blockmask a))
      by (repeat split; reflexivity).
    assert (Ho : is_Some (o_tmp_ptr (lp_params lp0))
                 <-> 256 < block_max_seqlen_k (fb_max_seqlen_k_ a)).
    { subst lp0. cbn [lp_params]. rewrite (proj1 (proj2 (proj2 (proj2 (proj2 (proj2 (proj2
        (with_blockmask_other _ _)))))))), o_tmp_ptr_fields.
      rewrite is_Some_opt_ptr_alloc, Z.gtb_ltb, Z.ltb_lt. reflexivity. }
    clearbody lp0 W4.
    exists (lp_params lp0). eexists.
    split; [ | split; [ | split; [ exact Rq | split; [ exact Rk | split;
      [ exact Hshape | exact Ho ] ] ] ] ].
    + autorewrite with world. rewrite trace_dropout_reserve.
      autorewrite with world.
      rewrite T4, !flat_map_app, launched_params_dropout.
      cbn [flat_map launched_params app]. rewrite <- !app_assoc. cbn [app].
      reflexivity.
    + constructor; [ exact H0 | ]. constructor; [ | constructor ].
      destruct (is_dropout_of (fb_p_dropout a)); exact H0.
  - assert (Hshape : t_sizes (bb_blockmask a)
                     = [block_max_seqlen_k (bb_max_seqlen_k_ a) / 256;
                        padded_max_seqlen_q (bb_max_seqlen_q_ a) / 16]).
    { rewrite <- Dq, <- Dk.
      pose proof (mha_bwd_block_checks a w r Hr) as X. split_checks X.
      by_check. }
    pose proof (mha_bwd_block_ok a w r Hr) as X. cbv zeta in X.
    destruct X as (_ & _ & _ & _ & _ & _ & ->).
    match goal with
    | |- context [block_dgrad_launch_world _ (if _ then reserve_world _ _ ?w3 else _)] =>
        set (W3 := w3)
    end.
    assert (T3 : trace W3 = trace w) by (subst W3; autorewrite with world; reflexivity).
    clearbody W3.
    do 2 eexists.
    split; [ | split; [ | split; [ exact Rq | split; [ exact Rk | split;
      [ exact Hshape | ] ] ] ] ].
    + autorewrite with world. rewrite trace_dropout_reserve, T3.
      rewrite !flat_map_app, launched_params_dropout.
      cbn [flat_map launched_params app]. rewrite app_nil_r. reflexivity.
    + constructor; [ | constructor ].
      destruct (is_dropout_of (bb_p_dropout a)); repeat split; reflexivity.
    + replace (o_tmp_ptr (fprop (if is_dropout_of (bb_p_dropout a) then _ else _)))
        with (if block_max_seqlen_k (bb_max_seqlen_k_ a) >? 256
              then opt_ptr (alloc_tensor (block_max_seqlen_k (bb_max_seqlen_k_ a) >? 256)
                     [total_of (bb_q a); num_heads_of (bb_q a); head_size_of (bb_q a)]
                     kFloat
                     (new_tensor_world
                        [batch_size_of (bb_cu_seqlens_q a); num_heads_of (bb_q a);
                         padded_max_seqlen_q (bb_max_seqlen_q_ a)] Indet
                        (slice_world (bb_softmax_lse_ a)
                           (padded_max_seqlen_q (bb_max_seqlen_q_ a)) w)))
              else None)
        by (destruct (is_dropout_of (bb_p_dropout a)); reflexivity).
      rewrite is_Some_opt_ptr_alloc, Z.gtb_ltb, Z.ltb_lt. reflexivity.
Qed.

(** X18. Every launcher call of a call that returns is given the
    caller's inputs: the buffers of [q], [k], [v] and of the sequence
    offsets (no tensor is copied or made contiguous), the row and head
    strides of [q], [k] and [v] as the 32-bit unsigned fields of the
    parameter struct hold them, that is reduced modulo [2^32], the batch
    size, head count and head size read off [cu_seqlens_q] and [q], the
    softmax scale, the causal flag, the keep probability
    [1 - p_dropout], the block mask of a block-sparse call (none for a
    dense one) and, except in the block-sparse forward call, the
    caller's output buffer with its strides modulo [2^32]. *)
Theorem X18_launch_carries_inputs (c : call) (w : World) (r : list Tensor) :
  result c w = Ok r ->
  exists ps,
    flat_map launched_params (trace (final c w))
    = flat_map launched_params (trace w) ++ ps
    /\ ps <> []
    /\ Forall (carries_inputs c) ps.
Proof.
  intros Hr. destruct c as [a|a|a|a].
  - pose proof (mha_fwd_ok a w r Hr) as X. cbv zeta in X.
    destruct X as (_ & _ & _ & _ & _ & ->).
    match goal with
    | |- context [fwd_launch_world _ _ (if _ then reserve_world _ _ ?w4 else _)] =>
        set (W4 := w4)
    end.
    assert (T4 : trace W4 = trace w).
    { subst W4. destruct (f_zero_tensors a);
        [ destruct (alloc_tensor (f_return_softmax a) _ _ _) | ];
        autorewrite with world; reflexivity. }
    clearbody W4.
    eexists. split; [ | split ].
    + rewrite trace_fwd_launch_world, trace_dropout_reserve, T4.
      rewrite !flat_map_app, launched_params_dropout, app_nil_r. reflexivity.
    + discriminate.
    + cbn [flat_map launched_params app lp_params]. constructor; [ | constructor ].
      destruct (is_dropout_of (f_p_dropout a)); repeat split; reflexivity.
  - pose proof (mha_bwd_ok a w r Hr) as X. cbv zeta in X.
    destruct X as (_ & _ & _ & _ & _ & _ & _ & ->).
    match goal with
    | |- context [bwd_configure_world ?k ?p ?w4] =>
        set (kn := k); set (p0 := p); set (W4 := w4)
    end.
    assert (T4 : trace W4 = trace w).
    { subst W4. destruct (b_zero_tensors a); autorewrite with world; reflexivity. }
    assert (H0 : carries_inputs (bwd a) (fprop p0)) by (repeat split; reflexivity).
    clearbody p0 W4.
    destruct (bwd_configure kn p0 >? 1);
      [ destruct (alloc_tensor _ _ _ _) as [t|] | ]; cbn [fst snd];
      (eexists; split; [ | split ];
       [ autorewrite with world; rewrite trace_dropout_reserve;
         autorewrite with world; rewrite T4, !flat_map_app, launched_params_dropout;
         cbn [flat_map launched_params app]; rewrite <- !app_assoc; cbn [app];
         reflexivity
       | discriminate
       | constructor; [ exact H0 | ];
         constructor; [ | constructor ];
         destruct (is_dropout_of (b_p_dropout a)); exact H0 ]).
  - pose proof (mha_fwd_block_ok a w r Hr) as X. cbv zeta in X.
    destruct X as (_ & _ & _ & _ & _ & ->).
    match goal with
    | |- context [block_fwd_configure_world ?l ?w4] => set (lp0 := l); set (W4 := w4)
    end.
    assert (T4 : trace W4 = trace w) by (subst W4; autorewrite with world; reflexivity).
    assert (H0 : carries_inputs (fwd_block a) (lp_params lp0))
      by (repeat split; reflexivity).
    clearbody lp0 W4.
    eexists. split; [ | split ].
    + autorewrite with world. rewrite trace_dropout_reserve.
      autorewrite with world.
      rewrite T4, !flat_map_app, launched_params_dropout.
      cbn [flat_map launched_params app]. rewrite <- !app_assoc. cbn [app].
      reflexivity.
    + discriminate.
    + constructor; [ exact H0 | ]. constructor; [ | constructor ].
      destruct (is_dropout_of (fb_p_dropout a)); exact H0.
  - pose proof (mha_bwd_block_ok a w r Hr) as X. cbv zeta in X.
    destruct X as (_ & _ & _ & _ & _ & _ & ->).
    match goal with
    | |- context [block_dgrad_launch_world _ (if _ then reserve_world _ _ ?w3 else _)] =>
        set (W3 := w3)
    end.
    assert (T3 : trace W3 = trace w) by (subst W3; autorewrite with world; reflexivity).
    clearbody W3.
    eexists. split; [ | split ].
    + autorewrite with world. rewrite trace_dropout_reserve, T3.
      rewrite !flat_map_app, launched_params_dropout.
      cbn [flat_map launched_params app]. rewrite app_nil_r. reflexivity.
    + discriminate.
    + constructor; [ | constructor ].
      destruct (is_dropout_of (bb_p_dropout a)); repeat split; reflexivity.
Qed.

(** X19. Every backward launcher call of a backward call that returns
    (the configure pass and the kernel launch) is given the caller's
    own [dq], [dk] and [dv] buffers, their row and head strides reduced
    modulo [2^32] (the fields are 32-bit unsigned), the caller's [dout]
    buffer, and as [dsoftmax_sum] the buffer of the [softmax_d] tensor
    the call returns last. *)
Theorem X19_bwd_launch_carries_grads (c : call) (w : World) (r : list Tensor) :
  result c w = Ok r ->
  is_backward c = true ->
  exists new softmax_d,
    trace (final c w) = trace w ++ new
    /\ last r = Some softmax_d
    /\ bwd_launches new <> []
    /\ Forall (fun l => carries_grads c softmax_d (fst l)) (bwd_launches new).
Proof.
  intros Hr Hb. destruct c as [a|a|a|a]; try discriminate Hb.
  - pose proof (mha_bwd_ok a w r Hr) as X. cbv zeta in X.
    destruct X as (_ & _ & _ & _ & _ & _ & -> & ->).
    match goal with
    | |- context [bwd_configure_world ?k ?p ?w4] =>
        set (kn := k); set (p0 := p); set (W4 := w4)
    end.
    assert (T4 : trace W4 = trace w).
    { subst W4. destruct (b_zero_tensors a); autorewrite with world; reflexivity. }
    match goal with
    | |- context [last [_; _; _; ?t]] => set (sd := t) in *
    end.
    assert (H0 : carries_grads (bwd a) sd p0) by (repeat split; reflexivity).
    clearbody p0 W4.
    destruct (bwd_configure kn p0 >? 1);
      [ destruct (alloc_tensor _ _ _ _) as [t|] | ]; cbn [fst snd];
      (eexists; exists sd; split; [ | split; [ reflexivity | ] ];
       [ autorewrite with world; rewrite trace_dropout_reserve;
         autorewrite with world; rewrite T4, <- !app_assoc; reflexivity
       | rewrite !bwd_launches_app, bwd_launches_dropout;
         cbn [bwd_launches flat_map app];
         split; [ discriminate | ];
         constructor; [ exact H0 | ];
         constructor; [ | constructor ];
         destruct (is_dropout_of (b_p_dropout a)); exact H0 ]).
  - pose proof (mha_bwd_block_ok a w r Hr) as X. cbv zeta in X.
    destruct X as (_ & _ & _ & _ & _ & -> & ->).
    match goal with
    | |- context [block_dgrad_launch_world _ (if _ then reserve_world _ _ ?w3 else _)] =>
        set (W3 := w3)
    end.
    assert (T3 : trace W3 = trace w) by (subst W3; autorewrite with world; reflexivity).
    clearbody W3.
    do 2 eexists. split; [ | split; [ reflexivity | ] ].
    + autorewrite with world. rewrite trace_dropout_reserve, T3, <- !app_assoc.
      reflexivity.
    + rewrite !bwd_launches_app, bwd_launches_dropout.
      cbn [bwd_launches flat_map app]. split; [ discriminate | ].
      constructor; [ | constructor ].
      destruct (is_dropout_of (bb_p_dropout a)); repeat split; reflexivity.
Qed.

End LaunchInputs.

(** * The properties on concrete calls *)

(** A head dimension of 64 on an sm80 device. *)
Lemma X1_witness :
  let a := ex_fwd_args 64 16 16 f32_zero false false in
  let w := ex_world 8 0 64 in
  (exists r, result (fwd a) w = Ok r)
  /\ exists k,
       dispatches (trace (final (fwd a) w)) = dispatches (trace w) ++ [k]
       /\ int_rem (head_size_of (f_q a)) 8 = 0
       /\ head_size_of (f_q a) <= 128
       /\ (head_size_of (f_q a) <= 32 -> k = fmha_fwd_hdim32)
       /\ (32 < head_size_of (f_q a) <= 64 -> k = fmha_fwd_hdim64)
       /\ (64 < head_size_of (f_q a) -> k = fmha_fwd_hdim128).
Proof.
  intros a w.
  split; [ eexists; vm_compute; reflexivity | ].
  eapply (X1_fwd_dispatch_by_head_size a w).
  vm_compute. reflexivity.
Defined.

(** A head dimension of 128 on an sm80 device. *)
Lemma X2_witness :
  let a := ex_bwd_args 128 16 16 f32_zero false 1 in
  let w := ex_world 8 0 128 in
  (exists r, result (bwd a) w = Ok r)
  /\ exists k p0 st0 res p1 st1,
       trace (final (bwd a) w)
       = trace w ++ [EvBwd k true p0 st0] ++ res ++ [EvBwd k false p1 st1]
       /\ dispatches res = []
       /\ dispatches (trace (final (bwd a) w)) = dispatches (trace w) ++ [k]
       /\ int_rem (head_size_of (b_q a)) 8 = 0
       /\ head_size_of (b_q a) <= 128
       /\ (head_size_of (b_q a) <= 32 -> k = fmha_bwd_hdim32)
       /\ (32 < head_size_of (b_q a) <= 64 -> k = fmha_bwd_hdim64)
       /\ (64 < head_size_of (b_q a) ->
           k = fmha_bwd_hdim128 /\ is_sm80 (device w) || is_sm90 (device w) = true).
Proof.
  intros a w.
  split; [ eexists; vm_compute; reflexivity | ].
  eapply (X2_bwd_dispatch_by_head_size a w).
  vm_compute. reflexivity.
Defined.

(** The block-sparse backward call with a head dimension of 128. *)
Lemma X3_witness :
  let c := ex_bwd_block 128 f32_zero in
  let w := ex_world 8 0 128 in
  is_block_sparse c = true
  /\ (exists r, result c w = Ok r)
  /\ dispatches (trace (final c w))
     = dispatches (trace w)
         ++ [if is_backward c then fmha_block_dgrad_fp16_sm80 else fmha_block_fp16_sm80]
  /\ (is_backward c = true -> head_size_of (call_q c) = 128 ->
      is_sm80 (device w) || is_sm90 (device w) = true).
Proof.
  intros c w.
  split; [ reflexivity | ].
  split; [ eexists; vm_compute; reflexivity | ].
  eapply (X3_block_dispatch c w).
  - reflexivity.
  - vm_compute. reflexivity.
Defined.

(** The block-sparse forward call on an sm75 device. *)
Lemma X4_witness :
  let c := ex_fwd_block 16 f32_zero in
  let w := ex_world 7 5 16 in
  (if is_block_sparse c
   then is_sm8x (device w) || is_sm90 (device w)
   else is_sm90 (device w) || is_sm8x (device w) || is_sm75 (device w)) = false
  /\ exists msg, result c w = Raise msg /\ final c w = w.
Proof.
  intros c w.
  split; [ reflexivity | ].
  apply (X4_unsupported_device_rejected c w).
  reflexivity.
Defined.

(** A dropout probability of one raises, in [set_params_fprop]. *)
Lemma X5_witness :
  let c := ex_fwd 8 16 16 f32_one true false in
  let w := ex_world 8 0 8 in
  (exists msg, result c w = Raise msg)
  /\ dispatches (trace (final c w)) = dispatches (trace w)
  /\ reservations (trace (final c w)) = reservations (trace w)
  /\ gens (final c w) = gens w.
Proof.
  intros c w.
  split; [ eexists; vm_compute; reflexivity | ].
  eapply (X5_raise_leaves_generators c w).
  vm_compute. reflexivity.
Defined.

(** A call on the default generator, and a generator of the caller. *)
Lemma X6_witness :
  let c := ex_fwd 8 16 16 f32_half false false in
  let w := ex_world 8 0 8 in
  Some 1%nat <> gen_ref (call_gen_ c)
  /\ gens (final c w) (Some 1%nat) = gens w (Some 1%nat).
Proof.
  intros c w.
  split; [ discriminate | ].
  apply (X6_other_generators_untouched c w (Some 1%nat)).
  discriminate.
Defined.

Lemma X7_witness :
  let c := ex_bwd 8 16 16 f32_half false 1 in
  let w := ex_world 8 0 8 in
  (exists r, result c w = Ok r)
  /\ is_dropout_of (call_p_dropout c) = true
  /\ exists off p,
       reservations (trace (final c w))
       = reservations (trace w) ++ [(gen_ref (call_gen_ c), off)]
       /\ last (flat_map launched_params (trace (final c w))) = Some p
       /\ philox_args p
          = Some (fst (philox_cuda_state off (gens w (gen_ref (call_gen_ c)))))
       /\ gens (final c w) (gen_ref (call_gen_ c))
          = snd (philox_cuda_state off (gens w (gen_ref (call_gen_ c)))).
Proof.
  intros c w.
  split; [ eexists; vm_compute; reflexivity | ].
  split; [ reflexivity | ].
  eapply (X7_dropout_philox_state c w).
  - vm_compute. reflexivity.
  - reflexivity.
Defined.

Lemma X8_witness :
  let c := ex_bwd_block 16 f32_zero in
  let w := ex_world 8 0 16 in
  (exists r, result c w = Ok r)
  /\ Forall (fun t => t_dtype t = t_dtype (call_q c)) (call_data_tensors c)
  /\ Forall (fun t => t_dtype t = kInt32) (call_index_tensors c)
  /\ (t_dtype (call_q c) = kFloat16
      \/ (t_dtype (call_q c) = kBFloat16
          /\ is_block_sparse c = false
          /\ is_sm8x (device w) || is_sm90 (device w) = true)).
Proof.
  intros c w.
  split; [ eexists; vm_compute; reflexivity | ].
  eapply (X8_accepted_element_types c w).
  vm_compute. reflexivity.
Defined.

Lemma X9_witness :
  let c := ex_bwd 8 16 16 f32_zero false 1 in
  let w := ex_world 8 0 8 in
  (exists r, result c w = Ok r)
  /\ exists total_q total_k num_heads head_size : Z,
       t_sizes (call_q c) = [total_q; num_heads; head_size]
       /\ fits_int total_q /\ fits_int num_heads /\ fits_int head_size
       /\ fits_int total_k
       /\ Forall (fun t => t_sizes t = [total_q; num_heads; head_size]) (call_q_shaped c)
       /\ Forall (fun t => t_sizes t = [total_k; num_heads; head_size]) (call_k_shaped c)
       /\ 0 < batch_size_of (call_cu_seqlens_q c)
       /\ t_sizes (call_cu_seqlens_q c)
          = [int_add (batch_size_of (call_cu_seqlens_q c)) 1]
       /\ t_sizes (call_cu_seqlens_k c)
          = [int_add (batch_size_of (call_cu_seqlens_q c)) 1].
Proof.
  intros c w.
  split; [ eexists; vm_compute; reflexivity | ].
  eapply (X9_accepted_shapes c w).
  vm_compute. reflexivity.
Defined.

Lemma X10_witness :
  let c := ex_fwd_block 16 f32_zero in
  let w := ex_world 8 0 16 in
  (exists r, result c w = Ok r)
  /\ Forall (fun t => t_is_cuda t = true) (call_cuda_checked c)
  /\ Forall (fun t => last_stride t = Some 1) (call_unit_stride c)
  /\ Forall (fun t => is_contiguous t = true) (call_contiguous c).
Proof.
  intros c w.
  split; [ eexists; vm_compute; reflexivity | ].
  eapply (X10_accepted_layout c w).
  vm_compute. reflexivity.
Defined.

(** The forward call that zeroes [out] (buffer 3) and then raises on its
    dropout probability has left [q] (buffer 0) as it was. *)
Lemma X11_witness :
  let c := ex_fwd 8 16 16 f32_one true false in
  let w := ex_world 8 0 8 in
  (exists msg, result c w = Raise msg)
  /\ is_Some (bufs w !! 0%nat)
  /\ (0%nat ∉ (t_buf <$> call_zeroed c))
  /\ bufs (final c w) !! 0%nat = bufs w !! 0%nat.
Proof.
  intros c w.
  assert (L : is_Some (bufs w !! 0%nat))
    by (exists (replicate 16 half_cell); vm_compute; reflexivity).
  assert (N : 0%nat ∉ (t_buf <$> call_zeroed c))
    by (cbn; rewrite !not_elem_of_cons; split; [ discriminate | apply not_elem_of_nil ]).
  split; [ eexists; vm_compute; reflexivity | ].
  split; [ exact L | ]. split; [ exact N | ].
  eapply (X11_raise_changes_only_zeroed c w).
  - vm_compute. reflexivity.
  - exact L.
  - exact N.
Defined.

(** A backward call with [zero_tensors] that splits: [q] (buffer 0) is
    not among the gradients (buffers 5 to 7). *)
Lemma X12_witness :
  let c := ex_bwd 8 16 300 f32_half true 0 in
  let w := ex_world 8 0 8 in
  (exists r, result c w = Ok r)
  /\ is_Some (bufs w !! 0%nat)
  /\ (0%nat ∉ (t_buf <$> call_zeroed c))
  /\ exists new,
       trace (final c w) = trace w ++ new
       /\ snapshots new <> []
       /\ Forall (fun st => st !! 0%nat = bufs w !! 0%nat) (snapshots new).
Proof.
  intros c w.
  assert (L : is_Some (bufs w !! 0%nat))
    by (exists (replicate 16 half_cell); vm_compute; reflexivity).
  assert (N : 0%nat ∉ (t_buf <$> call_zeroed c))
    by (cbn; rewrite !not_elem_of_cons;
        repeat split; try discriminate; apply not_elem_of_nil).
  split; [ eexists; vm_compute; reflexivity | ].
  split; [ exact L | ]. split; [ exact N | ].
  eapply (X12_inputs_reach_kernel_unmodified c w).
  - vm_compute. reflexivity.
  - exact L.
  - exact N.
Defined.

Lemma X13_witness :
  let a := ex_fwd_args 8 16 16 f32_half false true in
  let w := ex_world 8 0 8 in
  exists r,
    result (fwd a) w = Ok r
    /\ exists softmax_lse rest k lp st,
         r = softmax_lse :: rest
         /\ t_dtype softmax_lse = kFloat
         /\ t_sizes softmax_lse
            = [batch_size_of (f_cu_seqlens_q a); num_heads_of (f_q a);
               padded_max_seqlen_q (f_max_seqlen_q_ a)]
         /\ bufs w !! t_buf softmax_lse = None
         /\ last (trace (final (fwd a) w)) = Some (EvFwd k false lp st)
         /\ softmax_lse_ptr (lp_params lp) = data_ptr softmax_lse
         /\ (f_return_softmax a = false -> rest = [] /\ s_ptr (lp_params lp) = None)
         /\ (f_return_softmax a = true ->
             exists s, rest = [s]
                       /\ s_ptr (lp_params lp) = data_ptr s
                       /\ t_dtype s = t_dtype (f_q a)
                       /\ t_sizes s
                          = [batch_size_of (f_cu_seqlens_q a); num_heads_of (f_q a);
                             padded_max_seqlen_q (f_max_seqlen_q_ a);
                             padded_max_seqlen_k (f_max_seqlen_k_ a)
                               (fwd_blocksize_c (head_size_of (f_q a)))]
                       /\ bufs w !! t_buf s = None
                       /\ t_buf s <> t_buf softmax_lse).
Proof.
  intros a w.
  eexists. split; [ vm_compute; reflexivity | ].
  apply (X13_fwd_returns a w).
  vm_compute. reflexivity.
Defined.

Lemma X14_witness :
  let a := ex_fwd_block_args 16 f32_half true in
  let w := ex_world 8 0 16 in
  exists r,
    result (fwd_block a) w = Ok r
    /\ exists o softmax_lse rest pre lp st,
         r = o :: softmax_lse :: rest
         /\ t_dtype o = t_dtype (fb_q a)
         /\ t_sizes o = [total_of (fb_q a); num_heads_of (fb_q a); head_size_of (fb_q a)]
         /\ bufs w !! t_buf o = None
         /\ t_dtype softmax_lse = kFloat
         /\ t_sizes softmax_lse
            = [batch_size_of (fb_cu_seqlens_q a); num_heads_of (fb_q a);
               padded_max_seqlen_q (fb_max_seqlen_q_ a)]
         /\ trace (final (fwd_block a) w)
            = trace w ++ pre ++ [EvFwd fmha_block_fp16_sm80 false lp st]
         /\ o_ptr (lp_params lp) = data_ptr o
         /\ softmax_lse_ptr (lp_params lp) = data_ptr softmax_lse
         /\ filled o zero_cell st
         /\ (fb_return_softmax a = false -> rest = [] /\ s_ptr (lp_params lp) = None)
         /\ (fb_return_softmax a = true ->
             exists s, rest = [s] /\ s_ptr (lp_params lp) = data_ptr s
                       /\ filled s zero_cell st).
Proof.
  intros a w.
  eexists. split; [ vm_compute; reflexivity | ].
  apply (X14_fwd_block_output_allocated_zeroed a w).
  vm_compute. reflexivity.
Defined.

Lemma X15_witness :
  let c := ex_bwd_block 16 f32_zero in
  let w := ex_world 8 0 16 in
  is_backward c = true
  /\ exists r,
       result c w = Ok r
       /\ exists softmax_d,
            r = call_grads c ++ [softmax_d]
            /\ t_dtype softmax_d = kFloat
            /\ t_sizes softmax_d
               = [batch_size_of (call_cu_seqlens_q c); num_heads_of (call_q c);
                  padded_max_seqlen_q (call_max_seqlen_q_ c)]
            /\ bufs w !! t_buf softmax_d = None.
Proof.
  intros c w.
  split; [ reflexivity | ].
  eexists. split; [ vm_compute; reflexivity | ].
  apply (X15_bwd_returns c w).
  - vm_compute. reflexivity.
  - reflexivity.
Defined.

Lemma X16_witness :
  let a := ex_bwd_args 8 16 300 f32_half true 0 in
  let w := ex_world 8 0 8 in
  b_zero_tensors a = true
  /\ Forall (fun t => is_Some (bufs w !! t_buf t)) [b_dq a; b_dk a; b_dv a]
  /\ NoDup [t_buf (b_dq a); t_buf (b_dk a); t_buf (b_dv a)]
  /\ exists r,
       result (bwd a) w = Ok r
       /\ exists new softmax_d,
            trace (final (bwd a) w) = trace w ++ new
            /\ last r = Some softmax_d
            /\ length (snapshots new) = 2%nat
            /\ Forall (fun st => Forall (fun t => filled t zero_cell st)
                                   [b_dq a; b_dk a; b_dv a; softmax_d])
                 (snapshots new).
Proof.
  intros a w.
  assert (L : Forall (fun t => is_Some (bufs w !! t_buf t)) [b_dq a; b_dk a; b_dv a])
    by (repeat constructor; exists (replicate 16 half_cell); vm_compute; reflexivity).
  assert (N : NoDup [t_buf (b_dq a); t_buf (b_dk a); t_buf (b_dv a)])
    by (cbn; repeat (apply NoDup_cons_2; [ rewrite ?not_elem_of_cons;
          repeat split; try discriminate; apply not_elem_of_nil | ]);
        apply NoDup_nil_2).
  split; [ reflexivity | ]. split; [ exact L | ]. split; [ exact N | ].
  eexists. split; [ vm_compute; reflexivity | ].
  apply (X16_bwd_zero_tensors a w).
  - vm_compute. reflexivity.
  - reflexivity.
  - exact L.
  - exact N.
Defined.

Lemma X17_witness :
  let c := ex_fwd_block 16 f32_half in
  let w := ex_world 8 0 16 in
  (exists r, result c w = Ok r)
  /\ call_blockmask c = Some (ex_blockmask 11)
  /\ -16 < call_max_seqlen_q_ c <= INT_MAX - 16
  /\ -256 < call_max_seqlen_k_ c <= INT_MAX - 256
  /\ exists sq sk p ps,
       flat_map launched_params (trace (final c w))
       = flat_map launched_params (trace w) ++ p :: ps
       /\ Forall (fun p' => params_seqlen_q p' = sq /\ params_seqlen_k p' = sk
                            /\ blockmask p' = data_ptr (ex_blockmask 11)) (p :: ps)
       /\ rounds_up (call_max_seqlen_q_ c) 16 sq
       /\ (if call_max_seqlen_k_ c <=? 256 then sk = 256
           else rounds_up (call_max_seqlen_k_ c) 256 sk)
       /\ t_sizes (ex_blockmask 11) = [sk / 256; sq / 16]
       /\ (is_Some (o_tmp_ptr p) <-> 256 < sk).
Proof.
  intros c w.
  split; [ eexists; vm_compute; reflexivity | ].
  split; [ reflexivity | ].
  split; [ vm_compute; split; [ reflexivity | discriminate ] | ].
  split; [ vm_compute; split; [ reflexivity | discriminate ] | ].
  eapply (X17_block_tiling c w).
  - vm_compute. reflexivity.
  - reflexivity.
  - vm_compute. split; [ reflexivity | discriminate ].
  - vm_compute. split; [ reflexivity | discriminate ].
Defined.

Lemma X18_witness :
  let c := ex_fwd 8 16 16 f32_half false false in
  let w := ex_world 8 0 8 in
  (exists r, result c w = Ok r)
  /\ exists ps,
       flat_map launched_params (trace (final c w))
       = flat_map launched_params (trace w) ++ ps
       /\ ps <> []
       /\ Forall (carries_inputs c) ps.
Proof.
  intros c w.
  split; [ eexists; vm_compute; reflexivity | ].
  eapply (X18_launch_carries_inputs c w).
  vm_compute. reflexivity.
Defined.

Lemma X19_witness :
  let c := ex_bwd 8 16 300 f32_half false 0 in
  let w := ex_world 8 0 8 in
  is_backward c = true
  /\ exists r,
       result c w = Ok r
       /\ exists new softmax_d,
            trace (final c w) = trace w ++ new
            /\ last r = Some softmax_d
            /\ bwd_launches new <> []
            /\ Forall (fun l => carries_grads c softmax_d (fst l)) (bwd_launches new).
Proof.
  intros c w.
  split; [ reflexivity | ].
  eexists. split; [ vm_compute; reflexivity | ].
  apply (X19_bwd_launch_carries_grads c w).
  - vm_compute. reflexivity.
  - reflexivity.
Defined.
